(** * NodeJS_PythonIPC: the Python side, embedded in Rocq

    Three source files are covered:
    - [shared_memoryPythonSystemV.py]: class [SharedMemory] over libc's
      System V calls through ctypes                      (module [SysV]);
    - [py_ipc.py]: class [SharedMemory] over the [sysv_ipc] extension
      module                                             (module [PyIpc]);
    - [old/python/python_IPC.py]: class [IPCServer], the Unix-socket
      request/response loop                              (module [IPCServer]).

    Python values are modelled by the inductive [value]; [bytes] by
    [list byte]; [str] by a [string] holding its UTF-8 encoding; Python
    integers by [Z]; exceptions by an error monad with explicit state, in
    which a method that raises keeps the changes it had made.

    What the programs call but do not define is modelled next to them:
    [struct] and UTF-8 decoding in full; libc's shmget, shmat, shmdt and
    shmctl as a small kernel (module [Kernel]); [sys.byteorder] and the
    [json] module as the class [Runtime], of which module [Json] gives one
    executable instance.  The statements about framing hold for every
    [Runtime]; the closed examples run on that instance. *)

From Stdlib Require Import ZArith List Lia Bool.
From Stdlib.Strings Require Import String Ascii Byte.
From Stdlib Require Import DecimalString.
From stdpp Require Import base option list gmap strings.

Local Open Scope Z_scope.
Set Warnings "-register-all".

(** ** Exceptions and the state-and-exception monad *)

(** The exception classes the three files can meet.  Every one of them
    but the last derives from [Exception], so [except Exception] and a
    bare [except] catch all of them; asynchronous interrupts are not
    modelled. *)
Inductive exn_class :=
  | StructError          (* struct.error *)
  | IndexError
  | KeyError
  | TypeError
  | ValueError
  | UnicodeDecodeError
  | JSONDecodeError      (* json.JSONDecodeError *)
  | OSError
  | ExistentialError     (* sysv_ipc.ExistentialError *)
  | NotAttachedError     (* sysv_ipc.NotAttachedError *)
  | PermissionsError     (* sysv_ipc.PermissionsError *)
  | SegmentationFault.   (* no exception: the process dies on a bad address;
                            only raised outside every [try] *)

#[global] Instance exn_class_eq_dec : EqDecision exn_class.
Proof. solve_decision. Defined.

(** An exception object: its class and [str(e)].  The texts of decoding
    and parsing errors are abridged (no position). *)
Record exn := Exn { exn_cls : exn_class; exn_str : string }.

Inductive result (A : Type) :=
  | Ok (a : A)
  | Raise (e : exn).
Arguments Ok {A} a.
Arguments Raise {A} e.

Definition M (S A : Type) : Type := S -> result A * S.

Definition ret {S A} (a : A) : M S A := fun s => (Ok a, s).

Definition bind {S A B} (m : M S A) (k : A -> M S B) : M S B :=
  fun s => match m s with
           | (Ok a, s') => k a s'
           | (Raise e, s') => (Raise e, s')
           end.

Definition raise {S A} (e : exn) : M S A := fun s => (Raise e, s).

Definition lift_result {S A} (r : result A) : M S A := fun s => (r, s).

Definition get {S} : M S S := fun s => (Ok s, s).
Definition put {S} (s : S) : M S unit := fun _ => (Ok tt, s).

(** [try: m  except Exception as e: h e] *)
Definition try_except {S A} (m : M S A) (h : exn -> M S A) : M S A :=
  fun s => match m s with
           | (Ok a, s') => (Ok a, s')
           | (Raise e, s') => h e s'
           end.

(** [try: m  finally: f] *)
Definition try_finally {S A} (m : M S A) (f : M S unit) : M S A :=
  fun s => match m s with
           | (r, s') => match f s' with
                        | (Ok _, s'') => (r, s'')
                        | (Raise e, s'') => (Raise e, s'')
                        end
           end.

(** [try: m  except C as e: h e], for the classes [C] picked by [c]. *)
Definition try_except_when {S A} (c : exn_class -> bool)
    (m : M S A) (h : exn -> M S A) : M S A :=
  fun s => match m s with
           | (Ok a, s') => (Ok a, s')
           | (Raise e, s') => if c (exn_cls e) then h e s' else (Raise e, s')
           end.

#[global] Instance M_ret {S} : MRet (M S) := fun A a => ret a.
#[global] Instance M_bind {S} : MBind (M S) := fun A B k m => bind m k.

(** ** Bytes and [struct] *)

Definition Z_of_byte (b : byte) : Z := Z.of_N (Byte.to_N b).

Definition byte_of_Z (z : Z) : byte :=
  match Byte.of_N (Z.to_N (z mod 256)) with
  | Some b => b
  | None => x00
  end.

(** [sys.byteorder] *)
Inductive endianness := LittleEndian | BigEndian.

Definition le_bytes (n : Z) : list byte :=
  [byte_of_Z n; byte_of_Z (n / 256); byte_of_Z (n / 65536);
   byte_of_Z (n / 16777216)].

Definition le_value (bs : list byte) : Z :=
  fold_right (fun b acc => Z_of_byte b + 256 * acc) 0 bs.

Definition native_bytes (bo : endianness) (n : Z) : list byte :=
  match bo with
  | LittleEndian => le_bytes n
  | BigEndian => rev (le_bytes n)
  end.

Definition native_value (bo : endianness) (bs : list byte) : Z :=
  match bo with
  | LittleEndian => le_value bs
  | BigEndian => le_value (rev bs)
  end.

Definition struct_error (msg : string) : exn := Exn StructError msg.

(** [struct.pack('=I', n)]: 4 bytes, unsigned, native order. *)
Definition pack_I (bo : endianness) (n : Z) : result (list byte) :=
  if (0 <=? n) && (n <? 2 ^ 32) then Ok (native_bytes bo n)
  else Raise (struct_error "argument out of range").

(** [struct.pack('i', n)]: 4 bytes, signed (two's complement), native
    order. *)
Definition pack_i (bo : endianness) (n : Z) : result (list byte) :=
  if (- 2 ^ 31 <=? n) && (n <? 2 ^ 31) then Ok (native_bytes bo (n mod 2 ^ 32))
  else Raise (struct_error "argument out of range").

(** [struct.unpack('=I', bs)[0]] on exactly 4 bytes. *)
Definition unpack_I (bo : endianness) (bs : list byte) : result Z :=
  if decide (length bs = 4%nat) then Ok (native_value bo bs)
  else Raise (struct_error "unpack requires a buffer of 4 bytes").

(** [struct.unpack('i', bs)[0]] on exactly 4 bytes. *)
Definition unpack_i (bo : endianness) (bs : list byte) : result Z :=
  if decide (length bs = 4%nat) then
    let u := native_value bo bs in
    Ok (if u <? 2 ^ 31 then u else u - 2 ^ 32)
  else Raise (struct_error "unpack requires a buffer of 4 bytes").

(** ** Python values *)

Inductive value :=
  | VNone
  | VBool (b : bool)
  | VInt (z : Z)
  | VStr (s : string)
  | VList (l : list value)
  | VDict (d : list (string * value))   (* insertion-ordered, keys unique *)
  | VBytes (b : list byte).             (* not JSON-serializable *)

(** ** Python operators on values *)

Definition type_name (v : value) : string :=
  match v with
  | VNone => "NoneType"
  | VBool _ => "bool"
  | VInt _ => "int"
  | VStr _ => "str"
  | VList _ => "list"
  | VDict _ => "dict"
  | VBytes _ => "bytes"
  end.

Fixpoint dict_get (d : list (string * value)) (k : string) : option value :=
  match d with
  | [] => None
  | (k', v) :: rest => if String.eqb k' k then Some v else dict_get rest k
  end.

(** [d[k] = v] on a dict: a present key keeps its place. *)
Fixpoint dict_set (d : list (string * value)) (k : string) (v : value)
    : list (string * value) :=
  match d with
  | [] => [(k, v)]
  | (k', v') :: rest =>
    if String.eqb k' k then (k', v) :: rest else (k', v') :: dict_set rest k v
  end.

(** [v[k]] for a string [k] without quotes in it ([KeyError] shows the
    key's [repr]). *)
Definition getitem (v : value) (k : string) : result value :=
  match v with
  | VDict d =>
    match dict_get d k with
    | Some x => Ok x
    | None => Raise (Exn KeyError ("'" ++ k ++ "'"))
    end
  | VList _ =>
    Raise (Exn TypeError "list indices must be integers or slices, not str")
  | VStr _ => Raise (Exn TypeError "string indices must be integers, not 'str'")
  | VBytes _ =>
    Raise (Exn TypeError "byte indices must be integers or slices, not str")
  | _ => Raise (Exn TypeError ("'" ++ type_name v ++ "' object is not subscriptable"))
  end.

Fixpoint str_repeat (s : string) (n : nat) : string :=
  match n with
  | O => EmptyString
  | S n' => (s ++ str_repeat s n')%string
  end.

(** [v * n] for an integer [n]: numbers multiply, sequences repeat. *)
Definition mul (v : value) (n : Z) : result value :=
  match v with
  | VInt z => Ok (VInt (z * n))
  | VBool b => Ok (VInt ((if b then 1 else 0) * n))
  | VStr s => Ok (VStr (str_repeat s (Z.to_nat n)))
  | VList l => Ok (VList (concat (replicate (Z.to_nat n) l)))
  | VBytes b => Ok (VBytes (concat (replicate (Z.to_nat n) b)))
  | _ => Raise (Exn TypeError ("unsupported operand type(s) for *: '"
                                ++ type_name v ++ "' and 'int'"))
  end.

(** ** Text: [str.encode('utf-8')] and [bytes.decode('utf-8')] *)

(** A [str] is held as its UTF-8 encoding, so encoding is the identity on
    the underlying bytes. *)
Definition str_encode (s : string) : list byte := list_byte_of_string s.

Definition is_cont (b : byte) : bool :=
  (0x80 <=? Z_of_byte b) && (Z_of_byte b <=? 0xBF).

Definition in_range (lo hi : Z) (b : byte) : bool :=
  (lo <=? Z_of_byte b) && (Z_of_byte b <=? hi).

(** Well-formed UTF-8 (no overlong forms, no surrogates, at most
    U+10FFFF), as the strict decoder of CPython accepts it. *)
Fixpoint utf8_valid (bs : list byte) : bool :=
  match bs with
  | [] => true
  | b0 :: t0 =>
    if Z_of_byte b0 <? 0x80 then utf8_valid t0
    else match t0 with
    | [] => false
    | b1 :: t1 =>
      if in_range 0xC2 0xDF b0 then is_cont b1 && utf8_valid t1
      else match t1 with
      | [] => false
      | b2 :: t2 =>
        if in_range 0xE0 0xEF b0 then
          (if Z_of_byte b0 =? 0xE0 then in_range 0xA0 0xBF b1
           else if Z_of_byte b0 =? 0xED then in_range 0x80 0x9F b1
           else is_cont b1)
          && is_cont b2 && utf8_valid t2
        else match t2 with
        | [] => false
        | b3 :: t3 =>
          if in_range 0xF0 0xF4 b0 then
            (if Z_of_byte b0 =? 0xF0 then in_range 0x90 0xBF b1
             else if Z_of_byte b0 =? 0xF4 then in_range 0x80 0x8F b1
             else is_cont b1)
            && is_cont b2 && is_cont b3 && utf8_valid t3
          else false
        end
      end
    end
  end.

Definition bytes_decode (bs : list byte) : result string :=
  if utf8_valid bs then Ok (string_of_list_byte bs)
  else Raise (Exn UnicodeDecodeError "'utf-8' codec can't decode bytes").

(** ** The interpreter's environment

    [sys.byteorder] and the [json] module: the programs use them but do
    not define them.  [json.loads] rejects the empty document. *)
Class Runtime := {
  byteorder : endianness;
  json_dumps : value -> result string;
  json_loads : string -> result value;
  json_loads_empty : exists e, json_loads EmptyString = Raise e;
}.

(** Lines written to standard output by [print(f"...")]: the fixed text
    and the interpolated object. *)
Inductive line :=
  | Print (s : string)
  | PrintValue (s : string) (v : value)
  | PrintExn (s : string) (e : exn)
  | PrintInt (s : string) (n : Z).

(** [str(n)] for an integer. *)
Definition str_of_Z (z : Z) : string := NilZero.string_of_int (Z.to_int z).

Definition zoom_snd {O S A} (m : M S A) : M (O * S) A :=
  fun os => match m (snd os) with (r, s') => (r, (fst os, s')) end.

Definition get_self {O S} : M (O * S) O := fun os => (Ok (fst os), os).
Definition set_self {O S} (o : O) : M (O * S) unit :=
  fun os => (Ok tt, (o, snd os)).

(** ** System V shared memory as libc and the kernel provide it

    The calls the two [SharedMemory] classes make, after shmget(2),
    shmat(2), shmdt(2) and shmctl(2) on Linux: a table of segments by
    identifier, a table of keys, and per process the attached addresses,
    [errno] and standard output. *)

Module Kernel.

Definition EPERM : Z := 1.
Definition ENOENT : Z := 2.
Definition EACCES : Z := 13.
Definition EEXIST : Z := 17.
Definition EINVAL : Z := 22.
Definition ENOSPC : Z := 28.

Definition IPC_CREAT : Z := 512.   (* 0o1000 *)
Definition IPC_EXCL : Z := 1024.   (* 0o2000 *)
Definition IPC_RMID : Z := 0.
Definition IPC_PRIVATE : Z := 0.

(** One segment: [struct shmid_ds] and the memory itself. *)
Record shmid_ds := Shm {
  shm_key : Z;
  shm_segsz : Z;
  shm_cuid : Z;            (* creator, who may remove it *)
  shm_mode : Z;            (* permission bits *)
  shm_nattch : nat;        (* current attaches *)
  shm_dest : bool;         (* marked for destruction by IPC_RMID *)
  shm_bytes : list byte;
}.

Record kernel := Kern {
  segments : gmap Z shmid_ds;   (* by identifier *)
  keys : gmap Z Z;              (* key -> identifier *)
  next_shmid : Z;
  shmmax : Z;                   (* SHMMAX: largest segment *)
  shmmni : nat;                 (* SHMMNI: most segments *)
}.

Record process := Proc {
  euid : Z;
  attached : gmap Z Z;          (* address -> identifier *)
  next_addr : Z;
  errno : Z;
  stdout : list line;
}.

Record world := World { kern : kernel; proc : process }.

Definition set_errno (e : Z) (p : process) : process :=
  Proc (euid p) (attached p) (next_addr p) e (stdout p).

Definition set_attached (a : gmap Z Z) (n : Z) (p : process) : process :=
  Proc (euid p) a n (errno p) (stdout p).

Definition set_stdout (o : list line) (p : process) : process :=
  Proc (euid p) (attached p) (next_addr p) (errno p) o.

Definition set_segments (s : gmap Z shmid_ds) (k : kernel) : kernel :=
  Kern s (keys k) (next_shmid k) (shmmax k) (shmmni k).

Definition set_bytes (b : list byte) (d : shmid_ds) : shmid_ds :=
  Shm (shm_key d) (shm_segsz d) (shm_cuid d) (shm_mode d) (shm_nattch d)
      (shm_dest d) b.

Definition set_nattch (n : nat) (d : shmid_ds) : shmid_ds :=
  Shm (shm_key d) (shm_segsz d) (shm_cuid d) (shm_mode d) n (shm_dest d)
      (shm_bytes d).

(** A failing call: [errno] is set and the C function returns [ret]. *)
Definition fail (e ret : Z) (w : world) : result Z * world :=
  (Ok ret, World (kern w) (set_errno e (proc w))).

(** ipcperms(): the access bits [want] (of [rwx]) the caller asks for,
    against the owner's or the others' bits of the segment's mode; root
    may do anything.  Groups are left out. *)
Definition permitted (uid want : Z) (d : shmid_ds) : bool :=
  let granted :=
    if bool_decide (uid = shm_cuid d) then Z.shiftr (shm_mode d) 6
    else shm_mode d in
  bool_decide (uid = 0)
  || (Z.land (Z.land want (Z.lnot granted)) 7 =? 0).

Definition requested (shmflg : Z) : Z :=
  Z.lor (Z.lor (Z.shiftr shmflg 6) (Z.shiftr shmflg 3)) shmflg.

Definition create (key size shmflg : Z) (w : world) : result Z * world :=
  let k := kern w in
  if bool_decide (size < 1 \/ size > shmmax k) then fail EINVAL (-1) w
  else if bool_decide (shmmni k <= base.size (segments k))%nat then
    fail ENOSPC (-1) w
  else
    let id := next_shmid k in
    let d := Shm key size (euid (proc w)) (Z.land shmflg 511) 0 false
                 (replicate (Z.to_nat size) x00) in
    (Ok id,
     World (Kern (<[id := d]> (segments k))
                 (if bool_decide (key = IPC_PRIVATE) then keys k
                  else <[key := id]> (keys k))
                 (id + 1) (shmmax k) (shmmni k))
           (proc w)).

(** [shmget(key, size, shmflg)] *)
Definition shmget (key size shmflg : Z) : M world Z :=
  fun w =>
    let k := kern w in
    match (if bool_decide (key = IPC_PRIVATE) then None else keys k !! key) with
    | Some id =>
      match segments k !! id with
      | Some d =>
        if (Z.land shmflg IPC_CREAT =? IPC_CREAT)
           && (Z.land shmflg IPC_EXCL =? IPC_EXCL)
        then fail EEXIST (-1) w
        else if bool_decide (size > shm_segsz d) then fail EINVAL (-1) w
        else if negb (permitted (euid (proc w)) (requested shmflg) d)
        then fail EACCES (-1) w
        else (Ok id, w)
      | None => fail EINVAL (-1) w
      end
    | None =>
      if Z.land shmflg IPC_CREAT =? IPC_CREAT then create key size shmflg w
      else fail ENOENT (-1) w
    end.

(** [shmat(shmid, NULL, 0)]: attach for reading and writing at an
    address the kernel chooses; [(void * ) -1] on failure. *)
Definition shmat (shmid : Z) : M world Z :=
  fun w =>
    let k := kern w in
    match segments k !! shmid with
    | Some d =>
      if negb (permitted (euid (proc w)) 6 d) then fail EACCES (-1) w
      else
        let a := next_addr (proc w) in
        (Ok a,
         World (set_segments (<[shmid := set_nattch (S (shm_nattch d)) d]> (segments k)) k)
               (set_attached (<[a := shmid]> (attached (proc w)))
                             (a + shm_segsz d) (proc w)))
    | None => fail EINVAL (-1) w
    end.

(** The last detach of a segment marked for destruction frees it. *)
Definition drop_attach (shmid : Z) (k : kernel) : kernel :=
  match segments k !! shmid with
  | Some d =>
    let n := pred (shm_nattch d) in
    if shm_dest d && bool_decide (n = 0%nat)
    then set_segments (delete shmid (segments k)) k
    else set_segments (<[shmid := set_nattch n d]> (segments k)) k
  | None => k
  end.

(** [shmdt(shmaddr)]; [None] is the NULL pointer. *)
Definition shmdt (shmaddr : option Z) : M world Z :=
  fun w =>
    match shmaddr ≫= λ a, (λ id, (a, id)) <$> attached (proc w) !! a with
    | Some (a, id) =>
      (Ok 0,
       World (drop_attach id (kern w))
             (set_attached (delete a (attached (proc w)))
                           (next_addr (proc w)) (proc w)))
    | None => fail EINVAL (-1) w
    end.

(** [shmctl(shmid, IPC_RMID, NULL)]: only the creator (or root) may; the
    key is released at once, the memory when nobody is attached. *)
Definition shmctl_rmid (shmid : Z) : M world Z :=
  fun w =>
    let k := kern w in
    match segments k !! shmid with
    | Some d =>
      if negb (bool_decide (euid (proc w) = shm_cuid d)
               || bool_decide (euid (proc w) = 0))
      then fail EPERM (-1) w
      else
        let keys' := if bool_decide (keys k !! shm_key d = Some shmid)
                     then delete (shm_key d) (keys k) else keys k in
        let segs' := if bool_decide (shm_nattch d = 0%nat)
                     then delete shmid (segments k)
                     else <[shmid := Shm IPC_PRIVATE (shm_segsz d) (shm_cuid d)
                                         (shm_mode d) (shm_nattch d) true
                                         (shm_bytes d)]> (segments k) in
        (Ok 0, World (Kern segs' keys' (next_shmid k) (shmmax k) (shmmni k))
                     (proc w))
    | None => fail EINVAL (-1) w
    end.

Definition get_errno : M world Z := fun w => (Ok (errno (proc w)), w).

Definition print (l : line) : M world unit :=
  fun w => (Ok tt, World (kern w) (set_stdout (stdout (proc w) ++ [l]) (proc w))).

(** The bytes of the segment attached at [a], if any. *)
Definition mapped (a : Z) (w : world) : option (Z * shmid_ds) :=
  id ← attached (proc w) !! a;
  d ← segments (kern w) !! id;
  Some (id, d).

Definition store (id : Z) (d : shmid_ds) (b : list byte) (w : world) : world :=
  World (set_segments (<[id := set_bytes b d]> (segments (kern w))) (kern w))
        (proc w).

End Kernel.

(** ** [shared_memoryPythonSystemV.py]: the frame codec over a ctypes array *)

Module SysV.

(** What [write] and [read] touch: the bytes behind [self.memory], a
    ctypes array [(c_char * self.size)] laid over the attached segment,
    and standard output. *)
Record buffer := Buffer { mem : list byte; stdout : list line }.

Definition print (l : line) : M buffer unit :=
  fun s => (Ok tt, Buffer (mem s) (stdout s ++ [l])).

(** [ctypes.memset(ctypes.addressof(self.memory), c, n)], for [n] within
    the array. *)
Definition memset (c : byte) (n : Z) : M buffer unit :=
  fun s => (Ok tt,
            Buffer (replicate (Z.to_nat n `min` length (mem s)) c
                      ++ drop (Z.to_nat n) (mem s))
                   (stdout s)).

(** [self.memory[i] = bytes([b])]: ctypes checks the index. *)
Definition setitem (i : Z) (b : byte) : M buffer unit :=
  fun s => if bool_decide (0 <= i < Z.of_nat (length (mem s)))
           then (Ok tt, Buffer (<[Z.to_nat i := b]> (mem s)) (stdout s))
           else (Raise (Exn IndexError "invalid index"), s).

(** [bytes(self.memory[start:stop])] for non-negative bounds: slicing
    clamps to the array. *)
Definition getslice (start stop : Z) : M buffer (list byte) :=
  fun s => (Ok (take (Z.to_nat (stop - start)) (drop (Z.to_nat start) (mem s))), s).

Section codec.
Context `{Runtime}.

(** [struct.pack_into('=I', self.memory, offset, n)] *)
Definition pack_into (offset n : Z) : M buffer unit :=
  fun s =>
    if bool_decide (0 <= offset /\ offset + 4 <= Z.of_nat (length (mem s))) then
      match pack_I byteorder n with
      | Ok bs => (Ok tt,
                  Buffer (take (Z.to_nat offset) (mem s) ++ bs
                            ++ drop (Z.to_nat (offset + 4)) (mem s))
                         (stdout s))
      | Raise e => (Raise e, s)
      end
    else (Raise (struct_error "pack_into requires a buffer of at least 4 bytes"), s).

(** [struct.unpack_from('=I', self.memory, offset)[0]] *)
Definition unpack_from (offset : Z) : M buffer Z :=
  fun s =>
    if bool_decide (0 <= offset /\ offset + 4 <= Z.of_nat (length (mem s))) then
      (unpack_I byteorder (take 4 (drop (Z.to_nat offset) (mem s))), s)
    else (Raise (struct_error "unpack_from requires a buffer of at least 4 bytes"), s).

(** [for i, b in enumerate(json_bytes): self.memory[4 + i] = bytes([b])],
    from index [i] on. *)
Fixpoint write_loop (i : Z) (json_bytes : list byte) : M buffer unit :=
  match json_bytes with
  | [] => mret tt
  | b :: rest => setitem (4 + i) b ≫= λ _, write_loop (i + 1) rest
  end.

(** [SharedMemory.write(self, data)], with [size] standing for
    [self.size]. *)
Definition write (size : Z) (data : value) : M buffer unit :=
  try_except
    (json_str ← lift_result (json_dumps data);
     let json_bytes := str_encode json_str in
     memset x00 size ≫= λ _,
     pack_into 0 (Z.of_nat (length json_bytes)) ≫= λ _,
     write_loop 0 json_bytes ≫= λ _,
     print (PrintValue "Successfully wrote to shared memory: " data))
    (fun e => print (PrintExn "Write error: " e) ≫= λ _, raise e).

(** [SharedMemory.read(self)].  Python's [None] is [VNone], which is also
    what [json.loads] gives for the document [null]. *)
Definition read (size : Z) : M buffer value :=
  try_except
    (length ← unpack_from 0;
     if bool_decide (length <= 0 \/ length > size - 4) then mret VNone
     else
       data_bytes ← getslice 4 (4 + length);
       data_str ← lift_result (bytes_decode data_bytes);
       lift_result (json_loads data_str))
    (fun e => print (PrintExn "Read error: " e) ≫= λ _, mret VNone).

End codec.

(** *** The object and its segment *)

(** ctypes conversions: [c_int] wraps to 32 signed bits; a [c_int] passed
    where libc reads a [size_t] is sign-extended to 64 bits; a result of
    type [c_void_p] comes back as an unsigned integer. *)
Definition c_int (z : Z) : Z :=
  let u := z mod 2 ^ 32 in if u <? 2 ^ 31 then u else u - 2 ^ 32.
Definition size_t (z : Z) : Z := z mod 2 ^ 64.
Definition c_void_p (z : Z) : Z := z mod 2 ^ 64.

(** [(c_char * len).from_address(addr)] *)
Record c_array := CArray { addr : Z; len : Z }.

Record SharedMemory := Self {
  key : Z;
  size : Z;
  shmid : option Z;
  memory : option c_array;
}.

Definition state : Type := SharedMemory * Kernel.world.

Definition libc {A} (m : M Kernel.world A) : M state A := zoom_snd m.

Definition os_error (what : string) (errno : Z) : exn :=
  Exn OSError (what ++ " failed with errno " ++ str_of_Z errno).

(** [SharedMemory.init(self)] *)
Definition init : M state unit :=
  self ← get_self;
  shmid ← libc (Kernel.shmget (c_int (key self)) (size_t (c_int (size self)))
                              (c_int (Z.lor Kernel.IPC_CREAT 438)));
  set_self (Self (key self) (size self) (Some shmid) (memory self)) ≫= λ _,
  (if bool_decide (shmid = -1) then
     errno ← libc Kernel.get_errno;
     raise (os_error "shmget" errno)
   else mret tt) ≫= λ _,
  address ← libc (Kernel.shmat shmid);
  let addr := c_void_p address in
  (if bool_decide (addr = -1) then
     errno ← libc Kernel.get_errno;
     raise (os_error "shmat" errno)
   else mret tt) ≫= λ _,
  (if size self <? 0 then raise (Exn ValueError "Array length must be >= 0")
   else mret tt) ≫= λ _,
  set_self (Self (key self) (size self) (Some shmid)
                 (Some (CArray addr (size self)))) ≫= λ _,
  libc (Kernel.print (Print "Successfully initialized shared memory")).

(** [SharedMemory(key, size)] *)
Definition __init__ (key size : Z) : M state unit :=
  set_self (Self key size None None) ≫= λ _, init.

(** Truth value of [self.memory]: [None] is false, a ctypes array is
    true when it is not empty. *)
Definition truthy (m : option c_array) : bool :=
  match m with
  | Some a => 0 <? len a
  | None => false
  end.

(** [SharedMemory.cleanup(self)] *)
Definition cleanup : M state unit :=
  self ← get_self;
  if truthy (memory self) then
    try_finally
      (try_except
         (result ← libc (Kernel.shmdt (addr <$> memory self));
          (if bool_decide (result = -1) then
             errno ← libc Kernel.get_errno;
             libc (Kernel.print (PrintInt "shmdt failed with errno " errno))
           else mret tt) ≫= λ _,
          result ← match shmid self with
                   | Some id => libc (Kernel.shmctl_rmid id)
                   | None => raise (Exn TypeError "wrong type")
                   end;
          (if bool_decide (result = -1) then
             errno ← libc Kernel.get_errno;
             libc (Kernel.print (PrintInt "shmctl failed with errno " errno))
           else mret tt) ≫= λ _,
          libc (Kernel.print (Print "Successfully cleaned up shared memory")))
         (fun e => libc (Kernel.print (PrintExn "Cleanup error: " e))))
      (set_self (Self (key self) (size self) None None))
  else mret tt.

(** Running [write] or [read] on the segment behind a ctypes array: the
    array covers the first [len] bytes of what is attached at [addr]. *)
Definition on_memory {A} (arr : c_array) (m : M buffer A) : M Kernel.world A :=
  fun w =>
    match Kernel.mapped (addr arr) w with
    | Some (id, d) =>
      let n := Z.to_nat (len arr) in
      match m (Buffer (take n (Kernel.shm_bytes d)) (Kernel.stdout (Kernel.proc w))) with
      | (r, b) =>
        (r, Kernel.store id d (mem b ++ drop n (Kernel.shm_bytes d))
              (Kernel.World (Kernel.kern w)
                            (Kernel.set_stdout (stdout b) (Kernel.proc w))))
      end
    | None => (Raise (Exn SegmentationFault "bad address"), w)
    end.

End SysV.

(** ** [py_ipc.py]: the same channel over the [sysv_ipc] module *)

Module PyIpc.

(** *** [sysv_ipc.SharedMemory.read] and [.write] on an attached segment

    After the module's documentation: a read never goes past the end of
    the segment and a byte count of zero means "to the end"; a write past
    the end is refused.  The state is the segment's memory. *)

Definition seg_read (byte_count offset : Z) : M (list byte) (list byte) :=
  fun seg =>
    let size := Z.of_nat (length seg) in
    if bool_decide (offset < 0 \/ offset >= size) then
      (Raise (Exn ValueError "The offset must be less than the segment size"), seg)
    else if bool_decide (byte_count < 0) then
      (Raise (Exn ValueError "The byte_count cannot be negative"), seg)
    else
      let n := if bool_decide (byte_count = 0 \/ byte_count > size - offset)
               then size - offset else byte_count in
      (Ok (take (Z.to_nat n) (drop (Z.to_nat offset) seg)), seg).

Definition seg_write (s : list byte) (offset : Z) : M (list byte) unit :=
  fun seg =>
    let size := Z.of_nat (length seg) in
    if bool_decide (offset < 0) then
      (Raise (Exn ValueError "The offset cannot be negative"), seg)
    else if bool_decide (Z.of_nat (length s) > size - offset) then
      (Raise (Exn ValueError "Attempt to write past end of memory segment"), seg)
    else
      (Ok tt, take (Z.to_nat offset) seg ++ s
                ++ drop (Z.to_nat offset + length s) seg).

Section codec.
Context `{Runtime}.

(** [SharedMemory.write(self, data)], [self.memory] being attached. *)
Definition write (data : value) : M (list byte) unit :=
  json_str ← lift_result (json_dumps data);
  let json_bytes := str_encode json_str in
  length_bytes ← lift_result (pack_i byteorder (Z.of_nat (length json_bytes)));
  seg_write length_bytes 0 ≫= λ _,
  seg_write json_bytes 4.

(** [SharedMemory.read(self)], [self.memory] being attached. *)
Definition read : M (list byte) value :=
  length_bytes ← seg_read 4 0;
  length ← lift_result (unpack_i byteorder length_bytes);
  data_bytes ← seg_read length 4;
  json_str ← lift_result (bytes_decode data_bytes);
  lift_result (json_loads json_str).

(** One turn of the monitor loop under [__main__], without the sleep:
    [try: data = shared_mem.read(); print(...)]
    [except json.JSONDecodeError: pass].  The state is standard output
    and the segment. *)
Definition print (l : line) : M (list line * list byte) unit :=
  fun s => (Ok tt, (fst s ++ [l], snd s)).

Definition monitor_step : M (list line * list byte) unit :=
  try_except_when (λ c, bool_decide (c = JSONDecodeError))
    (data ← zoom_snd read;
     print (PrintValue "Read from shared memory: " data))
    (fun _ => mret tt).

End codec.

(** *** The object and its segment *)

(** A [sysv_ipc.SharedMemory] object: the identifier and the address it
    is attached at ([None] once detached). *)
Record shm_object := ShmObj { id : Z; address : option Z }.

Record SharedMemory := Self {
  key : Z;
  size : Z;
  memory : option shm_object;
}.

Definition state : Type := SharedMemory * Kernel.world.

Definition libc {A} (m : M Kernel.world A) : M state A := zoom_snd m.

Definition PAGE_SIZE : Z := 4096.

(** How [sysv_ipc] turns [errno] into an exception. *)
Definition shmget_error (errno : Z) : exn :=
  if bool_decide (errno = Kernel.EACCES) then
    Exn PermissionsError "Permission denied"
  else if bool_decide (errno = Kernel.EEXIST) then
    Exn ExistentialError "Shared memory with the key already exists"
  else if bool_decide (errno = Kernel.ENOENT) then
    Exn ExistentialError "No shared memory exists with the key"
  else if bool_decide (errno = Kernel.EINVAL) then
    Exn ValueError "The size is invalid"
  else Exn OSError (str_of_Z errno).

Definition shmat_error (errno : Z) : exn :=
  if bool_decide (errno = Kernel.EACCES) then
    Exn PermissionsError "No permission to attach"
  else if bool_decide (errno = Kernel.EINVAL) then
    Exn ValueError "Invalid id or address"
  else Exn OSError (str_of_Z errno).

Definition shmdt_error (errno : Z) : exn :=
  if bool_decide (errno = Kernel.EINVAL) then Exn NotAttachedError "Not attached"
  else Exn OSError (str_of_Z errno).

Definition shmctl_error (errno : Z) : exn :=
  if bool_decide (errno = Kernel.EINVAL) then
    Exn ExistentialError "The segment no longer exists"
  else if bool_decide (errno = Kernel.EPERM) then
    Exn PermissionsError "Permission denied"
  else Exn OSError (str_of_Z errno).

(** [sysv_ipc.SharedMemory(key, flags, size=size)], after the module's
    source: the permissions come from [mode], left here at its default
    [0o600] (384), and permission bits given in [flags] are dropped; then
    the segment is got and attached. *)
Definition sysv_ipc_SharedMemory (key flags size : Z) : M Kernel.world shm_object :=
  let mode := Z.land 384 511 in
  let shmget_flags := Z.land flags (Z.lnot 511) in
  let crex := Z.lor Kernel.IPC_CREAT Kernel.IPC_EXCL in
  let size := if (Z.land shmget_flags crex =? crex) && (size =? 0)
              then PAGE_SIZE else size in
  id ← Kernel.shmget key size (Z.lor mode shmget_flags);
  if bool_decide (id = -1) then
    errno ← Kernel.get_errno; raise (shmget_error errno)
  else
    a ← Kernel.shmat id;
    if bool_decide (a = -1) then
      errno ← Kernel.get_errno; raise (shmat_error errno)
    else mret (ShmObj id (Some a)).

(** [self.memory.detach()]: the object forgets its address whatever
    shmdt says. *)
Definition detach (o : shm_object) : M state unit :=
  self ← get_self;
  result ← libc (Kernel.shmdt (address o));
  set_self (Self (key self) (size self) (Some (ShmObj (id o) None))) ≫= λ _,
  if bool_decide (result = -1) then
    errno ← libc Kernel.get_errno; raise (shmdt_error errno)
  else mret tt.

(** [self.memory.remove()] *)
Definition remove (o : shm_object) : M state unit :=
  result ← libc (Kernel.shmctl_rmid (id o));
  if bool_decide (result = -1) then
    errno ← libc Kernel.get_errno; raise (shmctl_error errno)
  else mret tt.

(** [SharedMemory.init(self)] *)
Definition init : M state unit :=
  self ← get_self;
  try_except_when (λ c, bool_decide (c = ExistentialError))
    (o ← libc (sysv_ipc_SharedMemory (key self)
                 (Z.lor Kernel.IPC_CREAT 438) (size self));
     set_self (Self (key self) (size self) (Some o)))
    (fun _ =>
     o ← libc (sysv_ipc_SharedMemory (key self) 0 0);
     set_self (Self (key self) (size self) (Some o))).

(** [SharedMemory(key, size)] *)
Definition __init__ (key size : Z) : M state unit :=
  set_self (Self key size None) ≫= λ _, init.

(** [SharedMemory.cleanup(self)]: a [sysv_ipc] object is always true. *)
Definition cleanup : M state unit :=
  self ← get_self;
  match memory self with
  | Some o =>
    detach o ≫= λ _,
    try_except (remove o) (fun _ => mret tt)
  | None => mret tt
  end.

End PyIpc.

(** ** [old/python/python_IPC.py]: the socket server *)

Module IPCServer.

(** One accepted connection, seen from the server: what it has sent so
    far, next to the server's standard output. *)
Record conn := Conn { sent : list (list byte); stdout : list line }.

Definition send (data : list byte) : M conn unit :=
  fun c => (Ok tt, Conn (sent c ++ [data]) (stdout c)).

Definition print (l : line) : M conn unit :=
  fun c => (Ok tt, Conn (sent c) (stdout c ++ [l])).

Section server.
Context `{Runtime}.

(** The body of the inner [while True] for a chunk [data] that [recv]
    returned non-empty; the result says whether the loop goes on
    ([False] for the [break] of the handler). *)
Definition exchange (data : list byte) : M conn bool :=
  try_except
    (text ← lift_result (bytes_decode data);
     message ← lift_result (json_loads text);
     print (PrintValue "Received: " message) ≫= λ _,
     d ← lift_result (getitem message "data");
     doubled ← lift_result (mul d 2);
     let result := VDict [("status", VStr "success"); ("data", doubled)] in
     reply ← lift_result (json_dumps result);
     send (str_encode reply) ≫= λ _,
     mret true)
    (fun e =>
     print (PrintExn "Error: " e) ≫= λ _,
     reply ← lift_result
       (json_dumps (VDict [("status", VStr "error");
                           ("message", VStr (exn_str e))]));
     send (str_encode reply) ≫= λ _,
     mret false).

(** The inner loop over what [conn.recv(1024)] returns, chunk after
    chunk; the end of the list is the peer closing, where [recv] returns
    [b'']. *)
Fixpoint serve (chunks : list (list byte)) : M conn unit :=
  match chunks with
  | [] => mret tt
  | data :: rest =>
    if bool_decide (data = []) then mret tt
    else
      continue ← exchange data;
      if continue : bool then serve rest else mret tt
  end.

(** [IPCServer.run(self)] over the connections [accept] hands out, each
    given by its chunks; the result is what was sent on each. *)
Fixpoint accept_loop (conns : list (list (list byte)))
    : M (list line) (list (list (list byte))) :=
  match conns with
  | [] => mret []
  | chunks :: rest =>
    fun out =>
      match serve chunks (Conn [] out) with
      | (Ok _, c) =>
        match accept_loop rest (stdout c) with
        | (Ok r, out') => (Ok (sent c :: r), out')
        | (Raise e, out') => (Raise e, out')
        end
      | (Raise e, c) => (Raise e, stdout c)
      end
  end.

Definition run (conns : list (list (list byte)))
    : M (list line) (list (list (list byte))) :=
  fun out => accept_loop conns (out ++ [Print "Python server running..."]).

End server.
End IPCServer.

(** ** A reference [json] module

    [json.dumps] with its default settings (separators [", "] and [": "],
    [ensure_ascii]) and [json.loads] (strict), on integers, strings,
    lists, dicts, booleans and [null].  Numbers with a fraction or an
    exponent and lone surrogates have no counterpart in [value]: this
    parser stops at them.  It provides one [Runtime], on a little-endian
    machine, to run the programs on concrete inputs. *)

Module Json.

Definition code (c : ascii) : Z := Z.of_N (N_of_ascii c).
Definition char (z : Z) : ascii := ascii_of_N (Z.to_N z).

Definition hex_digit (n : Z) : ascii :=
  if n <? 10 then char (48 + n) else char (87 + n).

Definition hex4 (n : Z) : string :=
  String (hex_digit (n / 4096 mod 16)) (String (hex_digit (n / 256 mod 16))
    (String (hex_digit (n / 16 mod 16)) (String (hex_digit (n mod 16)) EmptyString))).

(** [\uXXXX], as a surrogate pair above the basic plane. *)
Definition u_escape (cp : Z) : string :=
  if cp <? 65536 then "\u" +:+ hex4 cp
  else "\u" +:+ hex4 (55296 + (cp - 65536) / 1024)
       +:+ "\u" +:+ hex4 (56320 + (cp - 65536) mod 1024).

Definition escape_ascii (c : ascii) : string :=
  let n := code c in
  if n =? 34 then String (char 92) (String (char 34) EmptyString)
  else if n =? 92 then "\\"
  else if n =? 10 then "\n"
  else if n =? 13 then "\r"
  else if n =? 9 then "\t"
  else if n =? 8 then "\b"
  else if n =? 12 then "\f"
  else if (n <? 32) || (n =? 127) then u_escape n
  else String c EmptyString.

(** The body of a string literal for a [str] held in UTF-8. *)
Fixpoint escape (s : string) : string :=
  match s with
  | EmptyString => EmptyString
  | String c0 t0 =>
    if code c0 <? 128 then escape_ascii c0 +:+ escape t0
    else match t0 with
    | EmptyString => u_escape (code c0)
    | String c1 t1 =>
      if code c0 <? 224 then
        u_escape ((code c0 - 192) * 64 + (code c1 - 128)) +:+ escape t1
      else match t1 with
      | EmptyString => u_escape (code c0)
      | String c2 t2 =>
        if code c0 <? 240 then
          u_escape ((code c0 - 224) * 4096 + (code c1 - 128) * 64
                    + (code c2 - 128)) +:+ escape t2
        else match t2 with
        | EmptyString => u_escape (code c0)
        | String c3 t3 =>
          u_escape ((code c0 - 240) * 262144 + (code c1 - 128) * 4096
                    + (code c2 - 128) * 64 + (code c3 - 128)) +:+ escape t3
        end
      end
    end
  end.

Definition quote (s : string) : string :=
  String (char 34) (escape s +:+ String (char 34) EmptyString).

Fixpoint join (sep : string) (l : list string) : string :=
  match l with
  | [] => EmptyString
  | [x] => x
  | x :: rest => x +:+ sep +:+ join sep rest
  end.

Fixpoint encode (v : value) : option string :=
  match v with
  | VNone => Some "null"
  | VBool true => Some "true"
  | VBool false => Some "false"
  | VInt z => Some (str_of_Z z)
  | VStr s => Some (quote s)
  | VList l =>
    items ← (fix items (l : list value) : option (list string) :=
               match l with
               | [] => Some []
               | x :: rest =>
                 s ← encode x; r ← items rest; Some (s :: r)
               end) l;
    Some ("[" +:+ join ", " items +:+ "]")
  | VDict d =>
    items ← (fix items (d : list (string * value)) : option (list string) :=
               match d with
               | [] => Some []
               | (k, x) :: rest =>
                 s ← encode x; r ← items rest;
                 Some ((quote k +:+ ": " +:+ s) :: r)
               end) d;
    Some ("{" +:+ join ", " items +:+ "}")
  | VBytes _ => None
  end.

Definition dumps (v : value) : result string :=
  match encode v with
  | Some s => Ok s
  | None =>
    Raise (Exn TypeError
             ("Object of type " +:+ type_name v +:+ " is not JSON serializable"))
  end.

(** *** Parsing *)

Definition is_ws (c : ascii) : bool :=
  (code c =? 32) || (code c =? 9) || (code c =? 10) || (code c =? 13).

Fixpoint skip_ws (s : string) : string :=
  match s with
  | String c rest => if is_ws c then skip_ws rest else s
  | EmptyString => s
  end.

Definition is_digit (c : ascii) : bool := (48 <=? code c) && (code c <=? 57).

(** The digits [s] starts with, read onto [acc], and what follows. *)
Fixpoint digits (acc : Z) (s : string) : Z * string :=
  match s with
  | String c rest =>
    if is_digit c then digits (10 * acc + (code c - 48)) rest else (acc, s)
  | EmptyString => (acc, s)
  end.

Definition starts_float (s : string) : bool :=
  match s with
  | String c _ => (code c =? 46) || (code c =? 101) || (code c =? 69)
  | EmptyString => false
  end.

(** [0] or a digit string without a leading zero. *)
Definition natural (s : string) : option (Z * string) :=
  match s with
  | String c rest =>
    if code c =? 48 then
      if starts_float rest then None else Some (0, rest)
    else if is_digit c then
      let '(n, rest') := digits 0 s in
      if starts_float rest' then None else Some (n, rest')
    else None
  | EmptyString => None
  end.

Definition number (s : string) : option (value * string) :=
  match s with
  | String c rest =>
    if code c =? 45 then '(n, r) ← natural rest; Some (VInt (- n), r)
    else '(n, r) ← natural s; Some (VInt n, r)
  | EmptyString => None
  end.

Definition hex_value (c : ascii) : option Z :=
  let n := code c in
  if (48 <=? n) && (n <=? 57) then Some (n - 48)
  else if (97 <=? n) && (n <=? 102) then Some (n - 87)
  else if (65 <=? n) && (n <=? 70) then Some (n - 55)
  else None.

Definition hex4_value (s : string) : option (Z * string) :=
  match s with
  | String a (String b (String c (String d rest))) =>
    x ← hex_value a; y ← hex_value b; z ← hex_value c; w ← hex_value d;
    Some (x * 4096 + y * 256 + z * 16 + w, rest)
  | _ => None
  end.

(** UTF-8 of a code point that is not a surrogate. *)
Definition utf8 (cp : Z) : string :=
  if cp <? 128 then String (char cp) EmptyString
  else if cp <? 2048 then
    String (char (192 + cp / 64)) (String (char (128 + cp mod 64)) EmptyString)
  else if cp <? 65536 then
    String (char (224 + cp / 4096))
      (String (char (128 + cp / 64 mod 64)) (String (char (128 + cp mod 64)) EmptyString))
  else
    String (char (240 + cp / 262144))
      (String (char (128 + cp / 4096 mod 64))
         (String (char (128 + cp / 64 mod 64))
            (String (char (128 + cp mod 64)) EmptyString))).

Definition simple_escape (c : ascii) : option ascii :=
  let n := code c in
  if n =? 34 then Some c
  else if n =? 92 then Some c
  else if n =? 47 then Some c
  else if n =? 98 then Some (char 8)
  else if n =? 102 then Some (char 12)
  else if n =? 110 then Some (char 10)
  else if n =? 114 then Some (char 13)
  else if n =? 116 then Some (char 9)
  else None.

(** The rest of a string literal after its opening quote. *)
Fixpoint chars (fuel : nat) (s : string) : option (string * string) :=
  match fuel with
  | O => None
  | S fuel =>
    match s with
    | EmptyString => None
    | String c rest =>
      if code c =? 34 then Some (EmptyString, rest)
      else if code c =? 92 then
        match rest with
        | EmptyString => None
        | String e rest' =>
          if code e =? 117 then
            '(hi, r1) ← hex4_value rest';
            if (55296 <=? hi) && (hi <? 56320) then
              match r1 with
              | String b (String u r2) =>
                if (code b =? 92) && (code u =? 117) then
                  '(lo, r3) ← hex4_value r2;
                  if (56320 <=? lo) && (lo <? 57344) then
                    '(t, r4) ← chars fuel r3;
                    Some (utf8 (65536 + (hi - 55296) * 1024 + (lo - 56320))
                            +:+ t, r4)
                  else None
                else None
              | _ => None
              end
            else if (56320 <=? hi) && (hi <? 57344) then None
            else '(t, r2) ← chars fuel r1; Some (utf8 hi +:+ t, r2)
          else
            x ← simple_escape e;
            '(t, r1) ← chars fuel rest'; Some (String x t, r1)
        end
      else if code c <? 32 then None
      else '(t, r1) ← chars fuel rest; Some (String c t, r1)
    end
  end.

Definition literal (lit : string) (v : value) (s : string)
    : option (value * string) :=
  if String.prefix lit s
  then Some (v, String.substring (String.length lit)
                  (String.length s - String.length lit) s)
  else None.

Fixpoint parse (fuel : nat) (s : string) : option (value * string) :=
  match fuel with
  | O => None
  | S fuel =>
    match s with
    | EmptyString => None
    | String c rest =>
      if code c =? 34 then
        '(t, r) ← chars (S (String.length rest)) rest; Some (VStr t, r)
      else if code c =? 91 then
        match skip_ws rest with
        | String c' r' =>
          if code c' =? 93 then Some (VList [], r')
          else '(l, r) ← elements fuel (skip_ws rest); Some (VList l, r)
        | EmptyString => None
        end
      else if code c =? 123 then
        match skip_ws rest with
        | String c' r' =>
          if code c' =? 125 then Some (VDict [], r')
          else '(d, r) ← members fuel [] (skip_ws rest); Some (VDict d, r)
        | EmptyString => None
        end
      else if code c =? 110 then literal "null" VNone s
      else if code c =? 116 then literal "true" (VBool true) s
      else if code c =? 102 then literal "false" (VBool false) s
      else number s
    end
  end
with elements (fuel : nat) (s : string) : option (list value * string) :=
  match fuel with
  | O => None
  | S fuel =>
    '(v, r) ← parse fuel s;
    match skip_ws r with
    | String c r' =>
      if code c =? 44 then
        '(l, r'') ← elements fuel (skip_ws r'); Some (v :: l, r'')
      else if code c =? 93 then Some ([v], r')
      else None
    | EmptyString => None
    end
  end
with members (fuel : nat) (acc : list (string * value)) (s : string)
    : option (list (string * value) * string) :=
  match fuel with
  | O => None
  | S fuel =>
    match s with
    | String q rest =>
      if code q =? 34 then
        '(k, r) ← chars (S (String.length rest)) rest;
        match skip_ws r with
        | String c r1 =>
          if code c =? 58 then
            '(v, r2) ← parse fuel (skip_ws r1);
            let acc := dict_set acc k v in
            match skip_ws r2 with
            | String c' r3 =>
              if code c' =? 44 then members fuel acc (skip_ws r3)
              else if code c' =? 125 then Some (acc, r3)
              else None
            | EmptyString => None
            end
          else None
        | EmptyString => None
        end
      else None
    | EmptyString => None
    end
  end.

Definition loads (s : string) : result value :=
  match parse (S (String.length s)) (skip_ws s) with
  | Some (v, rest) =>
    match skip_ws rest with
    | EmptyString => Ok v
    | _ => Raise (Exn JSONDecodeError "Extra data")
    end
  | None => Raise (Exn JSONDecodeError "Expecting value")
  end.

#[global] Instance runtime : Runtime := {|
  byteorder := LittleEndian;
  json_dumps := dumps;
  json_loads := loads;
  json_loads_empty := ex_intro _ _ eq_refl;
|}.

End Json.

(** ** [shared_memoryPythonSystemV.py]: the program under [__main__] *)

Module SysVMain.

(** *** The methods, called on the object

    [shared_mem.read()] and [shared_mem.write(data)] as the program calls
    them: on the array in [self.memory], with [self.size]. When
    [self.memory] is [None] (after [cleanup]) the first use of it raises
    [TypeError] inside the method's [try]: [struct.unpack_from] in
    [read], [ctypes.addressof] in [write], there after [json.dumps]. *)

Section methods.
Context `{Runtime}.

Definition read : M SysV.state value :=
  self ← get_self;
  match SysV.memory self with
  | Some arr => SysV.libc (SysV.on_memory arr (SysV.read (SysV.size self)))
  | None =>
    let e := Exn TypeError "a bytes-like object is required, not 'NoneType'" in
    SysV.libc (Kernel.print (PrintExn "Read error: " e)) ≫= λ _, mret VNone
  end.

Definition write (data : value) : M SysV.state unit :=
  self ← get_self;
  match SysV.memory self with
  | Some arr => SysV.libc (SysV.on_memory arr (SysV.write (SysV.size self) data))
  | None =>
    try_except
      (lift_result (json_dumps data) ≫= λ _,
       raise (Exn TypeError "invalid type"))
      (fun e => SysV.libc (Kernel.print (PrintExn "Write error: " e)) ≫= λ _,
                raise e)
  end.

End methods.

(** *** [str.strip()]

    The white space it removes is what [str.isspace] accepts: U+0009 to
    U+000D, U+001C to U+0020, U+0085, U+00A0, U+1680, U+2000 to U+200A,
    U+2028, U+2029, U+202F, U+205F and U+3000, here in their UTF-8
    forms of one, two and three bytes. *)

Definition space1 (c : ascii) : bool :=
  let n := Json.code c in
  (9 <=? n) && (n <=? 13) || (28 <=? n) && (n <=? 32).

Definition space2 (c0 c1 : ascii) : bool :=
  (Json.code c0 =? 194) && ((Json.code c1 =? 133) || (Json.code c1 =? 160)).

Definition space3 (c0 c1 c2 : ascii) : bool :=
  (Json.code c0 =? 225) && (Json.code c1 =? 154) && (Json.code c2 =? 128)
  || (Json.code c0 =? 226) && (Json.code c1 =? 128)
     && ((128 <=? Json.code c2) && (Json.code c2 <=? 138)
         || (Json.code c2 =? 168) || (Json.code c2 =? 169)
         || (Json.code c2 =? 175))
  || (Json.code c0 =? 226) && (Json.code c1 =? 129) && (Json.code c2 =? 159)
  || (Json.code c0 =? 227) && (Json.code c1 =? 128) && (Json.code c2 =? 128).

(** [str.lstrip()] *)
Fixpoint lstrip (s : list ascii) : list ascii :=
  match s with
  | [] => s
  | c0 :: t0 =>
    if space1 c0 then lstrip t0
    else match t0 with
    | [] => s
    | c1 :: t1 =>
      if space2 c0 c1 then lstrip t1
      else match t1 with
      | [] => s
      | c2 :: t2 => if space3 c0 c1 c2 then lstrip t2 else s
      end
    end
  end.

(** [str.rstrip()] on the reversed text: the same scan, each character's
    bytes met last byte first. *)
Fixpoint rstrip_rev (r : list ascii) : list ascii :=
  match r with
  | [] => r
  | c0 :: t0 =>
    if space1 c0 then rstrip_rev t0
    else match t0 with
    | [] => r
    | c1 :: t1 =>
      if space2 c1 c0 then rstrip_rev t1
      else match t1 with
      | [] => r
      | c2 :: t2 => if space3 c2 c1 c0 then rstrip_rev t2 else r
      end
    end
  end.

Definition strip (s : string) : string :=
  string_of_list_ascii
    (rev (rstrip_rev (rev (lstrip (list_ascii_of_string s))))).

(** *** The command loop *)

(** What one call of [input("> ")] does: it returns a line (without its
    newline), or raises [EOFError] at the end of the input, or raises
    [KeyboardInterrupt] on Ctrl+C. The prompt itself is not recorded. *)
Inductive event :=
  | Line (s : string)
  | EOF
  | Interrupt.

(** How far the loop got on the events given: still waiting for input,
    left by [break], or left by [KeyboardInterrupt]. *)
Inductive ending := Waiting | Quit | Interrupted.

(** [except Exception] catches every exception there is here; a bad
    address is no exception. *)
Definition catchable (c : exn_class) : bool :=
  negb (bool_decide (c = SegmentationFault)).

Definition print (l : line) : M SysV.state unit := SysV.libc (Kernel.print l).

(** How the program stands after the events given. *)
Inductive status :=
  | Running                      (* in the loop, waiting in [input] *)
  | Exited                       (* the script ran to its end *)
  | Uncaught (e : exn)           (* ended by this exception *)
  | NameError (name : string) (during : exn)
                                 (* ended by [NameError], raised in the
                                    [finally] while [during] was passing *)
  | Killed.                      (* no exception: a bad address *)

Section program.
Context `{Runtime}.

(** The body of the inner [try] once [command] is known; the result
    says whether the loop is left ([break]). *)
Definition turn (command : string) : M SysV.state bool :=
  if String.eqb command "read" then
    data ← read;
    print (PrintValue "Read from shared memory: " data) ≫= λ _, mret false
  else if String.prefix "write " command then
    let message := String.substring 6 (String.length command - 6) command in
    write (VDict [("message"%string, VStr message)]) ≫= λ _,
    print (Print "Write successful") ≫= λ _, mret false
  else if String.eqb command "quit" then mret true
  else print (Print "Unknown command") ≫= λ _, mret false.

(** [while True: try: ... except Exception as e: print(f"Error: {e}")],
    over the events [input] meets. *)
Fixpoint command_loop (stdin : list event) : M SysV.state ending :=
  match stdin with
  | [] => mret Waiting
  | Interrupt :: _ => mret Interrupted
  | EOF :: rest =>
    print (Print "Error: EOF when reading a line") ≫= λ _, command_loop rest
  | Line s :: rest =>
    stop ← try_except_when catchable
             (turn (strip s))
             (fun e => print (PrintExn "Error: " e) ≫= λ _, mret false);
    if stop : bool then mret Quit else command_loop rest
  end.

Definition stopping : line := Print (String (Json.char 10) "Stopping...").

Definition finish (r : result unit * SysV.state)
    : status * (option SysV.SharedMemory * Kernel.world) :=
  match r with
  | (Ok _, (self, w)) => (Exited, (Some self, w))
  | (Raise e, (self, w)) => (Uncaught e, (Some self, w))
  end.

(** The block under [if __name__ == "__main__"]: the state is the
    variable [shared_mem], unbound at first, and the world. *)
Definition main (stdin : list event) (w : Kernel.world)
    : status * (option SysV.SharedMemory * Kernel.world) :=
  match SysV.__init__ 5678 1024 (SysV.Self 5678 1024 None None, w) with
  | (Raise e, (_, w1)) => (NameError "shared_mem" e, (None, w1))
  | (Ok _, st1) =>
    match (print (Print "Shared memory monitor started. Press Ctrl+C to exit.") ≫= λ _,
           print (Print "Available commands:") ≫= λ _,
           print (Print "1. read - Read from shared memory") ≫= λ _,
           print (Print "2. write <message> - Write message to shared memory") ≫= λ _,
           print (Print "3. quit - Exit the program") ≫= λ _,
           command_loop stdin) st1 with
    | (Ok Waiting, (self, w2)) => (Running, (Some self, w2))
    | (Ok Quit, st2) => finish (SysV.cleanup st2)
    | (Ok Interrupted, st2) =>
      finish ((print stopping ≫= λ _, SysV.cleanup) st2)
    | (Raise e, (self, w2)) =>
      if catchable (exn_cls e) then
        match SysV.cleanup (self, w2) with
        | (Ok _, (self', w3)) => (Uncaught e, (Some self', w3))
        | (Raise e', (self', w3)) => (Uncaught e', (Some self', w3))
        end
      else (Killed, (Some self, w2))
    end
  end.

End program.

End SysVMain.

(** ** [old/python/python_IPC.py]: the socket file and the program

    [IPCServer.__init__], [IPCServer.cleanup], the [bind] at the head of
    [run] and the block under [__main__], over the names of one
    directory the process may write to. *)

Module SocketFile.

(** What a path can name: a regular file (or a link to something that
    exists, which behaves alike here), a socket, a directory, or a link
    to nothing. *)
Inductive node := File | Socket | Directory | BrokenLink.

Definition names : Type := gmap string node.

(** [os.path.exists(path)]: a link to nothing does not exist. *)
Definition path_exists (path : string) : M names bool :=
  fun fs => (Ok (match fs !! path with
                 | Some BrokenLink | None => false
                 | Some _ => true
                 end), fs).

(** [os.remove(path)] *)
Definition remove (path : string) : M names unit :=
  fun fs =>
    match fs !! path with
    | None =>
      (Raise (Exn OSError ("[Errno 2] No such file or directory: '"
                           ++ path ++ "'")), fs)
    | Some Directory =>
      (Raise (Exn OSError ("[Errno 21] Is a directory: '" ++ path ++ "'")), fs)
    | Some _ => (Ok tt, delete path fs)
    end.

(** [server.bind(path)]: the name must be free. *)
Definition bind (path : string) : M names unit :=
  fun fs =>
    match fs !! path with
    | Some _ => (Raise (Exn OSError "[Errno 98] Address already in use"), fs)
    | None => (Ok tt, <[path := Socket]> fs)
    end.

(** The object: [self.socket_path]. *)
Record IPCServer := Self { socket_path : string }.

(** [IPCServer(socket_path)] *)
Definition __init__ (socket_path : string) : M names IPCServer :=
  found ← path_exists socket_path;
  (if found : bool then remove socket_path else mret tt) ≫= λ _,
  mret (Self socket_path).

(** [IPCServer.cleanup(self)] *)
Definition cleanup (self : IPCServer) : M names unit :=
  found ← path_exists (socket_path self);
  if found : bool then remove (socket_path self) else mret tt.

(** The state of the program: the names and standard output. *)
Definition state : Type := names * list line.

Definition files {A} (m : M names A) : M state A :=
  fun st => match m (fst st) with (r, fs) => (r, (fs, snd st)) end.

(** How the program ended: [run] has no way out but an exception, the
    Ctrl+C that interrupts [accept] after the last connection or one
    that a connection let through. *)
Inductive ended :=
  | KeyboardInterrupt
  | Exception (e : exn).

Section program.
Context `{Runtime}.

(** [IPCServer.run(self)] from its [bind] on, over the connections
    [accept] hands out. *)
Definition run (self : IPCServer) (conns : list (list (list byte)))
    : M state (list (list (list byte))) :=
  files (bind (socket_path self)) ≫= λ _, zoom_snd (IPCServer.run conns).

(** The block under [if __name__ == "__main__"], for the connections
    served before Ctrl+C: how it ended and what was sent. *)
Definition main (conns : list (list (list byte))) (st : state)
    : (ended * list (list (list byte))) * state :=
  match files (__init__ "/tmp/python_server.sock") st with
  | (Raise e, st1) => ((Exception e, []), st1)
  | (Ok server, st1) =>
    match run server conns st1 with
    | (r, st2) =>
      match files (cleanup server) st2 with
      | (Raise e', st3) => ((Exception e', []), st3)
      | (Ok _, st3) =>
        match r with
        | Ok sent => ((KeyboardInterrupt, sent), st3)
        | Raise e => ((Exception e, []), st3)
        end
      end
    end
  end.

End program.

End SocketFile.




(** ** Vocabulary of the statements *)

Section vocabulary.
Context `{Runtime}.

(** The frame [write] lays down for the document [json_bytes]. *)
Definition frame (json_bytes : list byte) : list byte :=
  native_bytes byteorder (Z.of_nat (length json_bytes)) ++ json_bytes.

Definition wrote (data : value) : line :=
  PrintValue "Successfully wrote to shared memory: " data.

(** The length the first four bytes of the buffer declare, and the
    bytes that follow them up to that length. *)
Definition declared (m : list byte) : Z := native_value byteorder (take 4 m).

Definition payload (m : list byte) : list byte :=
  take (Z.to_nat (declared m)) (drop 4 m).

(** What [bytes.decode] then [json.loads] make of some bytes. *)
Definition parse_bytes (bs : list byte) : result value :=
  match bytes_decode bs with
  | Ok text => json_loads text
  | Raise e => Raise e
  end.

Definition read_error (e : exn) : line := PrintExn "Read error: " e.

(** The documents [json.dumps] produces for [v] and [json.loads] reads
    back as [v]: what makes [v] a payload of the channel. *)
Definition roundtrips (v : value) : Prop :=
  exists s, json_dumps v = Ok s
            /\ bytes_decode (str_encode s) = Ok s
            /\ json_loads s = Ok v.

(** What [read] of [shared_memoryPythonSystemV.py] is to return on the
    buffer [m]: the parsed payload when the declared length is in range
    and the payload decodes, [None] otherwise. *)
Definition read_value (size : Z) (m : list byte) : value :=
  if bool_decide (length m < 4)%nat then VNone
  else if bool_decide (declared m <= 0 \/ declared m > size - 4) then VNone
  else match parse_bytes (payload m) with
       | Ok v => v
       | Raise _ => VNone
       end.

(** What the server makes of a parsed request, and its two replies. *)
Definition processed (message : value) : result value :=
  match getitem message "data" with
  | Ok d => mul d 2
  | Raise e => Raise e
  end.

Definition success (doubled : value) : value :=
  VDict [("status"%string, VStr "success"); ("data"%string, doubled)].

Definition failure (e : exn) : value :=
  VDict [("status"%string, VStr "error"); ("message"%string, VStr (exn_str e))].

Definition received (message : value) : line := PrintValue "Received: " message.

Definition server_error (e : exn) : line := PrintExn "Error: " e.

(** The same four bytes read as a signed integer, as [py_ipc.py] does. *)
Definition declared_signed (m : list byte) : Z :=
  if declared m <? 2 ^ 31 then declared m else declared m - 2 ^ 32.

End vocabulary.

(** The flags shmget receives: [IPC_CREAT | 0o666] from the ctypes class,
    [IPC_CREAT | 0o600] from [sysv_ipc]. *)
Definition acquire_flags : Z := Z.lor Kernel.IPC_CREAT 438.
Definition sysv_ipc_flags : Z := Z.lor Kernel.IPC_CREAT 384.
Definition acquiring (f : Z) : Prop := f = acquire_flags \/ f = sysv_ipc_flags.

(** ** Vocabulary of the statements on segments *)

Section segments_vocabulary.
Import Kernel.

(** The world after a successful attach of segment [id] (whose record
    was [d]) by the process of [w]. *)
Definition attached_world (id : Z) (d : shmid_ds) (w : world) : world :=
  World (set_segments (<[id := set_nattch (S (shm_nattch d)) d]>
                         (segments (kern w))) (kern w))
        (set_attached (<[next_addr (proc w) := id]> (attached (proc w)))
                      (next_addr (proc w) + shm_segsz d) (proc w)).

Definition initialized : line := Print "Successfully initialized shared memory".

Definition say (l : line) (w : world) : world :=
  World (kern w) (set_stdout (stdout (proc w) ++ [l]) (proc w)).

(** The object holds segment [id], whose record is [d], in world [w]. *)
Definition sysv_holds (self : SysV.SharedMemory) (w : world)
    (id : Z) (d : shmid_ds) : Prop :=
  SysV.shmid self = Some id
  /\ exists arr, SysV.memory self = Some arr
                 /\ mapped (SysV.addr arr) w = Some (id, d).


(** Identifiers are never negative, so never the [-1] of a failure. *)
Definition valid_ids (k : kernel) : Prop :=
  0 <= next_shmid k /\ forall key id, keys k !! key = Some id -> 0 <= id.

Definition cleaned : line := Print "Successfully cleaned up shared memory".

Definition rmid_failed (errno : Z) : line :=
  PrintInt "shmctl failed with errno " errno.

(** The same kernel seen by another process. *)
Definition switch (p : process) (w : world) : world := World (kern w) p.

End segments_vocabulary.

(** ** Vocabulary of the further statements *)

Section further_vocabulary.
Context `{Runtime}.

(** The bytes [read] of [py_ipc.py] decodes: as many as the signed
    length says, or all that follow the prefix when it says zero or too
    many. *)
Definition taken (seg : list byte) : list byte :=
  take (Z.to_nat (if bool_decide (declared_signed seg = 0
                                  \/ declared_signed seg
                                     > Z.of_nat (length seg) - 4)
                  then Z.of_nat (length seg) - 4
                  else declared_signed seg))
       (drop 4 seg).

Definition polled (data : value) : line :=
  PrintValue "Read from shared memory: " data.




End further_vocabulary.

Section main_vocabulary.
Import Kernel.

(** The world after some more lines on standard output. *)
Definition says (ls : list line) (w : world) : world :=
  World (kern w) (set_stdout (stdout (proc w) ++ ls) (proc w)).

(** The object's array is laid over the segment [id], whose record is
    [d], and lies within its bytes. *)
Definition holds_array (st : SysV.state) (id : Z) (d : shmid_ds) : Prop :=
  exists arr,
    SysV.memory (fst st) = Some arr
    /\ SysV.len arr = SysV.size (fst st)
    /\ mapped (SysV.addr arr) (snd st) = Some (id, d)
    /\ (Z.to_nat (SysV.size (fst st)) <= length (shm_bytes d))%nat.

(** The object and its attachment, as the loop keeps them. *)
Definition attached_at (arr : SysV.c_array) (st : SysV.state) : Prop :=
  SysV.memory (fst st) = Some arr
  /\ exists id d, mapped (SysV.addr arr) (snd st) = Some (id, d).

Definition banner : list line :=
  [Print "Shared memory monitor started. Press Ctrl+C to exit.";
   Print "Available commands:";
   Print "1. read - Read from shared memory";
   Print "2. write <message> - Write message to shared memory";
   Print "3. quit - Exit the program"].

Definition eof_error : line := Print "Error: EOF when reading a line".

(** The events that end the loop: Ctrl+C, and a line that is [quit]
    once stripped. *)
Definition stops (ev : SysVMain.event) : Prop :=
  match ev with
  | SysVMain.Interrupt => True
  | SysVMain.Line s => SysVMain.strip s = "quit"%string
  | SysVMain.EOF => False
  end.

(** Text made of one-byte white space only. *)
Definition blank (s : string) : Prop :=
  Forall (fun c => SysVMain.space1 c = true) (list_ascii_of_string s).

(** [json.dumps] fails by raising an exception. *)
Definition dumps_raises_exceptions `{Runtime} : Prop :=
  forall v e, json_dumps v = Raise e -> SysVMain.catchable (exn_cls e) = true.

End main_vocabulary.

(** ** Sample inputs *)

(** [{"data": 21}] *)
Definition sample : value := VDict [("data"%string, VInt 21)].

(** [{"data": 123456789}], a longer document. *)
Definition longer : value := VDict [("data"%string, VInt 123456789)].

(** A nested value with negative numbers, escapes and text outside
    ASCII (the UTF-8 of U+00E9 and of U+1F600). *)
Definition nested : value :=
  VDict [("message"%string,
          VStr (String (Json.char 34)
                  (String (Json.char 92)
                     (String (Json.char 10)
                        (Json.utf8 233 +:+ Json.utf8 128512 +:+ "tab")))));
         ("items"%string,
          VList [VInt (-120); VInt 0; VNone; VBool true; VBool false;
                 VList []; VDict []; VStr EmptyString;
                 VDict [("k"%string, VList [VInt 1; VInt 2])]])].

(** A never-written segment of [n] bytes. *)
Definition zeros (n : nat) : list byte := replicate n x00.

(** A segment of [n] bytes [0xff], as stale content. *)
Definition stale (n : nat) : list byte := replicate n xff.

(** Length 1, then one byte that is not UTF-8, then zeros. *)
Definition garbled : list byte := [x01; x00; x00; x00; xff; x00; x00; x00].

(** The bytes of a document. *)
Definition document (v : value) : list byte :=
  match Json.encode v with
  | Some s => str_encode s
  | None => []
  end.

(** Requests: [{"data": 5}], and [{}], which lacks the field. *)
Definition request5 : list byte := document (VDict [("data"%string, VInt 5)]).
Definition request_empty : list byte := document (VDict []).

(** A kernel with no segment yet, and a process of user [uid]. *)
Definition boot : Kernel.kernel := Kernel.Kern ∅ ∅ 0 33554432 4096.

Definition user (uid : Z) : Kernel.process :=
  Kernel.Proc uid ∅ 140737488355328 0 [].

(** ** Unfolding the monad *)

Ltac unfold_monad :=
  unfold mbind, M_bind, bind, mret, M_ret, ret, lift_result, raise,
         try_except, try_except_when in *.

Ltac unfold_state :=
  unfold zoom_snd, get_self, set_self in *; unfold_monad.

Ltac unfold_cleanup :=
  unfold SysV.cleanup, SysV.libc, PyIpc.cleanup, PyIpc.detach, PyIpc.remove,
         PyIpc.libc, try_finally, Kernel.get_errno, Kernel.print;
  unfold_state.

Ltac unfold_main :=
  unfold SysVMain.print, SysVMain.read, SysVMain.write, SysV.libc,
         Kernel.print in *;
  unfold_state.

(** * Properties *)

(** ** Bytes and [struct] *)

Lemma Z_of_byte_range (b : byte) : 0 <= Z_of_byte b < 256.
Proof.
  unfold Z_of_byte. pose proof (Byte.to_N_bounded b). lia.
Qed.

Lemma Z_of_byte_of_Z (z : Z) : Z_of_byte (byte_of_Z z) = z mod 256.
Proof.
  unfold Z_of_byte, byte_of_Z.
  pose proof (Z.mod_pos_bound z 256 ltac:(lia)) as Hr.
  destruct (Byte.of_N (Z.to_N (z mod 256))) as [b|] eqn:E.
  - apply Byte.to_of_N in E. rewrite E. lia.
  - apply Byte.of_N_None_iff in E. lia.
Qed.

Lemma byte_of_Z_of_byte (b : byte) : byte_of_Z (Z_of_byte b) = b.
Proof.
  unfold byte_of_Z, Z_of_byte.
  pose proof (Byte.to_N_bounded b).
  rewrite Z.mod_small by lia. rewrite N2Z.id. by rewrite Byte.of_to_N.
Qed.

Lemma le_value_le_bytes (n : Z) : 0 <= n < 2 ^ 32 -> le_value (le_bytes n) = n.
Proof.
  intros Hn. unfold le_value, le_bytes. simpl.
  rewrite !Z_of_byte_of_Z.
  change 65536 with (256 * 256).
  change 16777216 with (256 * 256 * 256).
  rewrite <- !Z.div_div by lia.
  assert (n / 256 / 256 / 256 < 256).
  { repeat (apply Z.div_lt_upper_bound; [lia|]). lia. }
  assert (0 <= n / 256 / 256 / 256) by (repeat apply Z.div_pos; lia).
  rewrite (Z.mod_small (n / 256 / 256 / 256)) by lia.
  pose proof (Z.div_mod n 256 ltac:(lia)).
  pose proof (Z.div_mod (n / 256) 256 ltac:(lia)).
  pose proof (Z.div_mod (n / 256 / 256) 256 ltac:(lia)).
  lia.
Qed.

Lemma le_bytes_le_value (bs : list byte) :
  length bs = 4%nat -> le_bytes (le_value bs) = bs.
Proof.
  intros Hl. destruct bs as [|a [|b [|c [|d [|]]]]]; try discriminate.
  unfold le_value, le_bytes. simpl.
  pose proof (Z_of_byte_range a). pose proof (Z_of_byte_range b).
  pose proof (Z_of_byte_range c). pose proof (Z_of_byte_range d).
  unfold byte_of_Z.
  set (va := Z_of_byte a) in *. set (vb := Z_of_byte b) in *.
  set (vc := Z_of_byte c) in *. set (vd := Z_of_byte d) in *.
  set (n := va + 256 * (vb + 256 * (vc + 256 * (vd + 256 * 0)))).
  assert (n mod 256 = va) as ->.
  { symmetry. apply Z.mod_unique with (vb + 256 * (vc + 256 * vd)); lia. }
  assert (n / 256 = vb + 256 * (vc + 256 * vd)) as ->.
  { symmetry. apply Z.div_unique with va; lia. }
  assert (n / 65536 = vc + 256 * vd) as ->.
  { symmetry. apply Z.div_unique with (va + 256 * vb); lia. }
  assert (n / 16777216 = vd) as ->.
  { symmetry. apply Z.div_unique with (va + 256 * vb + 65536 * vc); lia. }
  assert ((vb + 256 * (vc + 256 * vd)) mod 256 = vb) as ->.
  { symmetry. apply Z.mod_unique with (vc + 256 * vd); lia. }
  assert ((vc + 256 * vd) mod 256 = vc) as ->.
  { symmetry. apply Z.mod_unique with vd; lia. }
  rewrite (Z.mod_small vd) by lia.
  subst va vb vc vd.
  repeat (rewrite N2Z.id, Byte.of_to_N || unfold Z_of_byte).
  reflexivity.
Qed.

Lemma le_value_range (bs : list byte) :
  length bs = 4%nat -> 0 <= le_value bs < 2 ^ 32.
Proof.
  intros Hl. destruct bs as [|a [|b [|c [|d [|]]]]]; try discriminate.
  unfold le_value. simpl.
  pose proof (Z_of_byte_range a). pose proof (Z_of_byte_range b).
  pose proof (Z_of_byte_range c). pose proof (Z_of_byte_range d). lia.
Qed.

Lemma native_bytes_length bo n : length (native_bytes bo n) = 4%nat.
Proof. by destruct bo. Qed.

Lemma native_value_bytes bo n :
  0 <= n < 2 ^ 32 -> native_value bo (native_bytes bo n) = n.
Proof.
  intros Hn. destruct bo; cbn [native_value native_bytes].
  - by apply le_value_le_bytes.
  - rewrite rev_involutive. by apply le_value_le_bytes.
Qed.

Lemma native_bytes_value bo bs :
  length bs = 4%nat -> native_bytes bo (native_value bo bs) = bs.
Proof.
  intros Hl. destruct bo; cbn [native_value native_bytes].
  - by apply le_bytes_le_value.
  - rewrite le_bytes_le_value, ?rev_involutive; [done|]. by rewrite length_rev.
Qed.

Lemma native_value_range bo bs :
  length bs = 4%nat -> 0 <= native_value bo bs < 2 ^ 32.
Proof.
  intros Hl. destruct bo; cbn [native_value]; apply le_value_range; [done|].
  by rewrite length_rev.
Qed.

(** ** The ctypes variant: framing *)

Section SysV_codec.
Context `{Runtime}.

Lemma frame_length bs : length (frame bs) = (4 + length bs)%nat.
Proof. unfold frame. by rewrite length_app, native_bytes_length. Qed.

Lemma write_loop_ok bs : forall i m out,
  0 <= i ->
  4 + i + Z.of_nat (length bs) <= Z.of_nat (length m) ->
  SysV.write_loop i bs (SysV.Buffer m out)
  = (Ok tt, SysV.Buffer (take (Z.to_nat (4 + i)) m ++ bs
                           ++ drop (Z.to_nat (4 + i) + length bs) m) out).
Proof.
  induction bs as [|b bs IH]; intros i m out Hi Hlen; simpl.
  - unfold_monad. rewrite Nat.add_0_r, take_drop. reflexivity.
  - simpl in Hlen. unfold_monad. unfold SysV.setitem at 1. simpl.
    rewrite bool_decide_eq_true_2 by lia.
    rewrite IH by (rewrite ?length_insert; lia).
    do 2 f_equal.
    replace (Z.to_nat (4 + (i + 1))) with (S (Z.to_nat (4 + i))) by lia.
    set (n := Z.to_nat (4 + i)).
    assert (n < length m)%nat by lia.
    rewrite (take_S_r _ _ b) by (apply list_lookup_insert_eq; lia).
    rewrite take_insert_ge by lia.
    rewrite drop_insert_lt by lia.
    rewrite <- app_assoc. simpl. by rewrite Nat.add_succ_r.
Qed.

Lemma write_loop_fail bs : forall i m out,
  0 <= i ->
  4 + i <= Z.of_nat (length m) ->
  4 + i + Z.of_nat (length bs) > Z.of_nat (length m) ->
  exists e m', SysV.write_loop i bs (SysV.Buffer m out)
               = (Raise e, SysV.Buffer m' out)
               /\ exn_cls e = IndexError /\ length m' = length m.
Proof.
  induction bs as [|b bs IH]; intros i m out Hi Hle Hlen; simpl in *.
  - lia.
  - unfold_monad. unfold SysV.setitem at 1. simpl.
    case_bool_decide.
    + destruct (IH (i + 1) (<[Z.to_nat (4 + i) := b]> m) out)
        as (e & m' & -> & ? & Hm'); rewrite ?length_insert; try lia.
      rewrite length_insert in Hm'. eauto.
    + eauto.
Qed.

(** When the document fits, [write] leaves the frame followed by zeros. *)
Lemma write_ok size m out v s :
  length m = Z.to_nat size ->
  json_dumps v = Ok s ->
  Z.of_nat (length (str_encode s)) < 2 ^ 32 ->
  4 + Z.of_nat (length (str_encode s)) <= size ->
  SysV.write size v (SysV.Buffer m out)
  = (Ok tt,
     SysV.Buffer (frame (str_encode s)
                    ++ replicate (length m - 4 - length (str_encode s)) x00)
                 (out ++ [wrote v])).
Proof.
  intros Hm Hd H32 Hfit. unfold SysV.write. unfold_monad. rewrite Hd.
  set (bs := str_encode s) in *.
  unfold SysV.memset, SysV.pack_into. simpl.
  rewrite <- Hm, Nat.min_id, drop_all, app_nil_r, length_replicate.
  rewrite bool_decide_eq_true_2 by lia.
  unfold pack_I.
  replace ((0 <=? Z.of_nat (length bs)) && (Z.of_nat (length bs) <? 2 ^ 32))
    with true by (symmetry; apply andb_true_iff; lia).
  rewrite write_loop_ok; [|lia|].
  2:{ rewrite !length_app, native_bytes_length, length_drop, length_replicate.
      lia. }
  unfold SysV.print. cbn [SysV.mem SysV.stdout].
  set (pre := native_bytes byteorder (Z.of_nat (length bs))).
  assert (length pre = 4%nat) as Hpre by apply native_bytes_length.
  change (Z.to_nat (4 + 0)) with 4%nat. change (Z.to_nat (0 + 4)) with 4%nat.
  rewrite take_app_length' by done.
  rewrite <- drop_drop, (drop_app_length' pre) by done.
  rewrite !drop_replicate.
  unfold frame, wrote. fold pre. by rewrite <- app_assoc.
Qed.

(** In every other case [write] raises, after reporting the error. *)
Lemma write_raises_dumps size m out v e :
  json_dumps v = Raise e ->
  SysV.write size v (SysV.Buffer m out)
  = (Raise e, SysV.Buffer m (out ++ [PrintExn "Write error: " e])).
Proof.
  intros Hd. unfold SysV.write. unfold_monad. by rewrite Hd.
Qed.

Lemma write_raises_size size m out v s :
  length m = Z.to_nat size ->
  json_dumps v = Ok s ->
  ~ (Z.of_nat (length (str_encode s)) < 2 ^ 32
     /\ 4 + Z.of_nat (length (str_encode s)) <= size) ->
  exists e m',
    SysV.write size v (SysV.Buffer m out)
    = (Raise e, SysV.Buffer m' (out ++ [PrintExn "Write error: " e]))
    /\ (exn_cls e = StructError \/ exn_cls e = IndexError).
Proof.
  intros Hm Hd Hno. unfold SysV.write. unfold_monad. rewrite Hd.
  set (bs := str_encode s) in *.
  unfold SysV.memset, SysV.pack_into. simpl.
  rewrite <- Hm, Nat.min_id, drop_all, app_nil_r, length_replicate.
  case_bool_decide as H4; [|simpl; eauto 6].
  unfold pack_I.
  destruct ((0 <=? Z.of_nat (length bs)) && (Z.of_nat (length bs) <? 2 ^ 32))
    eqn:E; [|simpl; eauto 6].
  apply andb_true_iff in E as [_ E%Z.ltb_lt].
  edestruct (write_loop_fail bs 0) as (e & m' & -> & He & _); [done| |..].
  3: simpl; eauto 6.
  - rewrite !length_app, native_bytes_length, length_drop, length_replicate.
    simpl. lia.
  - rewrite !length_app, native_bytes_length, length_drop, length_replicate.
    simpl. lia.
Qed.

(** So a [write] that returns has fitted the frame. *)
Lemma write_returns size m out v b :
  length m = Z.to_nat size ->
  SysV.write size v (SysV.Buffer m out) = (Ok tt, b) ->
  exists s,
    json_dumps v = Ok s
    /\ Z.of_nat (length (str_encode s)) < 2 ^ 32
    /\ 4 + Z.of_nat (length (str_encode s)) <= size
    /\ b = SysV.Buffer (frame (str_encode s)
                          ++ replicate (length m - 4 - length (str_encode s)) x00)
                       (out ++ [wrote v]).
Proof.
  intros Hm Hw. destruct (json_dumps v) as [s|e] eqn:Hd.
  - destruct (decide (Z.of_nat (length (str_encode s)) < 2 ^ 32
                      /\ 4 + Z.of_nat (length (str_encode s)) <= size))
      as [[H32 Hfit]|Hno].
    + rewrite (write_ok _ _ _ _ s) in Hw by done.
      exists s. repeat split; try done. congruence.
    + destruct (write_raises_size size m out v s Hm Hd Hno) as (e & m' & Heq & _).
      congruence.
  - rewrite (write_raises_dumps _ _ _ _ e) in Hw by done. congruence.
Qed.

Lemma unpack_from_ok m out :
  (4 <= length m)%nat ->
  SysV.unpack_from 0 (SysV.Buffer m out) = (Ok (declared m), SysV.Buffer m out).
Proof.
  intros Hm. unfold SysV.unpack_from. simpl.
  rewrite bool_decide_eq_true_2 by lia.
  unfold unpack_I. rewrite decide_True; [done|].
  by rewrite length_take, Nat.min_l.
Qed.

Lemma read_short size m out :
  (length m < 4)%nat ->
  exists e, exn_cls e = StructError
    /\ SysV.read size (SysV.Buffer m out)
       = (Ok VNone, SysV.Buffer m (out ++ [read_error e])).
Proof.
  intros Hm. eexists. split; [|unfold SysV.read; unfold_monad;
    unfold SysV.unpack_from; simpl; rewrite bool_decide_eq_false_2 by lia;
    reflexivity].
  reflexivity.
Qed.

Lemma read_nodata size m out :
  (4 <= length m)%nat ->
  declared m <= 0 \/ declared m > size - 4 ->
  SysV.read size (SysV.Buffer m out) = (Ok VNone, SysV.Buffer m out).
Proof.
  intros Hm HL. unfold SysV.read. unfold_monad.
  rewrite unpack_from_ok by done.
  by rewrite bool_decide_eq_true_2.
Qed.

Lemma read_payload size m out :
  (4 <= length m)%nat ->
  0 < declared m <= size - 4 ->
  SysV.read size (SysV.Buffer m out)
  = match parse_bytes (payload m) with
    | Ok v => (Ok v, SysV.Buffer m out)
    | Raise e => (Ok VNone, SysV.Buffer m (out ++ [read_error e]))
    end.
Proof.
  intros Hm HL. unfold SysV.read. unfold_monad.
  rewrite unpack_from_ok by done.
  rewrite bool_decide_eq_false_2 by lia.
  unfold SysV.getslice, parse_bytes, payload. simpl.
  replace (Z.to_nat (4 + declared m - 4)) with (Z.to_nat (declared m)) by lia.
  change (Pos.to_nat 4) with 4%nat.
  destruct (bytes_decode _) as [text|e]; [|done].
  by destruct (json_loads text).
Qed.

Lemma declared_frame bs rest :
  Z.of_nat (length bs) < 2 ^ 32 ->
  declared (frame bs ++ rest) = Z.of_nat (length bs).
Proof.
  intros H32. unfold declared, frame.
  rewrite <- app_assoc, take_app_length' by (by rewrite native_bytes_length).
  apply native_value_bytes. lia.
Qed.

Lemma payload_frame bs rest :
  Z.of_nat (length bs) < 2 ^ 32 ->
  payload (frame bs ++ rest) = bs.
Proof.
  intros H32. unfold payload. rewrite declared_frame by done.
  unfold frame. rewrite <- app_assoc, drop_app_length' by (by rewrite native_bytes_length).
  rewrite Nat2Z.id. apply take_app_length.
Qed.

Lemma roundtrips_nonempty v s :
  json_dumps v = Ok s -> json_loads s = Ok v -> (0 < length (str_encode s))%nat.
Proof.
  intros _ Hl. destruct s as [|c s]; [|simpl; lia].
  destruct json_loads_empty as [e He]. congruence.
Qed.

Lemma sysv_read_written size m out v b out' :
  roundtrips v ->
  length m = Z.to_nat size ->
  SysV.write size v (SysV.Buffer m out) = (Ok tt, b) ->
  SysV.read size (SysV.Buffer (SysV.mem b) out')
  = (Ok v, SysV.Buffer (SysV.mem b) out')
  /\ length (SysV.mem b) = length m.
Proof.
  intros (s & Hd & Hu & Hl) Hm Hw.
  destruct (write_returns _ _ _ _ _ Hm Hw) as (s' & Hd' & H32 & Hfit & ->).
  assert (s' = s) as -> by congruence.
  pose proof (roundtrips_nonempty v s Hd Hl) as Hne.
  cbn [SysV.mem]. split.
  - rewrite read_payload.
    + rewrite payload_frame by done. unfold parse_bytes. by rewrite Hu, Hl.
    + rewrite length_app, frame_length. lia.
    + rewrite declared_frame by done. lia.
  - rewrite length_app, frame_length, length_replicate. lia.
Qed.

Lemma sysv_write_read size m out v b :
  roundtrips v ->
  length m = Z.to_nat size ->
  SysV.write size v (SysV.Buffer m out) = (Ok tt, b) ->
  SysV.read size b = (Ok v, b).
Proof.
  intros Hv Hm Hw.
  destruct (sysv_read_written size m out v b (SysV.stdout b) Hv Hm Hw) as [Hr _].
  by destruct b.
Qed.

End SysV_codec.

(** ** The [sysv_ipc] variant: framing *)

Section PyIpc_codec.
Context `{Runtime}.

Lemma seg_write_ok bs off seg :
  0 <= off ->
  off + Z.of_nat (length bs) <= Z.of_nat (length seg) ->
  PyIpc.seg_write bs off seg
  = (Ok tt, take (Z.to_nat off) seg ++ bs
              ++ drop (Z.to_nat off + length bs) seg).
Proof.
  intros Hoff Hfit. unfold PyIpc.seg_write.
  by rewrite !bool_decide_eq_false_2 by lia.
Qed.

Lemma seg_write_fail bs off seg :
  off + Z.of_nat (length bs) > Z.of_nat (length seg) ->
  exists e, PyIpc.seg_write bs off seg = (Raise e, seg)
            /\ exn_cls e = ValueError.
Proof.
  intros Hfit. unfold PyIpc.seg_write.
  case_bool_decide; [eauto|]. rewrite bool_decide_eq_true_2 by lia. eauto.
Qed.

Lemma pyipc_write_ok v s seg :
  json_dumps v = Ok s ->
  Z.of_nat (length (str_encode s)) < 2 ^ 31 ->
  4 + Z.of_nat (length (str_encode s)) <= Z.of_nat (length seg) ->
  PyIpc.write v seg
  = (Ok tt, frame (str_encode s) ++ drop (4 + length (str_encode s)) seg).
Proof.
  intros Hd H31 Hfit.
  unfold PyIpc.write. unfold_monad. rewrite Hd.
  set (bs := str_encode s) in *. unfold pack_i.
  replace ((- 2 ^ 31 <=? Z.of_nat (length bs)) && (Z.of_nat (length bs) <? 2 ^ 31))
    with true by (symmetry; apply andb_true_iff; lia).
  rewrite Z.mod_small by lia.
  set (pre := native_bytes byteorder (Z.of_nat (length bs))).
  assert (length pre = 4%nat) as Hpre by apply native_bytes_length.
  rewrite (seg_write_ok pre) by lia.
  rewrite seg_write_ok.
  2: lia.
  2:{ rewrite !length_app, Hpre, length_drop. lia. }
  change (Z.to_nat 0) with 0%nat. change (Z.to_nat 4) with 4%nat.
  rewrite take_0, app_nil_l, Nat.add_0_l, Hpre.
  rewrite take_app_length' by done.
  rewrite <- !drop_drop, (drop_app_length' pre) by done.
  unfold frame. fold bs pre. by rewrite <- app_assoc.
Qed.

Lemma pyipc_write_returns v seg seg' :
  PyIpc.write v seg = (Ok tt, seg') ->
  exists s,
    json_dumps v = Ok s
    /\ Z.of_nat (length (str_encode s)) < 2 ^ 31
    /\ 4 + Z.of_nat (length (str_encode s)) <= Z.of_nat (length seg)
    /\ seg' = frame (str_encode s) ++ drop (4 + length (str_encode s)) seg.
Proof.
  intros Hw. destruct (json_dumps v) as [s|e] eqn:Hd.
  2:{ unfold PyIpc.write in Hw. unfold_monad. by rewrite Hd in Hw. }
  destruct (decide (Z.of_nat (length (str_encode s)) < 2 ^ 31)) as [H31|H31].
  2:{ unfold PyIpc.write in Hw. unfold_monad. rewrite Hd in Hw.
      unfold pack_i in Hw.
      replace ((- 2 ^ 31 <=? Z.of_nat (length (str_encode s)))
               && (Z.of_nat (length (str_encode s)) <? 2 ^ 31))
        with false in Hw; [done|].
      symmetry. apply andb_false_iff. right. by apply Z.ltb_ge; lia. }
  destruct (decide (4 + Z.of_nat (length (str_encode s)) <= Z.of_nat (length seg)))
    as [Hfit|Hfit].
  { rewrite (pyipc_write_ok v s) in Hw by done. exists s.
    repeat split; try done. congruence. }
  exfalso. unfold PyIpc.write in Hw. unfold_monad. rewrite Hd in Hw.
  unfold pack_i in Hw.
  replace ((- 2 ^ 31 <=? Z.of_nat (length (str_encode s)))
           && (Z.of_nat (length (str_encode s)) <? 2 ^ 31))
    with true in Hw by (symmetry; apply andb_true_iff; lia).
  set (pre := native_bytes byteorder _) in Hw.
  assert (length pre = 4%nat) as Hpre by apply native_bytes_length.
  destruct (decide (4 <= Z.of_nat (length seg))) as [H4|H4].
  - rewrite (seg_write_ok pre) in Hw by lia.
    edestruct (seg_write_fail (str_encode s) 4) as (e & He & _);
      [|rewrite He in Hw; done].
    rewrite !length_app, Hpre, length_drop. simpl. lia.
  - edestruct (seg_write_fail pre 0 seg) as (e & He & _);
      [|rewrite He in Hw; done].
    lia.
Qed.

Lemma seg_read_ok n off seg :
  0 <= off < Z.of_nat (length seg) ->
  0 <= n ->
  PyIpc.seg_read n off seg
  = (Ok (take (Z.to_nat (if bool_decide (n = 0 \/ n > Z.of_nat (length seg) - off)
                         then Z.of_nat (length seg) - off else n))
              (drop (Z.to_nat off) seg)),
     seg).
Proof.
  intros Hoff Hn. unfold PyIpc.seg_read.
  by rewrite !bool_decide_eq_false_2 by lia.
Qed.

Lemma seg_read_negative n off seg :
  0 <= off < Z.of_nat (length seg) ->
  n < 0 ->
  PyIpc.seg_read n off seg
  = (Raise (Exn ValueError "The byte_count cannot be negative"), seg).
Proof.
  intros Hoff Hn. unfold PyIpc.seg_read.
  rewrite bool_decide_eq_false_2 by lia.
  by rewrite bool_decide_eq_true_2 by lia.
Qed.

(** [read] does not look at the length it unpacks: it hands it to the
    segment, which reads to the end for zero or for too much. *)
Lemma pyipc_read_spec seg :
  (4 < length seg)%nat ->
  PyIpc.read seg
  = (if declared_signed seg <? 0 then
       Raise (Exn ValueError "The byte_count cannot be negative")
     else
       parse_bytes
         (take (Z.to_nat (if bool_decide (declared_signed seg = 0
                                          \/ declared_signed seg
                                             > Z.of_nat (length seg) - 4)
                          then Z.of_nat (length seg) - 4
                          else declared_signed seg))
               (drop 4 seg)),
     seg).
Proof.
  intros Hlen. unfold PyIpc.read. unfold_monad.
  rewrite seg_read_ok by lia.
  rewrite bool_decide_eq_false_2 by lia.
  change (Z.to_nat 4) with 4%nat. change (Z.to_nat 0) with 0%nat. rewrite drop_0.
  unfold unpack_i. rewrite decide_True by (rewrite length_take; lia).
  fold (declared seg). fold (declared_signed seg).
  destruct (declared_signed seg <? 0) eqn:E.
  - apply Z.ltb_lt in E. by rewrite seg_read_negative by lia.
  - apply Z.ltb_ge in E. rewrite seg_read_ok by lia.
    change (Z.to_nat 4) with 4%nat. unfold parse_bytes.
    destruct (bytes_decode _); [|done]. by destruct (json_loads _).
Qed.

Lemma declared_signed_frame bs rest :
  Z.of_nat (length bs) < 2 ^ 31 ->
  declared_signed (frame bs ++ rest) = Z.of_nat (length bs).
Proof.
  intros H31. unfold declared_signed.
  rewrite declared_frame by lia.
  by rewrite (proj2 (Z.ltb_lt _ _)).
Qed.

Lemma pyipc_write_read v seg seg' :
  roundtrips v ->
  PyIpc.write v seg = (Ok tt, seg') ->
  PyIpc.read seg' = (Ok v, seg').
Proof.
  intros (s & Hd & Hu & Hl) Hw.
  destruct (pyipc_write_returns _ _ _ Hw) as (s' & Hd' & H31 & Hfit & ->).
  assert (s' = s) as -> by congruence.
  pose proof (roundtrips_nonempty v s Hd Hl) as Hne.
  set (bs := str_encode s) in *.
  rewrite pyipc_read_spec by (rewrite length_app, frame_length; lia).
  rewrite declared_signed_frame by done.
  rewrite (proj2 (Z.ltb_ge _ _)) by lia.
  rewrite bool_decide_eq_false_2.
  2:{ rewrite length_app, frame_length, length_drop. lia. }
  unfold frame. rewrite <- app_assoc.
  rewrite drop_app_length' by (by rewrite native_bytes_length).
  rewrite Nat2Z.id, take_app_length.
  unfold parse_bytes. by rewrite Hu, Hl.
Qed.

End PyIpc_codec.

(** ** The frame codec: claims *)

Section codec_claims.
Context `{Runtime}.

(** C1. Round trip: for a value [v] that [json] encodes and reads back,
    a [write] that returns leaves a buffer on which [read] returns [v]
    (and changes nothing), in the ctypes variant and in the [sysv_ipc]
    variant alike. *)
Theorem write_read_roundtrip (v : value) :
  roundtrips v ->
  (forall size m out b,
     length m = Z.to_nat size ->
     SysV.write size v (SysV.Buffer m out) = (Ok tt, b) ->
     SysV.read size b = (Ok v, b))
  /\ (forall seg seg',
        PyIpc.write v seg = (Ok tt, seg') ->
        PyIpc.read seg' = (Ok v, seg')).
Proof.
  intros Hv. split.
  - intros size m out b. by apply sysv_write_read.
  - intros seg seg'. by apply pyipc_write_read.
Qed.

(** C2, as amended. In [shared_memoryPythonSystemV.py], [read] on a
    buffer of at least 4 bytes whose declared length is zero or exceeds
    the buffer length minus 4 returns [None], prints nothing and leaves
    the buffer as it is (the length is unsigned, so never negative).  In
    [py_ipc.py], [read] does not check the length: on a zero length it
    parses everything after the prefix and raises what that raises, and
    the monitor loop swallows it when it is a [JSONDecodeError]. *)
Theorem read_out_of_range :
  (forall size m out,
     length m = Z.to_nat size ->
     (4 <= length m)%nat ->
     declared m <= 0 \/ declared m > Z.of_nat (length m) - 4 ->
     SysV.read size (SysV.Buffer m out) = (Ok VNone, SysV.Buffer m out))
  /\ (forall seg out e,
        (4 < length seg)%nat ->
        declared_signed seg = 0 ->
        parse_bytes (drop 4 seg) = Raise e ->
        PyIpc.read seg = (Raise e, seg)
        /\ (exn_cls e = JSONDecodeError ->
            PyIpc.monitor_step (out, seg) = (Ok tt, (out, seg)))).
Proof.
  split.
  - intros size m out Hm H4 HL. apply read_nodata; [done|]. lia.
  - intros seg out e Hlen HL He.
    assert (PyIpc.read seg = (Raise e, seg)) as Hr.
    { rewrite pyipc_read_spec by done. rewrite HL. simpl.
      replace (Z.to_nat (Z.of_nat (length seg) - 4)) with (length (drop 4 seg))
        by (rewrite length_drop; lia).
      by rewrite firstn_all, He. }
    split; [done|]. intros Hc.
    unfold PyIpc.monitor_step, zoom_snd. unfold_monad. simpl.
    rewrite Hr. simpl. by rewrite Hc.
Qed.

(** C3, as amended. In [shared_memoryPythonSystemV.py], a payload that
    fails UTF-8 decoding or parsing makes [read] return [None], the very
    value it returns for an out-of-range length; the two cases differ
    only on standard output, where the failure leaves a "Read error"
    line and the out-of-range length leaves nothing. *)
Theorem read_failure_outcomes size m out :
  (4 <= length m)%nat ->
  (forall e,
     0 < declared m <= size - 4 ->
     parse_bytes (payload m) = Raise e ->
     SysV.read size (SysV.Buffer m out)
     = (Ok VNone, SysV.Buffer m (out ++ [read_error e])))
  /\ (declared m <= 0 \/ declared m > size - 4 ->
      SysV.read size (SysV.Buffer m out) = (Ok VNone, SysV.Buffer m out)).
Proof.
  intros H4. split.
  - intros e HL He. rewrite read_payload by done. by rewrite He.
  - intros HL. by apply read_nodata.
Qed.

(** C4, as amended. In [shared_memoryPythonSystemV.py], a [write] that
    returns has left the frame at offset 0 and zeros in every byte after
    it. In [py_ipc.py], [write] does not clear the segment: it leaves the
    frame at offset 0 and every byte after the frame as it was. *)
Theorem write_layout (v : value) :
  (forall size m out b,
     length m = Z.to_nat size ->
     SysV.write size v (SysV.Buffer m out) = (Ok tt, b) ->
     exists s,
       json_dumps v = Ok s
       /\ SysV.mem b
          = frame (str_encode s)
              ++ replicate (length m - length (frame (str_encode s))) x00)
  /\ (forall seg seg',
        PyIpc.write v seg = (Ok tt, seg') ->
        exists s,
          json_dumps v = Ok s
          /\ seg' = frame (str_encode s)
                      ++ drop (length (frame (str_encode s))) seg).
Proof.
  split.
  - intros size m out b Hm Hw.
    destruct (write_returns _ _ _ _ _ Hm Hw) as (s & Hd & _ & _ & ->).
    exists s. split; [done|]. simpl. rewrite frame_length.
    do 2 f_equal. lia.
  - intros seg seg' Hw.
    destruct (pyipc_write_returns _ _ _ Hw) as (s & Hd & _ & _ & ->).
    exists s. split; [done|]. by rewrite frame_length.
Qed.

(** C5. Length prefix: after a [write] that returns, in either variant,
    the first 4 bytes of the buffer are the byte length of the document
    packed as a 4-byte unsigned integer in native order, and exactly
    that many bytes of the document's UTF-8 text follow. *)
Theorem write_length_prefix (v : value) :
  (forall size m out b,
     length m = Z.to_nat size ->
     SysV.write size v (SysV.Buffer m out) = (Ok tt, b) ->
     exists s,
       json_dumps v = Ok s
       /\ pack_I byteorder (Z.of_nat (length (str_encode s)))
          = Ok (take 4 (SysV.mem b))
       /\ take (length (str_encode s)) (drop 4 (SysV.mem b)) = str_encode s)
  /\ (forall seg seg',
        PyIpc.write v seg = (Ok tt, seg') ->
        exists s,
          json_dumps v = Ok s
          /\ pack_I byteorder (Z.of_nat (length (str_encode s)))
             = Ok (take 4 seg')
          /\ take (length (str_encode s)) (drop 4 seg') = str_encode s).
Proof.
  assert (forall bs rest, Z.of_nat (length bs) < 2 ^ 32 ->
            pack_I byteorder (Z.of_nat (length bs)) = Ok (take 4 (frame bs ++ rest))
            /\ take (length bs) (drop 4 (frame bs ++ rest)) = bs) as Hframe.
  { intros bs rest H32. unfold frame. rewrite <- app_assoc.
    rewrite take_app_length', drop_app_length' by (by rewrite native_bytes_length).
    rewrite take_app_length. split; [|done].
    unfold pack_I.
    by replace ((0 <=? Z.of_nat (length bs)) && (Z.of_nat (length bs) <? 2 ^ 32))
      with true by (symmetry; apply andb_true_iff; lia). }
  split.
  - intros size m out b Hm Hw.
    destruct (write_returns _ _ _ _ _ Hm Hw) as (s & Hd & H32 & _ & ->).
    exists s. split; [done|]. by apply Hframe.
  - intros seg seg' Hw.
    destruct (pyipc_write_returns _ _ _ Hw) as (s & Hd & H31 & _ & ->).
    exists s. split; [done|]. apply Hframe. lia.
Qed.

(** C10. [read] of [shared_memoryPythonSystemV.py] is total: whatever
    the buffer holds (and however short it is), it returns, never
    raises and leaves the buffer as it is; the value is the parsed
    payload when the length is in range and the payload decodes, and
    [None] for a short buffer, an out-of-range length, a UTF-8 failure
    or a parse failure. *)
Theorem read_total size m out :
  exists out',
    SysV.read size (SysV.Buffer m out)
    = (Ok (read_value size m), SysV.Buffer m out').
Proof.
  unfold read_value.
  destruct (decide (length m < 4)%nat) as [Hs|Hs].
  - rewrite bool_decide_eq_true_2 by done.
    destruct (read_short size m out Hs) as (e & _ & ->). eauto.
  - rewrite bool_decide_eq_false_2 by done.
    case_bool_decide as HL.
    + rewrite read_nodata by (done || lia). eauto.
    + rewrite read_payload by lia.
      destruct (parse_bytes (payload m)); eauto.
Qed.

End codec_claims.

(** ** The frame codec on the sample inputs *)

Lemma write_read_roundtrip_witness :
  roundtrips (H := Json.runtime) sample
  /\ (let b := snd (SysV.write 1024 sample (SysV.Buffer (zeros 1024) [])) in
      SysV.read 1024 b = (Ok sample, b))
  /\ (let seg := snd (PyIpc.write sample (zeros 1024)) in
      PyIpc.read seg = (Ok sample, seg)).
Proof.
  assert (roundtrips (H := Json.runtime) sample) as Hr.
  { eexists. split; [reflexivity|]. split; vm_compute; reflexivity. }
  destruct (write_read_roundtrip (H := Json.runtime) sample Hr) as [Hs Hp].
  split; [exact Hr|]. split.
  - apply (Hs 1024 (zeros 1024) []); [reflexivity|vm_compute; reflexivity].
  - apply (Hp (zeros 1024)). vm_compute. reflexivity.
Defined.

(** The reference [json] reads back what it writes, on a value with
    every construct of the fragment. *)
Example nested_roundtrips : roundtrips (H := Json.runtime) nested.
Proof.
  eexists. split; [reflexivity|]. split; vm_compute; reflexivity.
Qed.

(** On a never-written segment [read] of [py_ipc.py] does not return
    [None]: it raises [JSONDecodeError]. *)
Lemma read_out_of_range_counterexample :
  let seg := zeros 1024 in
  (4 <= length seg)%nat
  /\ declared_signed (H := Json.runtime) seg = 0
  /\ fst (PyIpc.read (H := Json.runtime) seg) <> Ok VNone
  /\ exists e, PyIpc.read (H := Json.runtime) seg = (Raise e, seg)
               /\ exn_cls e = JSONDecodeError.
Proof.
  cbv zeta. split; [unfold zeros; rewrite length_replicate; lia|].
  split; [vm_compute; reflexivity|]. split.
  - vm_compute. discriminate.
  - eexists. split; vm_compute; reflexivity.
Qed.

Lemma read_out_of_range_witness :
  SysV.read (H := Json.runtime) 1024 (SysV.Buffer (zeros 1024) [])
  = (Ok VNone, SysV.Buffer (zeros 1024) [])
  /\ (exists e, PyIpc.read (H := Json.runtime) (zeros 1024)
                = (Raise e, zeros 1024)
                /\ PyIpc.monitor_step (H := Json.runtime) ([], zeros 1024)
                   = (Ok tt, ([], zeros 1024))).
Proof.
  destruct (read_out_of_range (H := Json.runtime)) as [Hs Hp].
  split.
  - apply Hs; [reflexivity| |left; vm_compute; discriminate].
    unfold zeros. rewrite length_replicate. lia.
  - eexists.
    destruct (Hp (zeros 1024) [] (Exn JSONDecodeError "Expecting value"))
      as [Hr Hm].
    + unfold zeros. rewrite length_replicate. lia.
    + vm_compute. reflexivity.
    + vm_compute. reflexivity.
    + split; [exact Hr|]. apply Hm. reflexivity.
Defined.

(** A garbled payload and a never-written buffer give the same return
    value, [None]. *)
Lemma read_failure_outcomes_counterexample :
  0 < declared (H := Json.runtime) garbled <= 8 - 4
  /\ (exists e, parse_bytes (H := Json.runtime) (payload garbled) = Raise e)
  /\ declared (H := Json.runtime) (zeros 8) = 0
  /\ fst (SysV.read (H := Json.runtime) 8 (SysV.Buffer garbled []))
     = fst (SysV.read (H := Json.runtime) 8 (SysV.Buffer (zeros 8) [])).
Proof.
  repeat split; try (vm_compute; (reflexivity || discriminate)).
  eexists. vm_compute. reflexivity.
Qed.

Lemma read_failure_outcomes_witness :
  (exists e,
     SysV.read (H := Json.runtime) 8 (SysV.Buffer garbled [])
     = (Ok VNone, SysV.Buffer garbled [read_error e])
     /\ exn_cls e = UnicodeDecodeError)
  /\ SysV.read (H := Json.runtime) 8 (SysV.Buffer (zeros 8) [])
     = (Ok VNone, SysV.Buffer (zeros 8) []).
Proof.
  split.
  - eexists. split.
    + apply (read_failure_outcomes (H := Json.runtime) 8 garbled []).
      * vm_compute. lia.
      * vm_compute. split; [reflexivity|discriminate].
      * vm_compute. reflexivity.
    + reflexivity.
  - apply (read_failure_outcomes (H := Json.runtime) 8 (zeros 8) []).
    + vm_compute. lia.
    + left. vm_compute. discriminate.
Defined.

(** After a longer document, [write] of [py_ipc.py] leaves its tail
    behind the new frame: byte 16 is still the digit 4. *)
Lemma write_layout_counterexample :
  let seg := snd (PyIpc.write (H := Json.runtime) longer (zeros 32)) in
  exists seg',
    PyIpc.write (H := Json.runtime) sample seg = (Ok tt, seg')
    /\ (exists s, Json.dumps sample = Ok s
                  /\ length (frame (H := Json.runtime) (str_encode s)) = 16%nat)
    /\ seg' !! 16%nat = Some x34.
Proof.
  eexists. split; [vm_compute; reflexivity|]. split.
  - eexists. split; [reflexivity|]. vm_compute. reflexivity.
  - vm_compute. reflexivity.
Qed.

Lemma write_layout_witness :
  (exists s, Json.dumps sample = Ok s
     /\ SysV.mem (snd (SysV.write (H := Json.runtime) 32 sample
                         (SysV.Buffer (stale 32) [])))
        = frame (str_encode s) ++ zeros 16)
  /\ (exists s, Json.dumps sample = Ok s
        /\ snd (PyIpc.write (H := Json.runtime) sample (stale 32))
           = frame (str_encode s) ++ stale 16).
Proof.
  destruct (write_layout (H := Json.runtime) sample) as [Hs Hp]. split.
  - destruct (Hs 32 (stale 32) []
                (snd (SysV.write (H := Json.runtime) 32 sample
                        (SysV.Buffer (stale 32) []))))
      as (s & Hd & Hm); [reflexivity|vm_compute; reflexivity|].
    exists s. split; [exact Hd|]. rewrite Hm.
    injection Hd as <-. vm_compute. reflexivity.
  - destruct (Hp (stale 32) (snd (PyIpc.write (H := Json.runtime) sample (stale 32))))
      as (s & Hd & Hm); [vm_compute; reflexivity|].
    exists s. split; [exact Hd|]. rewrite Hm.
    injection Hd as <-. vm_compute. reflexivity.
Defined.

Lemma write_length_prefix_witness :
  (exists s, Json.dumps sample = Ok s
     /\ take 4 (SysV.mem (snd (SysV.write (H := Json.runtime) 1024 sample
                                 (SysV.Buffer (zeros 1024) []))))
        = [x0c; x00; x00; x00]
     /\ length (str_encode s) = 12%nat)
  /\ (exists s, Json.dumps sample = Ok s
        /\ take 4 (snd (PyIpc.write (H := Json.runtime) sample (zeros 1024)))
           = [x0c; x00; x00; x00]
        /\ length (str_encode s) = 12%nat).
Proof.
  destruct (write_length_prefix (H := Json.runtime) sample) as [Hs Hp]. split.
  - destruct (Hs 1024 (zeros 1024) []
                (snd (SysV.write (H := Json.runtime) 1024 sample
                        (SysV.Buffer (zeros 1024) []))))
      as (s & Hd & Hpack & _); [reflexivity|vm_compute; reflexivity|].
    exists s. split; [exact Hd|]. injection Hd as <-.
    split; vm_compute; reflexivity.
  - destruct (Hp (zeros 1024) (snd (PyIpc.write (H := Json.runtime) sample (zeros 1024))))
      as (s & Hd & Hpack & _); [vm_compute; reflexivity|].
    exists s. split; [exact Hd|]. injection Hd as <-.
    split; vm_compute; reflexivity.
Defined.

Lemma read_total_witness :
  read_value (H := Json.runtime) 8 garbled = VNone
  /\ read_value (H := Json.runtime) 8 (zeros 8) = VNone
  /\ read_value (H := Json.runtime) 8 [x01; x00] = VNone
  /\ exists out',
       SysV.read (H := Json.runtime) 8 (SysV.Buffer garbled [])
       = (Ok VNone, SysV.Buffer garbled out').
Proof.
  repeat split; try (vm_compute; reflexivity).
  apply (read_total (H := Json.runtime) 8 garbled []).
Defined.

(** ** The kernel's calls *)

Section kernel_facts.
Import Kernel.

Lemma requested_acquire f uid d :
  acquiring f ->
  permitted uid (requested f) d = permitted uid 6 d.
Proof.
  intros Hf. unfold permitted. f_equal. f_equal.
  assert (Z.land (requested f) 7 = 6) as Hw by (by destruct Hf as [-> | ->]).
  rewrite <- !Z.land_assoc, !(Z.land_comm _ 7), !Z.land_assoc.
  by rewrite Hw.
Qed.

(** With [IPC_CREAT] and without [IPC_EXCL], shmget on a key in use finds
    the segment, subject to its size and permissions; on a free key it
    creates one. *)
Lemma shmget_acquire f key size w :
  acquiring f ->
  shmget key size f w
  = match (if bool_decide (key = IPC_PRIVATE) then None
           else keys (kern w) !! key) with
    | Some id =>
      match segments (kern w) !! id with
      | Some d =>
        if bool_decide (size > shm_segsz d) then fail EINVAL (-1) w
        else if negb (permitted (euid (proc w)) 6 d) then fail EACCES (-1) w
        else (Ok id, w)
      | None => fail EINVAL (-1) w
      end
    | None => create key size f w
    end.
Proof.
  intros Hf. unfold shmget.
  assert ((Z.land f IPC_CREAT =? IPC_CREAT) = true) as ->
    by (by destruct Hf as [-> | ->]).
  assert ((Z.land f IPC_EXCL =? IPC_EXCL) = false) as ->
    by (by destruct Hf as [-> | ->]).
  destruct (if bool_decide (key = IPC_PRIVATE) then None else keys (kern w) !! key)
    as [id|]; [|reflexivity].
  destruct (segments (kern w) !! id) as [d|]; [|reflexivity].
  cbn [andb]. by rewrite requested_acquire.
Qed.

(** Whatever the state, such a shmget never reports [EEXIST]: it fails
    with another [errno] and changes nothing else, or it returns a
    segment the caller may read and write, of at least the size asked
    for, and registered under the key. *)
Lemma shmget_acquire_cases f key size w r w' :
  acquiring f ->
  shmget key size f w = (r, w') ->
  (r = Ok (-1) /\ kern w' = kern w
   /\ (errno (proc w') = EINVAL \/ errno (proc w') = EACCES
       \/ errno (proc w') = ENOSPC))
  \/ (exists id d,
        r = Ok id /\ proc w' = proc w
        /\ segments (kern w') !! id = Some d
        /\ permitted (euid (proc w)) 6 d = true
        /\ size <= shm_segsz d
        /\ (key <> IPC_PRIVATE -> keys (kern w') !! key = Some id)
        /\ (valid_ids (kern w) -> 0 <= id)).
Proof.
  intros Hf. rewrite shmget_acquire by done. unfold create, fail.
  destruct (if bool_decide (key = IPC_PRIVATE) then None else keys (kern w) !! key)
    as [id|] eqn:Hk.
  - destruct (segments (kern w) !! id) as [d|] eqn:Hd.
    + destruct (bool_decide (size > shm_segsz d)) eqn:Hsz;
        [intros [= <- <-]; left; simpl; auto|].
      apply bool_decide_eq_false in Hsz.
      destruct (permitted (euid (proc w)) 6 d) eqn:Hp; simpl; intros [= <- <-].
      * right. exists id, d. repeat split; try done; try lia.
        -- intros Hne. by rewrite bool_decide_eq_false_2 in Hk.
        -- intros [_ Hv]. case_bool_decide; [done|]. by apply (Hv key).
      * left. simpl. auto.
    + intros [= <- <-]. left. simpl. auto.
  - destruct (bool_decide (size < 1 \/ size > shmmax (kern w))) eqn:Hsz;
      [intros [= <- <-]; left; simpl; auto|].
    apply bool_decide_eq_false in Hsz.
    destruct (bool_decide (shmmni (kern w) <= base.size (segments (kern w)))%nat);
      intros [= <- <-]; [left; simpl; auto|].
    right. eexists _, _. split; [done|]. split; [done|]. simpl.
    split; [by rewrite lookup_insert_eq|]. split; [|split; [|split]].
    + unfold permitted. simpl.
      rewrite (bool_decide_eq_true_2 (euid (proc w) = euid (proc w))) by done.
      destruct Hf as [-> | ->]; apply orb_true_r.
    + simpl. lia.
    + intros Hne. rewrite bool_decide_eq_false_2 by done.
      by rewrite lookup_insert_eq.
    + by intros [Hn _].
Qed.

End kernel_facts.

(** ** Acquiring a segment *)

Section sysv_acquire.
Import Kernel.

Lemma c_int_acquire_flags : SysV.c_int acquire_flags = acquire_flags.
Proof. reflexivity. Qed.

Lemma c_void_p_not_minus_one a : SysV.c_void_p a <> -1.
Proof.
  unfold SysV.c_void_p. pose proof (Z.mod_pos_bound a (2 ^ 64) ltac:(lia)). lia.
Qed.

Lemma shmat_ok id d w :
  segments (kern w) !! id = Some d ->
  permitted (euid (proc w)) 6 d = true ->
  shmat id w = (Ok (next_addr (proc w)), attached_world id d w).
Proof.
  intros Hd Hp. unfold shmat. by rewrite Hd, Hp.
Qed.

(** [init] on a key in use, when size and permissions allow: the object
    is attached to the segment that is there. *)
Lemma sysv_init_existing key size s0 w id d :
  SysV.c_int key <> IPC_PRIVATE ->
  keys (kern w) !! SysV.c_int key = Some id ->
  segments (kern w) !! id = Some d ->
  id <> -1 ->
  0 <= size ->
  SysV.size_t (SysV.c_int size) <= shm_segsz d ->
  permitted (euid (proc w)) 6 d = true ->
  SysV.__init__ key size (s0, w)
  = (Ok tt,
     (SysV.Self key size (Some id)
        (Some (SysV.CArray (SysV.c_void_p (next_addr (proc w))) size)),
      say initialized (attached_world id d w))).
Proof.
  intros Hk Hkey Hd Hid Hsz Hfit Hperm.
  unfold SysV.__init__, SysV.init, SysV.libc. unfold_state. simpl.
  fold acquire_flags. rewrite c_int_acquire_flags, shmget_acquire by (by left).
  rewrite bool_decide_eq_false_2 by done. rewrite Hkey, Hd.
  rewrite bool_decide_eq_false_2 by lia. rewrite Hperm. simpl.
  rewrite bool_decide_eq_false_2 by done. simpl.
  rewrite (shmat_ok id d) by done. simpl.
  rewrite bool_decide_eq_false_2 by apply c_void_p_not_minus_one. simpl.
  rewrite (proj2 (Z.ltb_ge _ _)) by lia. reflexivity.
Qed.

(** [init] in general, by what shmget answers. *)
Lemma sysv_init_shmget_fails key size s0 w w' :
  shmget (SysV.c_int key) (SysV.size_t (SysV.c_int size)) acquire_flags w
  = (Ok (-1), w') ->
  SysV.__init__ key size (s0, w)
  = (Raise (SysV.os_error "shmget" (errno (proc w'))),
     (SysV.Self key size (Some (-1)) None, w')).
Proof.
  intros Hg. unfold SysV.__init__, SysV.init, SysV.libc. unfold_state. simpl.
  fold acquire_flags. rewrite c_int_acquire_flags, Hg. reflexivity.
Qed.

Lemma sysv_init_shmget_ok key size s0 w w' id d :
  shmget (SysV.c_int key) (SysV.size_t (SysV.c_int size)) acquire_flags w
  = (Ok id, w') ->
  id <> -1 ->
  segments (kern w') !! id = Some d ->
  permitted (euid (proc w')) 6 d = true ->
  SysV.__init__ key size (s0, w)
  = if size <? 0 then
      (Raise (Exn ValueError "Array length must be >= 0"),
       (SysV.Self key size (Some id) None, attached_world id d w'))
    else
      (Ok tt,
       (SysV.Self key size (Some id)
          (Some (SysV.CArray (SysV.c_void_p (next_addr (proc w'))) size)),
        say initialized (attached_world id d w'))).
Proof.
  intros Hg Hid Hd Hp.
  unfold SysV.__init__, SysV.init, SysV.libc. unfold_state. simpl.
  fold acquire_flags. rewrite c_int_acquire_flags, Hg. simpl.
  rewrite bool_decide_eq_false_2 by done. simpl.
  rewrite (shmat_ok id d) by done. simpl.
  rewrite bool_decide_eq_false_2 by apply c_void_p_not_minus_one. simpl.
  by destruct (size <? 0).
Qed.

(** What an [init] that returned has done. *)
Lemma sysv_init_returns key size s0 w self1 w1 :
  SysV.__init__ key size (s0, w) = (Ok tt, (self1, w1)) ->
  exists id d w',
    shmget (SysV.c_int key) (SysV.size_t (SysV.c_int size)) acquire_flags w
    = (Ok id, w')
    /\ id <> -1 /\ 0 <= size /\ proc w' = proc w
    /\ segments (kern w') !! id = Some d
    /\ permitted (euid (proc w)) 6 d = true
    /\ SysV.size_t (SysV.c_int size) <= shm_segsz d
    /\ (SysV.c_int key <> IPC_PRIVATE ->
        keys (kern w') !! SysV.c_int key = Some id)
    /\ self1 = SysV.Self key size (Some id)
                 (Some (SysV.CArray (SysV.c_void_p (next_addr (proc w))) size))
    /\ w1 = say initialized (attached_world id d w').
Proof.
  intros Hinit.
  destruct (shmget (SysV.c_int key) (SysV.size_t (SysV.c_int size))
              acquire_flags w) as [r w'] eqn:Hg.
  destruct (shmget_acquire_cases _ _ _ _ _ _ ltac:(by left) Hg)
    as [(-> & _)|(id & d & -> & Hproc & Hd & Hp & Hsz & Hkey & _)].
  { by rewrite (sysv_init_shmget_fails _ _ _ _ _ Hg) in Hinit. }
  destruct (decide (id = -1)) as [->|Hid].
  { by rewrite (sysv_init_shmget_fails _ _ _ _ _ Hg) in Hinit. }
  rewrite (sysv_init_shmget_ok _ _ _ _ _ id d Hg) in Hinit;
    [|done|done|by rewrite Hproc].
  destruct (size <? 0) eqn:Hs; [done|]. apply Z.ltb_ge in Hs.
  injection Hinit as <- <-.
  exists id, d, w'. rewrite Hproc. by repeat split.
Qed.

End sysv_acquire.

Section pyipc_acquire.
Import Kernel.

Lemma shmget_error_class n :
  n = EINVAL \/ n = EACCES \/ n = ENOSPC ->
  exn_cls (PyIpc.shmget_error n) <> ExistentialError.
Proof. by intros [->|[->| ->]]. Qed.

Lemma shmat_error_class n : exn_cls (PyIpc.shmat_error n) <> ExistentialError.
Proof.
  unfold PyIpc.shmat_error. by repeat case_bool_decide.
Qed.

Lemma pyipc_flags :
  Z.lor (Z.land 384 511) (Z.land acquire_flags (Z.lnot 511)) = sysv_ipc_flags.
Proof. reflexivity. Qed.





End pyipc_acquire.

Section acquire_claims.
Import Kernel.

Lemma permitted_set_nattch uid want n d :
  permitted uid want (set_nattch n d) = permitted uid want d.
Proof. reflexivity. Qed.






(** What one holder writes, another holder of the same segment reads:
    the two ctypes arrays are views of the same bytes. *)
Lemma sysv_write_visible `{Runtime} v size arr1 arr2 w holder id d w' :
  roundtrips v ->
  SysV.len arr1 = size ->
  SysV.len arr2 = size ->
  (Z.to_nat size <= length (shm_bytes d))%nat ->
  mapped (SysV.addr arr1) w = Some (id, d) ->
  attached holder !! SysV.addr arr2 = Some id ->
  SysV.on_memory arr1 (SysV.write size v) w = (Ok tt, w') ->
  fst (SysV.on_memory arr2 (SysV.read size) (switch holder w')) = Ok v.
Proof.
  intros Hv Hl1 Hl2 Hfit Hmap Hh. unfold SysV.on_memory. rewrite Hmap, Hl1.
  destruct (SysV.write size v _) as [r b] eqn:Hw. intros [= -> <-].
  edestruct (sysv_read_written size) as [Hr Hlen]; [done| |exact Hw|].
  { rewrite length_take. lia. }
  rewrite length_take, Nat.min_l in Hlen by done.
  unfold mapped, switch, store. simpl. rewrite Hh. simpl.
  rewrite lookup_insert_eq. simpl. rewrite Hl2.
  rewrite take_app_length' by done. by rewrite Hr.
Qed.


End acquire_claims.


(** ** Releasing a segment *)

Section release_facts.
Import Kernel.

Lemma shmdt_returns a w : exists r w', shmdt a w = (Ok r, w').
Proof.
  unfold shmdt, fail. destruct (a ≫= _) as [[? ?]|]; eauto.
Qed.

Lemma shmctl_rmid_returns id w : exists r w', shmctl_rmid id w = (Ok r, w').
Proof.
  unfold shmctl_rmid, fail. destruct (segments (kern w) !! id); [|eauto].
  destruct (negb _); eauto.
Qed.

Lemma shmdt_attached a id w :
  attached (proc w) !! a = Some id ->
  shmdt (Some a) w
  = (Ok 0, World (drop_attach id (kern w))
                 (set_attached (delete a (attached (proc w)))
                               (next_addr (proc w)) (proc w))).
Proof. intros Ha. unfold shmdt. simpl. by rewrite Ha. Qed.

Lemma shmdt_null w : shmdt None w = fail EINVAL (-1) w.
Proof. reflexivity. Qed.

(** Detaching while somebody else is attached keeps the segment. *)
Lemma drop_attach_shared id d k :
  segments k !! id = Some d ->
  (2 <= shm_nattch d)%nat ->
  segments (drop_attach id k) !! id = Some (set_nattch (pred (shm_nattch d)) d)
  /\ keys (drop_attach id k) = keys k.
Proof.
  intros Hd Hn. unfold drop_attach. rewrite Hd.
  rewrite (bool_decide_eq_false_2 (pred (shm_nattch d) = 0%nat)) by lia.
  rewrite andb_false_r. simpl. by rewrite lookup_insert_eq.
Qed.

(** Removal of a segment somebody is attached to, granted or refused,
    leaves its memory in place. *)
Lemma shmctl_rmid_shared id d w :
  segments (kern w) !! id = Some d ->
  shm_nattch d <> 0%nat ->
  exists r w' d',
    shmctl_rmid id w = (Ok r, w')
    /\ segments (kern w') !! id = Some d'
    /\ shm_bytes d' = shm_bytes d
    /\ shm_nattch d' = shm_nattch d
    /\ attached (proc w') = attached (proc w)
    /\ (r = -1 -> errno (proc w') = EPERM /\ kern w' = kern w).
Proof.
  intros Hd Hn. unfold shmctl_rmid, fail. rewrite Hd.
  destruct (negb _).
  - eexists _, _, d. repeat split; done.
  - rewrite (bool_decide_eq_false_2 (shm_nattch d = 0%nat)) by done.
    eexists _, _, _. split; [done|]. simpl. rewrite lookup_insert_eq.
    repeat split; done.
Qed.

(** A caller who is neither the creator nor root is refused. *)
Lemma shmctl_rmid_refused id d w :
  segments (kern w) !! id = Some d ->
  euid (proc w) <> shm_cuid d ->
  euid (proc w) <> 0 ->
  shmctl_rmid id w = fail EPERM (-1) w.
Proof.
  intros Hd Hc Hr. unfold shmctl_rmid. rewrite Hd.
  by rewrite !bool_decide_eq_false_2 by done.
Qed.

(** [cleanup] of the ctypes class always returns; a live object comes
    out of it without memory and without identifier. *)
Lemma sysv_cleanup_returns self w :
  exists w',
    SysV.cleanup (self, w)
    = (Ok tt,
       (if SysV.truthy (SysV.memory self)
        then SysV.Self (SysV.key self) (SysV.size self) None None
        else self,
        w')).
Proof.
  unfold_cleanup. simpl.
  destruct (SysV.truthy (SysV.memory self)); [|eauto]. cbn [fst snd].
  destruct (shmdt_returns (SysV.addr <$> SysV.memory self) w) as (r & w1 & ->).
  simpl.
  destruct (bool_decide (r = -1)); simpl.
  - destruct (SysV.shmid self) as [id|]; simpl; [|eauto].
    destruct (shmctl_rmid_returns id
                (World (kern w1)
                   (set_stdout
                      (stdout (proc w1)
                         ++ [PrintInt "shmdt failed with errno " (errno (proc w1))])
                      (proc w1)))) as (r' & w2 & ->).
    simpl. destruct (bool_decide (r' = -1)); simpl; eauto.
  - destruct (SysV.shmid self) as [id|]; simpl; [|eauto].
    destruct (shmctl_rmid_returns id w1) as (r' & w2 & ->).
    simpl. destruct (bool_decide (r' = -1)); simpl; eauto.
Qed.

Lemma sysv_cleanup_released self w :
  SysV.truthy (SysV.memory self) = false ->
  SysV.cleanup (self, w) = (Ok tt, (self, w)).
Proof.
  intros Ht. unfold_cleanup. simpl. by rewrite Ht.
Qed.

(** Calling it again changes nothing. *)
Lemma sysv_cleanup_idempotent st :
  exists st1,
    SysV.cleanup st = (Ok tt, st1) /\ SysV.cleanup st1 = (Ok tt, st1).
Proof.
  destruct st as [self w].
  destruct (sysv_cleanup_returns self w) as [w' Hc].
  eexists. split; [exact Hc|].
  apply sysv_cleanup_released.
  by destruct (SysV.truthy (SysV.memory self)) eqn:E.
Qed.

(** While another holder is attached, [cleanup] of the ctypes class
    returns and the segment keeps its memory, whether the removal was
    granted or refused. *)
Lemma sysv_cleanup_shared self w arr id d :
  SysV.memory self = Some arr ->
  SysV.truthy (SysV.memory self) = true ->
  SysV.shmid self = Some id ->
  mapped (SysV.addr arr) w = Some (id, d) ->
  (2 <= shm_nattch d)%nat ->
  exists w' d',
    SysV.cleanup (self, w)
    = (Ok tt, (SysV.Self (SysV.key self) (SysV.size self) None None, w'))
    /\ segments (kern w') !! id = Some d'
    /\ shm_bytes d' = shm_bytes d
    /\ shm_nattch d' = pred (shm_nattch d).
Proof.
  intros Hm Ht Hi Hmap Hn.
  unfold mapped in Hmap.
  destruct (attached (proc w) !! SysV.addr arr) as [id'|] eqn:Ha; [|done].
  simpl in Hmap.
  destruct (segments (kern w) !! id') as [d0|] eqn:Hd; [|done].
  simpl in Hmap. injection Hmap as -> ->.
  destruct (drop_attach_shared id d (kern w) Hd Hn) as [Hd1 Hk1].
  unfold_cleanup. simpl. rewrite Ht, Hm, Hi. cbn [fst snd fmap option_fmap option_map SysV.addr].
  rewrite (shmdt_attached _ id) by done. simpl.
  set (w1 := World (drop_attach id (kern w)) _).
  destruct (shmctl_rmid_shared id _ w1 Hd1 ltac:(simpl; lia))
    as (r & w2 & d' & -> & Hd' & Hb & Hn' & _ & _).
  simpl. destruct (bool_decide (r = -1)); simpl; eauto 10.
Qed.

(** When the removal is refused, that is all there is to see: a line
    on standard output. *)
Lemma sysv_cleanup_refused self w arr id d :
  SysV.memory self = Some arr ->
  SysV.truthy (SysV.memory self) = true ->
  SysV.shmid self = Some id ->
  mapped (SysV.addr arr) w = Some (id, d) ->
  (2 <= shm_nattch d)%nat ->
  euid (proc w) <> shm_cuid d ->
  euid (proc w) <> 0 ->
  exists w',
    SysV.cleanup (self, w)
    = (Ok tt, (SysV.Self (SysV.key self) (SysV.size self) None None, w'))
    /\ segments (kern w') !! id = Some (set_nattch (pred (shm_nattch d)) d)
    /\ keys (kern w') = keys (kern w)
    /\ stdout (proc w') = stdout (proc w) ++ [rmid_failed EPERM; cleaned].
Proof.
  intros Hm Ht Hi Hmap Hn Hc Hr.
  unfold mapped in Hmap.
  destruct (attached (proc w) !! SysV.addr arr) as [id'|] eqn:Ha; [|done].
  simpl in Hmap.
  destruct (segments (kern w) !! id') as [d0|] eqn:Hd; [|done].
  simpl in Hmap. injection Hmap as -> ->.
  destruct (drop_attach_shared id d (kern w) Hd Hn) as [Hd1 Hk1].
  unfold_cleanup. simpl. rewrite Ht, Hm, Hi.
  cbn [fst snd fmap option_fmap option_map SysV.addr].
  rewrite (shmdt_attached _ id) by done. simpl.
  set (w1 := World (drop_attach id (kern w)) _).
  rewrite (shmctl_rmid_refused id _ w1 Hd1) by done.
  simpl. eexists. split; [done|]. simpl.
  by rewrite <- app_assoc.
Qed.

(** [cleanup] of the [sysv_ipc] class on an attached object returns,
    whatever the removal does; the object stays in [self.memory],
    detached. *)
Lemma pyipc_cleanup_attached self w id a id0 :
  PyIpc.memory self = Some (PyIpc.ShmObj id (Some a)) ->
  attached (proc w) !! a = Some id0 ->
  exists w',
    PyIpc.cleanup (self, w)
    = (Ok tt,
       (PyIpc.Self (PyIpc.key self) (PyIpc.size self)
          (Some (PyIpc.ShmObj id None)), w')).
Proof.
  intros Hm Ha. unfold_cleanup. simpl. rewrite Hm. simpl.
  rewrite (shmdt_attached _ id0) by done. simpl.
  set (w1 := World (drop_attach id0 (kern w)) _).
  destruct (shmctl_rmid_returns id w1) as (r & w2 & ->). simpl.
  destruct (bool_decide (r = -1)); simpl; eauto.
Qed.

(** On a detached object it raises: [self.memory] is still there, and
    [detach] is outside the [try]. *)
Lemma pyipc_cleanup_detached self w id :
  PyIpc.memory self = Some (PyIpc.ShmObj id None) ->
  PyIpc.cleanup (self, w)
  = (Raise (Exn NotAttachedError "Not attached"),
     (PyIpc.Self (PyIpc.key self) (PyIpc.size self)
        (Some (PyIpc.ShmObj id None)),
      World (kern w) (set_errno EINVAL (proc w)))).
Proof.
  intros Hm. unfold_cleanup. simpl. by rewrite Hm.
Qed.

Lemma pyipc_cleanup_twice self w id a id0 :
  PyIpc.memory self = Some (PyIpc.ShmObj id (Some a)) ->
  attached (proc w) !! a = Some id0 ->
  exists st1 st2 e,
    PyIpc.cleanup (self, w) = (Ok tt, st1)
    /\ PyIpc.cleanup st1 = (Raise e, st2)
    /\ exn_cls e = NotAttachedError.
Proof.
  intros Hm Ha.
  destruct (pyipc_cleanup_attached self w id a id0 Hm Ha) as [w' Hc].
  eexists _, _, _. split; [exact Hc|].
  split; [by apply (pyipc_cleanup_detached _ _ id)|done].
Qed.

Lemma pyipc_cleanup_shared self w id a d :
  PyIpc.memory self = Some (PyIpc.ShmObj id (Some a)) ->
  mapped a w = Some (id, d) ->
  (2 <= shm_nattch d)%nat ->
  exists self' w' d',
    PyIpc.cleanup (self, w) = (Ok tt, (self', w'))
    /\ segments (kern w') !! id = Some d'
    /\ shm_bytes d' = shm_bytes d
    /\ shm_nattch d' = pred (shm_nattch d).
Proof.
  intros Hm Hmap Hn.
  unfold mapped in Hmap.
  destruct (attached (proc w) !! a) as [id'|] eqn:Ha; [|done].
  simpl in Hmap.
  destruct (segments (kern w) !! id') as [d0|] eqn:Hd; [|done].
  simpl in Hmap. injection Hmap as -> ->.
  destruct (drop_attach_shared id d (kern w) Hd Hn) as [Hd1 Hk1].
  unfold_cleanup. simpl. rewrite Hm. simpl.
  rewrite (shmdt_attached _ id) by done. simpl.
  set (w1 := World (drop_attach id (kern w)) _).
  destruct (shmctl_rmid_shared id _ w1 Hd1 ltac:(simpl; lia))
    as (r & w2 & d' & -> & Hd' & Hb & Hn' & _ & _).
  simpl. destruct (bool_decide (r = -1)); simpl; eauto 10.
Qed.

End release_facts.

Section release_claims.
Import Kernel.

(** C7. Releasing twice. In the ctypes class a second [cleanup] is a
    no-op: it returns and leaves object and world as the first left
    them. In the [sysv_ipc] class it is not: on every attached object the
    first [cleanup] returns and the second raises [NotAttachedError]; so
    it does on the handle the program itself makes (key 12345, 1024
    bytes). *)
Theorem cleanup_twice :
  (forall st, exists st1,
     SysV.cleanup st = (Ok tt, st1) /\ SysV.cleanup st1 = (Ok tt, st1))
  /\ (forall self w id a id0,
        PyIpc.memory self = Some (PyIpc.ShmObj id (Some a)) ->
        attached (proc w) !! a = Some id0 ->
        exists st1 st2 e,
          PyIpc.cleanup (self, w) = (Ok tt, st1)
          /\ PyIpc.cleanup st1 = (Raise e, st2)
          /\ exn_cls e = NotAttachedError)
  /\ (let st0 := snd (PyIpc.__init__ 12345 1024
                        (PyIpc.Self 0 0 None, World boot (user 1000))) in
      exists st1 st2 e,
        PyIpc.cleanup st0 = (Ok tt, st1)
        /\ PyIpc.cleanup st1 = (Raise e, st2)
        /\ exn_cls e = NotAttachedError).
Proof.
  split; [apply sysv_cleanup_idempotent|].
  split; [apply pyipc_cleanup_twice|].
  cbv zeta.
  destruct (snd (PyIpc.__init__ 12345 1024
                   (PyIpc.Self 0 0 None, World boot (user 1000))))
    as [self w] eqn:E.
  vm_compute in E. injection E as <- <-.
  eapply pyipc_cleanup_twice; reflexivity.
Qed.

(** C8. Best-effort removal. [cleanup] of the ctypes class returns in
    every state; [cleanup] of the [sysv_ipc] class returns on every
    attached object; a removal the kernel refuses shows as one line on
    standard output and nothing else; and while another holder is
    attached, the segment is still mapped for that holder with its
    content, in both classes, whether the removal was granted or
    refused. *)
Theorem cleanup_removal_best_effort :
  (forall self w, exists st, SysV.cleanup (self, w) = (Ok tt, st))
  /\ (forall self w id a id0,
        PyIpc.memory self = Some (PyIpc.ShmObj id (Some a)) ->
        attached (proc w) !! a = Some id0 ->
        exists st, PyIpc.cleanup (self, w) = (Ok tt, st))
  /\ (forall self w arr id d,
        SysV.memory self = Some arr ->
        SysV.truthy (SysV.memory self) = true ->
        SysV.shmid self = Some id ->
        mapped (SysV.addr arr) w = Some (id, d) ->
        (2 <= shm_nattch d)%nat ->
        euid (proc w) <> shm_cuid d ->
        euid (proc w) <> 0 ->
        exists self' w',
          SysV.cleanup (self, w) = (Ok tt, (self', w'))
          /\ stdout (proc w') = stdout (proc w) ++ [rmid_failed EPERM; cleaned]
          /\ keys (kern w') = keys (kern w))
  /\ (forall self w arr id d holder a,
        SysV.memory self = Some arr ->
        SysV.truthy (SysV.memory self) = true ->
        SysV.shmid self = Some id ->
        mapped (SysV.addr arr) w = Some (id, d) ->
        (2 <= shm_nattch d)%nat ->
        attached holder !! a = Some id ->
        exists self' w' d',
          SysV.cleanup (self, w) = (Ok tt, (self', w'))
          /\ mapped a (switch holder w') = Some (id, d')
          /\ shm_bytes d' = shm_bytes d)
  /\ (forall self w id a d holder a',
        PyIpc.memory self = Some (PyIpc.ShmObj id (Some a)) ->
        mapped a w = Some (id, d) ->
        (2 <= shm_nattch d)%nat ->
        attached holder !! a' = Some id ->
        exists self' w' d',
          PyIpc.cleanup (self, w) = (Ok tt, (self', w'))
          /\ mapped a' (switch holder w') = Some (id, d')
          /\ shm_bytes d' = shm_bytes d).
Proof.
  repeat split.
  - intros self w. destruct (sysv_cleanup_returns self w) as [w' Hc]. eauto.
  - intros self w id a id0 Hm Ha.
    destruct (pyipc_cleanup_attached self w id a id0 Hm Ha) as [w' Hc]. eauto.
  - intros self w arr id d Hm Ht Hi Hmap Hn Hc Hr.
    destruct (sysv_cleanup_refused self w arr id d)
      as (w' & Hcl & _ & Hk & Hout); try done. eauto.
  - intros self w arr id d holder a Hm Ht Hi Hmap Hn Hh.
    destruct (sysv_cleanup_shared self w arr id d)
      as (w' & d' & Hcl & Hd & Hb & _); try done.
    eexists _, w', d'. split; [exact Hcl|]. split; [|done].
    unfold mapped, switch. simpl. rewrite Hh. simpl. by rewrite Hd.
  - intros self w id a d holder a' Hm Hmap Hn Hh.
    destruct (pyipc_cleanup_shared self w id a d)
      as (self' & w' & d' & Hcl & Hd & Hb & _); try done.
    eexists self', w', d'. split; [exact Hcl|]. split; [|done].
    unfold mapped, switch. simpl. rewrite Hh. simpl. by rewrite Hd.
Qed.

End release_claims.

(** User 1000 creates the segment of key 5678, user 2000 attaches to it
    and then cleans up: the kernel refuses the removal, [cleanup]
    returns all the same, and user 1000 still has the segment. *)
Lemma cleanup_removal_best_effort_witness :
  let blank := SysV.Self 0 0 None None in
  let creator := snd (SysV.__init__ 5678 1024
                        (blank, Kernel.World boot (user 1000))) in
  let guest := snd (SysV.__init__ 5678 1024
                      (blank, switch (user 2000) (snd creator))) in
  (exists self' w',
     SysV.cleanup guest = (Ok tt, (self', w'))
     /\ Kernel.stdout (Kernel.proc w')
        = Kernel.stdout (Kernel.proc (snd guest))
            ++ [rmid_failed Kernel.EPERM; cleaned]
     /\ Kernel.keys (Kernel.kern w') = Kernel.keys (Kernel.kern (snd guest)))
  /\ (exists self' w' d',
        SysV.cleanup guest = (Ok tt, (self', w'))
        /\ Kernel.mapped 140737488355328
             (switch (Kernel.proc (snd creator)) w') = Some (0, d')
        /\ Kernel.shm_bytes d' = zeros 1024).
Proof.
  intros blank creator guest.
  destruct cleanup_removal_best_effort as (_ & _ & Hrefused & Hshared & _).
  assert (guest = (fst guest, snd guest)) as Hg by (by destruct guest).
  split.
  - rewrite Hg.
    eapply Hrefused; vm_compute; (reflexivity || discriminate || lia).
  - edestruct (Hshared (fst guest) (snd guest)) as (self' & w' & d' & Hc & Hm & Hb);
      [..|exists self', w', d'; rewrite <- Hg in Hc;
          split; [exact Hc|split; [exact Hm|]]].
    + vm_compute. reflexivity.
    + vm_compute. reflexivity.
    + vm_compute. reflexivity.
    + vm_compute. reflexivity.
    + vm_compute. lia.
    + vm_compute. reflexivity.
    + rewrite Hb. vm_compute. reflexivity.
Defined.

(** ** The socket server *)

Section server_facts.
Context `{Runtime}.

Lemma exchange_success data message doubled reply c :
  parse_bytes data = Ok message ->
  processed message = Ok doubled ->
  json_dumps (success doubled) = Ok reply ->
  IPCServer.exchange data c
  = (Ok true,
     IPCServer.Conn (IPCServer.sent c ++ [str_encode reply])
                    (IPCServer.stdout c ++ [received message])).
Proof.
  unfold parse_bytes, processed, IPCServer.exchange. unfold_monad.
  intros Hp Hd Hr.
  destruct (bytes_decode data) as [text|]; [|done]. rewrite Hp.
  unfold IPCServer.print at 1. simpl.
  destruct (getitem message "data") as [d|]; [|done]. rewrite Hd.
  unfold success in Hr. by rewrite Hr.
Qed.


Lemma exchange_bad_data data message e reply c :
  parse_bytes data = Ok message ->
  processed message = Raise e ->
  json_dumps (failure e) = Ok reply ->
  IPCServer.exchange data c
  = (Ok false,
     IPCServer.Conn (IPCServer.sent c ++ [str_encode reply])
                    (IPCServer.stdout c ++ [received message; server_error e])).
Proof.
  unfold parse_bytes, processed, IPCServer.exchange. unfold_monad.
  intros Hp Hd Hr. unfold failure in Hr.
  destruct (bytes_decode data) as [text|]; [|done]. rewrite Hp.
  unfold IPCServer.print. simpl.
  destruct (getitem message "data") as [d|e'].
  - rewrite Hd. simpl. rewrite Hr. simpl. by rewrite <- app_assoc.
  - injection Hd as ->. simpl. rewrite Hr. simpl. by rewrite <- app_assoc.
Qed.


End server_facts.



(** ** Scenarios *)

(** Scenario A: a writer and a reader of user 1000 acquire key 12345 with
    1024 bytes through the ctypes class; what the writer writes, the
    reader reads. *)
Example scenario_write_then_read :
  let blank := SysV.Self 0 0 None None in
  let writer := snd (SysV.__init__ 12345 1024
                       (blank, Kernel.World boot (user 1000))) in
  let reader := snd (SysV.__init__ 12345 1024
                       (blank, switch (user 1000) (snd writer))) in
  match SysV.memory (fst writer), SysV.memory (fst reader) with
  | Some arr1, Some arr2 =>
    let w := switch (Kernel.proc (snd writer)) (snd reader) in
    let w' := snd (SysV.on_memory arr1 (SysV.write (H := Json.runtime) 1024 sample) w) in
    fst (SysV.on_memory arr2 (SysV.read (H := Json.runtime) 1024)
           (switch (Kernel.proc (snd reader)) w')) = Ok sample
  | _, _ => False
  end.
Proof. vm_compute. reflexivity. Qed.

(** Scenario B: a freshly created segment reads as [None]. *)
Example scenario_fresh_segment :
  let blank := SysV.Self 0 0 None None in
  let st := snd (SysV.__init__ 5678 1024 (blank, Kernel.World boot (user 1000))) in
  match SysV.memory (fst st) with
  | Some arr =>
    fst (SysV.on_memory arr (SysV.read (H := Json.runtime) 1024) (snd st))
    = Ok VNone
  | None => False
  end.
Proof. vm_compute. reflexivity. Qed.

(** Scenarios C and D: the replies to [{"data": 5}] and to [{}]. *)
Example scenario_server_replies :
  IPCServer.run (H := Json.runtime) [[request5]; [request_empty]] []
  = (Ok [[document (success (VInt 10))];
         [document (failure (Exn KeyError "'data'"))]],
     [Print "Python server running...";
      received (VDict [("data"%string, VInt 5)]);
      received (VDict []);
      server_error (Exn KeyError "'data'")]).
Proof. vm_compute. reflexivity. Qed.

(** * Further properties *)

(** ** Writes that fail *)

Section SysV_write_failure.
Context `{Runtime}.

(** The loop in full: it stores the bytes that fit, in order, and raises
    at the first index past the array. *)
Lemma write_loop_spec bs : forall i m out,
  0 <= i ->
  4 + i <= Z.of_nat (length m) ->
  SysV.write_loop i bs (SysV.Buffer m out)
  = (if bool_decide (4 + i + Z.of_nat (length bs) <= Z.of_nat (length m))
     then Ok tt else Raise (Exn IndexError "invalid index"),
     SysV.Buffer (take (length m)
                    (take (Z.to_nat (4 + i)) m ++ bs
                       ++ drop (Z.to_nat (4 + i) + length bs) m)) out).
Proof.
  induction bs as [|b bs IH]; intros i m out Hi Hle; simpl.
  - unfold_monad. rewrite bool_decide_eq_true_2 by lia.
    rewrite Nat.add_0_r, take_drop, firstn_all. reflexivity.
  - unfold_monad. unfold SysV.setitem at 1. simpl.
    case_bool_decide as Hin.
    + rewrite IH by (rewrite ?length_insert; lia).
      rewrite length_insert.
      f_equal.
      * do 2 case_bool_decide; (done || lia).
      * do 2 f_equal.
        replace (Z.to_nat (4 + (i + 1))) with (S (Z.to_nat (4 + i))) by lia.
        set (n := Z.to_nat (4 + i)).
        assert (n < length m)%nat by lia.
        rewrite (take_S_r _ _ b) by (apply list_lookup_insert_eq; lia).
        rewrite take_insert_ge by lia.
        rewrite drop_insert_lt by lia.
        rewrite <- app_assoc. simpl. by rewrite Nat.add_succ_r.
    + rewrite bool_decide_eq_false_2 by lia.
      do 2 f_equal.
      replace (Z.to_nat (4 + i)) with (length m) by lia.
      rewrite firstn_all, take_app_length. reflexivity.
Qed.

Lemma declared_zeros n : (4 <= n)%nat -> declared (zeros n) = 0.
Proof.
  intros Hn. unfold declared, zeros. rewrite take_replicate, Nat.min_l by done.
  unfold native_value. by destruct byteorder.
Qed.

Lemma declared_take n m : (4 <= n)%nat -> declared (take n m) = declared m.
Proof.
  intros Hn. unfold declared. by rewrite take_take, Nat.min_l.
Qed.

(** What [write] leaves in memory once [json.dumps] has returned [s],
    whether the frame fits or not. *)
Lemma write_memory size m out v s :
  length m = Z.to_nat size ->
  json_dumps v = Ok s ->
  exists r out',
    SysV.write size v (SysV.Buffer m out)
    = (r, SysV.Buffer
            (if bool_decide (4 <= size /\ Z.of_nat (length (str_encode s)) < 2 ^ 32)
             then take (length m)
                    (frame (str_encode s)
                       ++ zeros (length m - 4 - length (str_encode s)))
             else zeros (length m))
            out').
Proof.
  intros Hm Hd. unfold SysV.write. unfold_monad. rewrite Hd.
  set (bs := str_encode s) in *.
  unfold SysV.memset, SysV.pack_into. simpl.
  rewrite <- Hm, Nat.min_id, drop_all, app_nil_r, length_replicate.
  case_bool_decide as H4.
  2:{ rewrite bool_decide_eq_false_2 by lia. simpl. eauto. }
  unfold pack_I.
  destruct ((0 <=? Z.of_nat (length bs)) && (Z.of_nat (length bs) <? 2 ^ 32))
    eqn:E.
  2:{ rewrite bool_decide_eq_false_2; [simpl; eauto|].
      apply andb_false_iff in E as [E%Z.leb_gt|E%Z.ltb_ge]; lia. }
  apply andb_true_iff in E as [_ E%Z.ltb_lt].
  rewrite bool_decide_eq_true_2 by lia.
  set (pre := native_bytes byteorder (Z.of_nat (length bs))).
  assert (length pre = 4%nat) as Hpre by apply native_bytes_length.
  rewrite write_loop_spec; [|lia|].
  2:{ rewrite !length_app, Hpre, length_drop, length_replicate. simpl. lia. }
  change (Z.to_nat (4 + 0)) with 4%nat. change (Z.to_nat (0 + 4)) with 4%nat.
  assert (length (pre ++ drop 4 (replicate (length m) x00)) = length m) as ->.
  { rewrite !length_app, Hpre, length_drop, length_replicate. lia. }
  rewrite (take_app_length' pre) by done.
  rewrite <- drop_drop, (drop_app_length' pre) by done.
  rewrite !drop_replicate.
  unfold frame, zeros. fold pre. rewrite <- app_assoc.
  destruct (bool_decide _); simpl; eauto.
Qed.

(** A [write] that raises after [json.dumps] has returned: the frame
    did not fit, and what is left in memory is the cut frame, or zeros
    when not even the length could be stored; [read] returns [None] on
    it. *)
Lemma write_refused size m out v s e b :
  length m = Z.to_nat size ->
  json_dumps v = Ok s ->
  SysV.write size v (SysV.Buffer m out) = (Raise e, b) ->
  SysV.stdout b = out ++ [PrintExn "Write error: " e]
  /\ (size < 4 + Z.of_nat (length (str_encode s))
      \/ 2 ^ 32 <= Z.of_nat (length (str_encode s)))
  /\ (exn_cls e = StructError \/ exn_cls e = IndexError)
  /\ SysV.mem b
     = (if bool_decide (4 <= size /\ Z.of_nat (length (str_encode s)) < 2 ^ 32)
        then take (length m) (frame (str_encode s))
        else zeros (length m))
  /\ (forall out',
        fst (SysV.read size (SysV.Buffer (SysV.mem b) out')) = Ok VNone)
  /\ (4 <= size ->
      forall out',
        SysV.read size (SysV.Buffer (SysV.mem b) out')
        = (Ok VNone, SysV.Buffer (SysV.mem b) out')).
Proof.
  intros Hm Hd Hw.
  assert (~ (Z.of_nat (length (str_encode s)) < 2 ^ 32
             /\ 4 + Z.of_nat (length (str_encode s)) <= size)) as Hno.
  { intros [H32 Hfit]. rewrite (write_ok _ _ _ _ s) in Hw by done. done. }
  destruct (write_raises_size size m out v s Hm Hd Hno) as (e1 & m1 & Hw1 & Hc).
  destruct (write_memory size m out v s Hm Hd) as (r & out' & Hw2).
  rewrite Hw in Hw1, Hw2. injection Hw1 as -> ->. injection Hw2 as _ Hmem _.
  split; [done|]. split; [lia|]. split; [done|]. simpl.
  set (bs := str_encode s) in *.
  assert (m1 = if bool_decide (4 <= size /\ Z.of_nat (length bs) < 2 ^ 32)
               then take (length m) (frame bs) else zeros (length m)) as ->.
  { rewrite Hmem. case_bool_decide as Hb; [|done].
    replace (length m - 4 - length bs)%nat with 0%nat by lia.
    by rewrite app_nil_r. }
  split; [done|].
  assert (4 <= size ->
          forall out1,
            SysV.read size
              (SysV.Buffer
                 (if bool_decide (4 <= size /\ Z.of_nat (length bs) < 2 ^ 32)
                  then take (length m) (frame bs) else zeros (length m)) out1)
            = (Ok VNone,
               SysV.Buffer
                 (if bool_decide (4 <= size /\ Z.of_nat (length bs) < 2 ^ 32)
                  then take (length m) (frame bs) else zeros (length m)) out1))
    as Hread.
  { intros H4 out1. case_bool_decide as Hb.
    - apply read_nodata.
      + rewrite length_take, frame_length. lia.
      + right. rewrite declared_take by lia.
        rewrite <- (app_nil_r (frame bs)), declared_frame by lia. lia.
    - apply read_nodata.
      + unfold zeros. rewrite length_replicate. lia.
      + left. rewrite declared_zeros by lia. lia. }
  split; [|done]. intros out1.
  destruct (decide (4 <= size)) as [H4|H4]; [by rewrite Hread|].
  rewrite bool_decide_eq_false_2 by lia.
  destruct (read_short size (zeros (length m)) out1) as (e2 & _ & ->); [|done].
  unfold zeros. rewrite length_replicate. lia.
Qed.

(** X1. A [write] that raises leaves nothing a later [read] could take
    for a message: either [json.dumps] refused the value and the memory
    was not touched, or the frame did not fit and the memory holds the cut
    frame (zeros, when not even the length could be stored), on which
    [read] returns [None]. In both cases one "Write error" line is
    printed. *)
Theorem write_failure size m out v e b :
  length m = Z.to_nat size ->
  SysV.write size v (SysV.Buffer m out) = (Raise e, b) ->
  SysV.stdout b = out ++ [PrintExn "Write error: " e]
  /\ ((json_dumps v = Raise e /\ SysV.mem b = m)
      \/ (exists s,
            json_dumps v = Ok s
            /\ (size < 4 + Z.of_nat (length (str_encode s))
                \/ 2 ^ 32 <= Z.of_nat (length (str_encode s)))
            /\ SysV.mem b
               = (if bool_decide (4 <= size
                                  /\ Z.of_nat (length (str_encode s)) < 2 ^ 32)
                  then take (length m) (frame (str_encode s))
                  else zeros (length m))
            /\ forall out',
                 fst (SysV.read size (SysV.Buffer (SysV.mem b) out')) = Ok VNone)).
Proof.
  intros Hm Hw. destruct (json_dumps v) as [s|e'] eqn:Hd.
  - destruct (write_refused size m out v s e b Hm Hd Hw)
      as (Hout & Hbig & _ & Hmem & Hread & _).
    split; [done|]. right. by exists s.
  - rewrite (write_raises_dumps _ _ _ _ e') in Hw by done.
    injection Hw as <- <-. simpl. split; [done|]. by left.
Qed.

End SysV_write_failure.

(** ** Capacity, [None], and the two classes together *)

Section codec_extras.
Context `{Runtime}.

Lemma declared_prefix n rest :
  0 <= n < 2 ^ 32 ->
  declared (native_bytes byteorder n ++ rest) = n.
Proof.
  intros Hn. unfold declared.
  rewrite take_app_length' by (by rewrite native_bytes_length).
  by apply native_value_bytes.
Qed.

(** X2. Capacity: [write] returns exactly when [json.dumps] accepts the
    value and the document has at most [size - 4] bytes (ctypes class),
    at most the segment's length minus 4 ([sysv_ipc] class); the length
    itself must fit the 4-byte prefix. *)
Theorem write_capacity (v : value) :
  (forall size m out,
     length m = Z.to_nat size ->
     (exists b, SysV.write size v (SysV.Buffer m out) = (Ok tt, b))
     <-> (exists s, json_dumps v = Ok s
                    /\ 4 + Z.of_nat (length (str_encode s)) <= size
                    /\ Z.of_nat (length (str_encode s)) < 2 ^ 32))
  /\ (forall seg,
        (exists seg', PyIpc.write v seg = (Ok tt, seg'))
        <-> (exists s, json_dumps v = Ok s
                       /\ 4 + Z.of_nat (length (str_encode s))
                          <= Z.of_nat (length seg)
                       /\ Z.of_nat (length (str_encode s)) < 2 ^ 31)).
Proof.
  split.
  - intros size m out Hm. split.
    + intros [b Hw].
      destruct (write_returns _ _ _ _ _ Hm Hw) as (s & Hd & H32 & Hfit & _).
      eauto.
    + intros (s & Hd & Hfit & H32). eexists. by apply (write_ok _ _ _ _ s).
  - intros seg. split.
    + intros [seg' Hw].
      destruct (pyipc_write_returns _ _ _ Hw) as (s & Hd & H31 & Hfit & _).
      eauto.
    + intros (s & Hd & Hfit & H31). eexists. by apply (pyipc_write_ok _ s).
Qed.

(** X3. The value [None] cannot be told from an empty segment: after
    [write(None)] has returned, [read] returns [None], which is also what
    it returns on a segment of zeros. *)
Theorem write_none_reads_as_empty size m out b :
  roundtrips VNone ->
  length m = Z.to_nat size ->
  SysV.write size VNone (SysV.Buffer m out) = (Ok tt, b) ->
  SysV.mem b <> zeros (length m)
  /\ SysV.read size b = (Ok VNone, b)
  /\ SysV.read size (SysV.Buffer (zeros (length m)) (SysV.stdout b))
     = (Ok VNone, SysV.Buffer (zeros (length m)) (SysV.stdout b)).
Proof.
  intros Hv Hm Hw.
  destruct (write_returns _ _ _ _ _ Hm Hw) as (s & Hd & H32 & Hfit & Hb).
  destruct Hv as (s' & Hd' & Hu & Hl).
  assert (s' = s) as -> by congruence.
  pose proof (roundtrips_nonempty VNone s Hd Hl) as Hne.
  split; [|split].
  - intros Hz. apply (f_equal declared) in Hz.
    rewrite Hb in Hz. cbn [SysV.mem] in Hz.
    rewrite declared_frame, declared_zeros in Hz by lia. lia.
  - apply (sysv_write_read size m out); [|done|done]. by exists s.
  - apply read_nodata.
    + unfold zeros. rewrite length_replicate. lia.
    + left. rewrite declared_zeros by lia. lia.
Qed.

(** X4. [write] of [py_ipc.py] is not atomic: when the document does not
    fit, the length has been stored before the second [memory.write]
    raises, so the segment keeps its old bytes under the new length, and
    the next [read] parses all of them. *)
Theorem pyipc_write_too_large v s seg :
  json_dumps v = Ok s ->
  Z.of_nat (length (str_encode s)) < 2 ^ 31 ->
  (4 < length seg)%nat ->
  Z.of_nat (length seg) < 4 + Z.of_nat (length (str_encode s)) ->
  let seg' := native_bytes byteorder (Z.of_nat (length (str_encode s)))
                ++ drop 4 seg in
  PyIpc.write v seg
  = (Raise (Exn ValueError "Attempt to write past end of memory segment"), seg')
  /\ PyIpc.read seg' = (parse_bytes (drop 4 seg), seg').
Proof.
  intros Hd H31 Hlen Hbig seg'.
  set (bs := str_encode s) in *.
  set (pre := native_bytes byteorder (Z.of_nat (length bs))) in *.
  assert (length pre = 4%nat) as Hpre by apply native_bytes_length.
  assert (length seg' = length seg) as Hlen'.
  { unfold seg'. rewrite length_app, Hpre, length_drop. lia. }
  split.
  - unfold PyIpc.write. unfold_monad. rewrite Hd. fold bs. unfold pack_i.
    replace ((- 2 ^ 31 <=? Z.of_nat (length bs)) && (Z.of_nat (length bs) <? 2 ^ 31))
      with true by (symmetry; apply andb_true_iff; lia).
    rewrite Z.mod_small by lia. fold pre.
    rewrite (seg_write_ok pre) by lia.
    change (Z.to_nat 0) with 0%nat. rewrite take_0, app_nil_l, Nat.add_0_l, Hpre.
    fold seg'. unfold PyIpc.seg_write.
    rewrite bool_decide_eq_false_2 by lia.
    by rewrite bool_decide_eq_true_2 by lia.
  - rewrite pyipc_read_spec by lia.
    assert (declared_signed seg' = Z.of_nat (length bs)) as ->.
    { unfold declared_signed, seg', pre. rewrite declared_prefix by lia.
      by rewrite (proj2 (Z.ltb_lt _ _)). }
    rewrite (proj2 (Z.ltb_ge _ _)) by lia.
    rewrite bool_decide_eq_true_2 by lia.
    rewrite Hlen'. unfold seg'.
    rewrite drop_app_length' by done.
    replace (Z.to_nat (Z.of_nat (length seg) - 4)) with (length (drop 4 seg))
      by (rewrite length_drop; lia).
    by rewrite firstn_all.
Qed.

Lemma monitor_step_read out seg :
  PyIpc.monitor_step (out, seg)
  = match PyIpc.read seg with
    | (Ok data, seg') => (Ok tt, (out ++ [polled data], seg'))
    | (Raise e, seg') =>
      if bool_decide (exn_cls e = JSONDecodeError) then (Ok tt, (out, seg'))
      else (Raise e, (out, seg'))
    end.
Proof.
  unfold PyIpc.monitor_step, zoom_snd. unfold_monad. simpl.
  by destruct (PyIpc.read seg) as [[data|e] seg'].
Qed.

Lemma pyipc_read_taken seg :
  (4 < length seg)%nat ->
  0 <= declared_signed seg ->
  PyIpc.read seg = (parse_bytes (taken seg), seg).
Proof.
  intros Hlen Hd. rewrite pyipc_read_spec by done.
  by rewrite (proj2 (Z.ltb_ge _ _)) by lia.
Qed.

(** X5. One turn of the monitor loop of [py_ipc.py] never changes the
    segment, and it survives only a [JSONDecodeError]: a length with the
    sign bit set raises [ValueError] out of the loop, and so does a
    payload that is not UTF-8 with its [UnicodeDecodeError]; a payload
    that parses is printed, and one that [json.loads] refuses with a
    [JSONDecodeError] is passed over in silence. *)
Theorem monitor_step_outcomes out seg :
  (4 < length seg)%nat ->
  (declared_signed seg < 0 ->
   PyIpc.monitor_step (out, seg)
   = (Raise (Exn ValueError "The byte_count cannot be negative"), (out, seg)))
  /\ (forall e,
        0 <= declared_signed seg ->
        bytes_decode (taken seg) = Raise e ->
        exn_cls e = UnicodeDecodeError
        /\ PyIpc.monitor_step (out, seg) = (Raise e, (out, seg)))
  /\ (forall data,
        0 <= declared_signed seg ->
        parse_bytes (taken seg) = Ok data ->
        PyIpc.monitor_step (out, seg) = (Ok tt, (out ++ [polled data], seg)))
  /\ (forall e,
        0 <= declared_signed seg ->
        parse_bytes (taken seg) = Raise e ->
        exn_cls e = JSONDecodeError ->
        PyIpc.monitor_step (out, seg) = (Ok tt, (out, seg)))
  /\ snd (snd (PyIpc.monitor_step (out, seg))) = seg.
Proof.
  intros Hlen. split; [|split; [|split; [|split]]].
  - intros Hneg. rewrite monitor_step_read, pyipc_read_spec by done.
    by rewrite (proj2 (Z.ltb_lt _ _)) by done.
  - intros e Hd He.
    assert (exn_cls e = UnicodeDecodeError) as Hc.
    { unfold bytes_decode in He. destruct (utf8_valid _); [done|].
      by injection He as <-. }
    split; [done|].
    rewrite monitor_step_read, pyipc_read_taken by done.
    unfold parse_bytes. rewrite He.
    rewrite bool_decide_eq_false_2; [done|]. by rewrite Hc.
  - intros data Hd Hp. rewrite monitor_step_read, pyipc_read_taken by done.
    by rewrite Hp.
  - intros e Hd Hp Hc. rewrite monitor_step_read, pyipc_read_taken by done.
    rewrite Hp. by rewrite bool_decide_eq_true_2.
  - rewrite monitor_step_read, pyipc_read_spec by done.
    destruct (declared_signed seg <? 0); [done|].
    destruct (parse_bytes _) as [data|e]; [done|].
    by destruct (bool_decide _).
Qed.

(** X6. The two classes read each other's frames: what [write] of the
    ctypes class leaves, [read] of [py_ipc.py] returns as the value
    written (for arrays of at most [2^31] bytes, the signed prefix being
    what it is), and what [write] of [py_ipc.py] leaves, [read] of the
    ctypes class returns as the value written, stale bytes behind the
    frame or not. *)
Theorem classes_interoperate (v : value) :
  roundtrips v ->
  (forall size m out b,
     length m = Z.to_nat size ->
     size <= 2 ^ 31 ->
     SysV.write size v (SysV.Buffer m out) = (Ok tt, b) ->
     PyIpc.read (SysV.mem b) = (Ok v, SysV.mem b))
  /\ (forall size seg seg' out,
        length seg = Z.to_nat size ->
        PyIpc.write v seg = (Ok tt, seg') ->
        SysV.read size (SysV.Buffer seg' out) = (Ok v, SysV.Buffer seg' out)).
Proof.
  intros (s & Hd & Hu & Hl).
  pose proof (roundtrips_nonempty v s Hd Hl) as Hne.
  split.
  - intros size m out b Hm Hsz Hw.
    destruct (write_returns _ _ _ _ _ Hm Hw) as (s' & Hd' & H32 & Hfit & ->).
    assert (s' = s) as -> by congruence.
    set (bs := str_encode s) in *. cbn [SysV.mem].
    rewrite pyipc_read_taken.
    + unfold taken. rewrite declared_signed_frame by lia.
      rewrite bool_decide_eq_false_2.
      2:{ rewrite length_app, frame_length, length_replicate. lia. }
      unfold frame. rewrite <- app_assoc.
      rewrite drop_app_length' by (by rewrite native_bytes_length).
      rewrite Nat2Z.id, take_app_length.
      unfold parse_bytes. by rewrite Hu, Hl.
    + rewrite length_app, frame_length. lia.
    + rewrite declared_signed_frame by lia. lia.
  - intros size seg seg' out Hm Hw.
    destruct (pyipc_write_returns _ _ _ Hw) as (s' & Hd' & H31 & Hfit & ->).
    assert (s' = s) as -> by congruence.
    set (bs := str_encode s) in *.
    rewrite read_payload.
    + rewrite payload_frame by lia. unfold parse_bytes. by rewrite Hu, Hl.
    + rewrite length_app, frame_length. lia.
    + rewrite declared_frame by lia. lia.
Qed.

End codec_extras.

(** ** Segments: creation, sharing and release *)

Section object_extras.
Import Kernel.

(** shmget with [IPC_CREAT] on a key nothing is registered under makes
    the segment: zero-filled, owned by the caller, with the permission
    bits of the flags. *)
Lemma shmget_free_key f key size w r w' :
  acquiring f ->
  keys (kern w) !! key = None ->
  shmget key size f w = (r, w') ->
  r <> Ok (-1) ->
  r = Ok (next_shmid (kern w))
  /\ proc w' = proc w
  /\ segments (kern w')
     = <[next_shmid (kern w) :=
           Shm key size (euid (proc w)) (Z.land f 511) 0 false
               (replicate (Z.to_nat size) x00)]> (segments (kern w)).
Proof.
  intros Hf Hk. rewrite shmget_acquire by done. rewrite Hk.
  replace (if bool_decide (key = IPC_PRIVATE) then None else None)
    with (@None Z) by (by destruct (bool_decide _)).
  unfold create, fail.
  destruct (bool_decide (size < 1 \/ size > shmmax (kern w)));
    [by intros [= <- <-]|].
  destruct (bool_decide (shmmni (kern w) <= base.size (segments (kern w)))%nat);
    [by intros [= <- <-]|].
  by intros [= <- <-].
Qed.

Lemma sysv_ipc_create_raises key size w e w' :
  valid_ids (kern w) ->
  PyIpc.sysv_ipc_SharedMemory key (Z.lor IPC_CREAT 438) size w = (Raise e, w') ->
  exn_cls e <> ExistentialError.
Proof.
  intros Hv. unfold PyIpc.sysv_ipc_SharedMemory. unfold_monad.
  fold acquire_flags. rewrite pyipc_flags.
  change (Z.land (Z.land acquire_flags (Z.lnot 511)) (Z.lor IPC_CREAT IPC_EXCL)
          =? Z.lor IPC_CREAT IPC_EXCL) with false.
  cbn [andb].
  destruct (shmget key size sysv_ipc_flags w) as [r w1] eqn:Hg.
  destruct (shmget_acquire_cases _ _ _ _ _ _ ltac:(by right) Hg)
    as [(-> & _ & Herr)|(id & d & -> & Hproc & Hd & Hp & Hsz & Hkey & Hid)].
  - simpl. unfold get_errno. simpl. intros [= <- <-].
    by apply shmget_error_class.
  - specialize (Hid Hv). rewrite bool_decide_eq_false_2 by lia.
    rewrite (shmat_ok id d) by (done || by rewrite Hproc). simpl.
    case_bool_decide; [|done].
    unfold get_errno. simpl. intros [= <- <-]. apply shmat_error_class.
Qed.

(** X7. The [except sysv_ipc.ExistentialError] branch of [init] in
    [py_ipc.py] is never taken: with [IPC_CREAT] and without [IPC_EXCL]
    the first constructor call attaches to a segment that exists and
    creates one that does not, and whatever it raises is not an
    [ExistentialError]; [init] is that call alone. *)
Theorem pyipc_init_fallback_unreachable self w :
  valid_ids (kern w) ->
  PyIpc.init (self, w)
  = (o ← PyIpc.libc (PyIpc.sysv_ipc_SharedMemory (PyIpc.key self)
                       (Z.lor IPC_CREAT 438) (PyIpc.size self));
     set_self (PyIpc.Self (PyIpc.key self) (PyIpc.size self) (Some o)))
      (self, w).
Proof.
  intros Hv. unfold PyIpc.init, PyIpc.libc. unfold_state. simpl.
  destruct (PyIpc.sysv_ipc_SharedMemory (PyIpc.key self) (Z.lor IPC_CREAT 438)
              (PyIpc.size self) w) as [[o|e] w1] eqn:Hc; [done|].
  simpl. rewrite bool_decide_eq_false_2; [done|].
  by eapply sysv_ipc_create_raises.
Qed.

(** [cleanup] by the creator of a segment that is not yet marked for
    destruction: the world it leaves. *)
Lemma sysv_cleanup_creator self w arr id d :
  SysV.memory self = Some arr ->
  SysV.truthy (SysV.memory self) = true ->
  SysV.shmid self = Some id ->
  mapped (SysV.addr arr) w = Some (id, d) ->
  shm_dest d = false ->
  euid (proc w) = shm_cuid d ->
  SysV.cleanup (self, w)
  = (Ok tt,
     (SysV.Self (SysV.key self) (SysV.size self) None None,
      World
        (Kern (if bool_decide (pred (shm_nattch d) = 0%nat)
               then delete id (segments (kern w))
               else <[id := Shm IPC_PRIVATE (shm_segsz d) (shm_cuid d)
                                (shm_mode d) (pred (shm_nattch d)) true
                                (shm_bytes d)]> (segments (kern w)))
              (if bool_decide (keys (kern w) !! shm_key d = Some id)
               then delete (shm_key d) (keys (kern w)) else keys (kern w))
              (next_shmid (kern w)) (shmmax (kern w)) (shmmni (kern w)))
        (Proc (euid (proc w)) (delete (SysV.addr arr) (attached (proc w)))
              (next_addr (proc w)) (errno (proc w))
              (stdout (proc w) ++ [cleaned])))).
Proof.
  intros Hm Ht Hi Hmap Hdest Hc.
  unfold mapped in Hmap.
  destruct (attached (proc w) !! SysV.addr arr) as [id'|] eqn:Ha; [|done].
  simpl in Hmap.
  destruct (segments (kern w) !! id') as [d0|] eqn:Hd; [|done].
  simpl in Hmap. injection Hmap as -> ->.
  unfold_cleanup. simpl. rewrite Ht, Hm, Hi.
  cbn [fst snd fmap option_fmap option_map SysV.addr].
  rewrite (shmdt_attached _ id) by done. simpl.
  unfold shmctl_rmid, drop_attach. rewrite Hd, Hdest. simpl.
  rewrite lookup_insert_eq. simpl.
  rewrite (bool_decide_eq_true_2 (euid (proc w) = shm_cuid d)) by done. simpl.
  rewrite insert_insert_eq, delete_insert_eq. reflexivity.
Qed.

(** X8. A segment the ctypes class creates is open to every user: its
    mode is [0o666], so after one process has created it, [__init__]
    with the same key and size returns in a process of any other user
    too, and both objects hold the same segment. *)
Theorem segment_open_to_all_users key size s0 s0' w p2 self1 w1 :
  SysV.c_int key <> IPC_PRIVATE ->
  keys (kern w) !! SysV.c_int key = None ->
  0 <= next_addr (proc w) < 2 ^ 64 ->
  0 <= next_addr p2 < 2 ^ 64 ->
  SysV.__init__ key size (s0, w) = (Ok tt, (self1, w1)) ->
  exists self2 w2 id d,
    SysV.__init__ key size (s0', switch p2 w1) = (Ok tt, (self2, w2))
    /\ shm_cuid d = euid (proc w)
    /\ shm_mode d = 438
    /\ sysv_holds self1 (switch (proc w1) w2) id d
    /\ sysv_holds self2 w2 id d.
Proof.
  intros Hk Hfree Ha1 Ha2 Hinit.
  destruct (sysv_init_returns _ _ _ _ _ _ Hinit)
    as (id & d & w' & Hg & Hid & Hsz & Hproc & Hd & Hp & Hfit & Hkey & -> & ->).
  destruct (shmget_free_key _ _ _ _ _ _ ltac:(by left) Hfree Hg)
    as (Hr & _ & Hsegs); [congruence|].
  injection Hr as ->.
  rewrite Hsegs, lookup_insert_eq in Hd. injection Hd as <-.
  set (d := Shm _ _ _ _ _ _ _) in *.
  set (d1 := set_nattch (S (shm_nattch d)) d).
  eexists _, _, (next_shmid (kern w)), (set_nattch (S (shm_nattch d1)) d1).
  split; [|split; [|split; [|split]]].
  - apply (sysv_init_existing key size s0' _ (next_shmid (kern w)) d1); try done.
    + simpl. by apply Hkey.
    + simpl. by rewrite lookup_insert_eq.
    + unfold permitted. simpl.
      destruct (bool_decide (euid p2 = euid (proc w))); apply orb_true_r.
  - done.
  - done.
  - split; [done|]. eexists. split; [done|]. unfold mapped. simpl.
    unfold SysV.c_void_p. rewrite Z.mod_small by done.
    rewrite Hproc, lookup_insert_eq. simpl.
    by rewrite lookup_insert_eq.
  - split; [done|]. eexists. split; [done|]. unfold mapped. simpl.
    unfold SysV.c_void_p. rewrite Z.mod_small by done.
    rewrite lookup_insert_eq. simpl.
    by rewrite lookup_insert_eq.
Qed.

(** X9. The sizes [__init__] refuses or mishandles. Asking for more than
    a segment that exists has, or for nothing or less on a key that is
    free, raises [OSError] "shmget failed with errno 22" and leaves the
    kernel as it was, with nothing attached. Asking for [0] bytes of a
    segment that exists returns, attached, with an empty array; that
    array counts as false, so [cleanup] does nothing at all and the
    attachment stays. *)
Theorem init_size_edges key s0 w :
  (forall size id d,
     SysV.c_int key <> IPC_PRIVATE ->
     keys (kern w) !! SysV.c_int key = Some id ->
     segments (kern w) !! id = Some d ->
     shm_segsz d < SysV.size_t (SysV.c_int size) ->
     SysV.__init__ key size (s0, w)
     = (Raise (SysV.os_error "shmget" EINVAL),
        (SysV.Self key size (Some (-1)) None,
         World (kern w) (set_errno EINVAL (proc w)))))
  /\ (forall size,
        keys (kern w) !! SysV.c_int key = None ->
        - 2 ^ 31 < size <= 0 ->
        shmmax (kern w) < 2 ^ 63 ->
        SysV.__init__ key size (s0, w)
        = (Raise (SysV.os_error "shmget" EINVAL),
           (SysV.Self key size (Some (-1)) None,
            World (kern w) (set_errno EINVAL (proc w)))))
  /\ (forall id d,
        SysV.c_int key <> IPC_PRIVATE ->
        keys (kern w) !! SysV.c_int key = Some id ->
        segments (kern w) !! id = Some d ->
        id <> -1 ->
        0 <= shm_segsz d ->
        permitted (euid (proc w)) 6 d = true ->
        exists self1 w1,
          SysV.__init__ key 0 (s0, w) = (Ok tt, (self1, w1))
          /\ attached (proc w1) !! next_addr (proc w) = Some id
          /\ SysV.cleanup (self1, w1) = (Ok tt, (self1, w1))).
Proof.
  split; [|split].
  - intros size id d Hk Hkey Hd Hbig.
    apply (sysv_init_shmget_fails key size s0 w
             (World (kern w) (set_errno EINVAL (proc w)))).
    rewrite shmget_acquire by (by left).
    rewrite bool_decide_eq_false_2 by done. rewrite Hkey, Hd.
    by rewrite bool_decide_eq_true_2 by lia.
  - intros size Hfree Hsz Hmax.
    apply (sysv_init_shmget_fails key size s0 w
             (World (kern w) (set_errno EINVAL (proc w)))).
    rewrite shmget_acquire by (by left). rewrite Hfree.
    replace (if bool_decide (SysV.c_int key = IPC_PRIVATE) then None else None)
      with (@None Z) by (by destruct (bool_decide _)).
    unfold create. rewrite bool_decide_eq_true_2; [done|].
    unfold SysV.size_t, SysV.c_int.
    destruct (decide (size = 0)) as [->|Hne]; [left; reflexivity|right].
    replace (size mod 2 ^ 32) with (size + 2 ^ 32)
      by (apply Z.mod_unique with (-1); lia).
    rewrite (proj2 (Z.ltb_ge _ _)) by lia.
    replace ((size + 2 ^ 32 - 2 ^ 32) mod 2 ^ 64) with (size + 2 ^ 64)
      by (apply Z.mod_unique with (-1); lia).
    lia.
  - intros id d Hk Hkey Hd Hid Hsz Hp.
    eexists _, _. split; [|split].
    + apply (sysv_init_existing key 0 s0 w id d); try done.
    + simpl. by rewrite lookup_insert_eq.
    + by apply sysv_cleanup_released.
Qed.

Section with_runtime.
Context `{Runtime}.

Lemma read_zeros size n out :
  fst (SysV.read size (SysV.Buffer (zeros n) out)) = Ok VNone.
Proof.
  destruct (decide (n < 4)%nat) as [Hs|Hs].
  - destruct (read_short size (zeros n) out) as (e & _ & ->); [|done].
    unfold zeros. by rewrite length_replicate.
  - rewrite read_nodata; [done| |].
    + unfold zeros. rewrite length_replicate. lia.
    + left. rewrite declared_zeros by lia. lia.
Qed.

(** An [__init__] that returns on a key nothing is registered under
    has made a segment of zeros, on which [read] returns [None]. *)
Lemma sysv_init_fresh key size s0 w self1 w1 :
  keys (kern w) !! SysV.c_int key = None ->
  0 <= next_addr (proc w) < 2 ^ 64 ->
  SysV.__init__ key size (s0, w) = (Ok tt, (self1, w1)) ->
  SysV.shmid self1 = Some (next_shmid (kern w))
  /\ (exists d1,
        segments (kern w1) !! next_shmid (kern w) = Some d1
        /\ shm_bytes d1
           = zeros (Z.to_nat (SysV.size_t (SysV.c_int size)))
        /\ shm_mode d1 = 438
        /\ forall id', id' <> next_shmid (kern w) ->
             segments (kern w1) !! id' = segments (kern w) !! id')
  /\ exists arr1, SysV.memory self1 = Some arr1
       /\ fst (SysV.on_memory arr1 (SysV.read size) w1) = Ok VNone.
Proof.
  intros Hk Ha Hinit.
  destruct (sysv_init_returns _ _ _ _ _ _ Hinit)
    as (id & d & w' & Hg & Hid & Hsz & Hproc & Hd & Hp & Hfit & Hkey & -> & ->).
  destruct (shmget_free_key _ _ _ _ _ _ ltac:(by left) Hk Hg)
    as (Hr & _ & Hsegs); [congruence|].
  injection Hr as ->.
  rewrite Hsegs, lookup_insert_eq in Hd. injection Hd as <-.
  split; [done|]. split.
  - eexists. simpl. rewrite lookup_insert_eq. split; [done|].
    split; [done|]. split; [done|].
    intros id' Hne. rewrite lookup_insert_ne by done.
    rewrite Hsegs. by rewrite lookup_insert_ne.
  - eexists. split; [done|].
    unfold SysV.on_memory, mapped. simpl.
    unfold SysV.c_void_p. rewrite Z.mod_small by done.
    rewrite Hproc, lookup_insert_eq. simpl. rewrite lookup_insert_eq. simpl.
    rewrite take_replicate.
    destruct (SysV.read size _) as [r b] eqn:Hr. simpl.
    pose proof (read_zeros size (Z.to_nat size `min` Z.to_nat (SysV.size_t (SysV.c_int size)))
                  (stdout (proc w) ++ [initialized])) as Hz.
    unfold zeros in Hz. by rewrite Hr in Hz.
Qed.

(** X10. What the last holder's [cleanup] does when that holder created
    the segment: the segment is destroyed and its key released, so the
    message it held is gone; an [__init__] with the same key afterwards,
    by whatever process, starts from a new segment of zeros, on which
    [read] returns [None]. *)
Theorem cleanup_by_last_holder key size self w arr id d :
  SysV.memory self = Some arr ->
  SysV.truthy (SysV.memory self) = true ->
  SysV.shmid self = Some id ->
  mapped (SysV.addr arr) w = Some (id, d) ->
  shm_nattch d = 1%nat ->
  shm_dest d = false ->
  euid (proc w) = shm_cuid d ->
  shm_key d = SysV.c_int key ->
  keys (kern w) !! SysV.c_int key = Some id ->
  exists w',
    SysV.cleanup (self, w)
    = (Ok tt, (SysV.Self (SysV.key self) (SysV.size self) None None, w'))
    /\ segments (kern w') !! id = None
    /\ keys (kern w') !! SysV.c_int key = None
    /\ forall s0 p self2 w2,
         0 <= next_addr p < 2 ^ 64 ->
         SysV.__init__ key size (s0, switch p w') = (Ok tt, (self2, w2)) ->
         exists arr2,
           SysV.memory self2 = Some arr2
           /\ fst (SysV.on_memory arr2 (SysV.read size) w2) = Ok VNone.
Proof.
  intros Hm Ht Hi Hmap Hn Hdest Hc Hkey Hreg.
  eexists. split; [by apply (sysv_cleanup_creator self w arr id d)|].
  rewrite Hn, Hkey, Hreg. simpl.
  rewrite !bool_decide_eq_true_2 by done.
  split; [apply lookup_delete_eq|]. split; [apply lookup_delete_eq|].
  intros s0 p self2 w2 Ha Hinit.
  eapply sysv_init_fresh in Hinit as (_ & _ & Harr); [done| |done].
  simpl. apply lookup_delete_eq.
Qed.

(** X11. What the creator's [cleanup] does while another process is still
    attached: the segment stays for that process, marked for destruction
    and with its bytes, but its key is released at once; so an
    [__init__] with the same key afterwards does not join the remaining
    holder: it gets a segment of its own, new and zero-filled. *)
Theorem cleanup_while_shared key size self w arr id d :
  SysV.memory self = Some arr ->
  SysV.truthy (SysV.memory self) = true ->
  SysV.shmid self = Some id ->
  mapped (SysV.addr arr) w = Some (id, d) ->
  (2 <= shm_nattch d)%nat ->
  shm_dest d = false ->
  euid (proc w) = shm_cuid d ->
  shm_key d = SysV.c_int key ->
  keys (kern w) !! SysV.c_int key = Some id ->
  id < next_shmid (kern w) ->
  exists w' d',
    SysV.cleanup (self, w)
    = (Ok tt, (SysV.Self (SysV.key self) (SysV.size self) None None, w'))
    /\ segments (kern w') !! id = Some d'
    /\ shm_bytes d' = shm_bytes d
    /\ shm_dest d' = true
    /\ keys (kern w') !! SysV.c_int key = None
    /\ forall s0 p self2 w2,
         0 <= next_addr p < 2 ^ 64 ->
         SysV.__init__ key size (s0, switch p w') = (Ok tt, (self2, w2)) ->
         exists id2 d2,
           SysV.shmid self2 = Some id2
           /\ id2 <> id
           /\ segments (kern w2) !! id2 = Some d2
           /\ shm_bytes d2 = zeros (Z.to_nat (SysV.size_t (SysV.c_int size)))
           /\ segments (kern w2) !! id = Some d'.
Proof.
  intros Hm Ht Hi Hmap Hn Hdest Hc Hkey Hreg Hfresh.
  eexists _, _. split; [by apply (sysv_cleanup_creator self w arr id d)|].
  rewrite Hkey, Hreg. simpl.
  rewrite (bool_decide_eq_false_2 (pred (shm_nattch d) = 0%nat)) by lia.
  rewrite bool_decide_eq_true_2 by done.
  split; [apply lookup_insert_eq|]. split; [done|]. split; [done|].
  split; [apply lookup_delete_eq|].
  intros s0 p self2 w2 Ha Hinit.
  eapply sysv_init_fresh in Hinit as (Hid2 & (d2 & Hd2 & Hb2 & _ & Hother) & _);
    [|simpl; apply lookup_delete_eq|done].
  simpl in *. exists (next_shmid (kern w)), d2.
  split; [done|]. split; [lia|]. split; [done|]. split; [done|].
  rewrite Hother by lia. apply lookup_insert_eq.
Qed.

End with_runtime.

End object_extras.

(** ** The socket server, connection by connection *)

Section server_extras.
Context `{Runtime}.









Lemma append_empty (s : string) : (s ++ EmptyString)%string = s.
Proof.
  induction s as [|c s IH]; [done|].
  change (String c (s ++ EmptyString)%string = String c s). by rewrite IH.
Qed.

(** X14. What "doubling" does to a field that is not a number: a string
    or a list in [data] comes back repeated twice, [true] comes back as
    [2], and for [null] or an object the [*] raises [TypeError], which
    is answered by an error reply and ends the connection's loop. *)
Theorem exchange_by_type data message c :
  parse_bytes data = Ok message ->
  (forall s reply,
     getitem message "data" = Ok (VStr s) ->
     json_dumps (success (VStr (s ++ s))) = Ok reply ->
     IPCServer.exchange data c
     = (Ok true,
        IPCServer.Conn (IPCServer.sent c ++ [str_encode reply])
                       (IPCServer.stdout c ++ [received message])))
  /\ (forall l reply,
        getitem message "data" = Ok (VList l) ->
        json_dumps (success (VList (l ++ l))) = Ok reply ->
        IPCServer.exchange data c
        = (Ok true,
           IPCServer.Conn (IPCServer.sent c ++ [str_encode reply])
                          (IPCServer.stdout c ++ [received message])))
  /\ (forall b reply,
        getitem message "data" = Ok (VBool b) ->
        json_dumps (success (VInt (if b then 2 else 0))) = Ok reply ->
        IPCServer.exchange data c
        = (Ok true,
           IPCServer.Conn (IPCServer.sent c ++ [str_encode reply])
                          (IPCServer.stdout c ++ [received message])))
  /\ (forall d reply,
        getitem message "data" = Ok d ->
        d = VNone \/ (exists items, d = VDict items) ->
        let e := Exn TypeError ("unsupported operand type(s) for *: '"
                                ++ type_name d ++ "' and 'int'") in
        json_dumps (failure e) = Ok reply ->
        IPCServer.exchange data c
        = (Ok false,
           IPCServer.Conn (IPCServer.sent c ++ [str_encode reply])
                          (IPCServer.stdout c
                             ++ [received message; server_error e]))).
Proof.
  intros Hp. split; [|split; [|split]].
  - intros s reply Hd Hr.
    apply (exchange_success data message (VStr (s ++ s)) reply); try done.
    unfold processed. rewrite Hd. simpl. by rewrite append_empty.
  - intros l reply Hd Hr.
    apply (exchange_success data message (VList (l ++ l)) reply); try done.
    unfold processed. rewrite Hd. simpl. by rewrite app_nil_r.
  - intros b reply Hd Hr.
    apply (exchange_success data message (VInt (if b then 2 else 0)) reply);
      try done.
    unfold processed. rewrite Hd. simpl. by destruct b.
  - intros d reply Hd Hcase e Hr.
    apply (exchange_bad_data data message e reply); try done.
    unfold processed. rewrite Hd.
    by destruct Hcase as [->|[items ->]].
Qed.

End server_extras.

(** ** The command loop and the program around it *)

Section main_facts.
Import Kernel SysVMain.
Context `{Runtime}.

Lemma print_says l self w :
  SysVMain.print l (self, w) = (Ok tt, (self, says [l] w)).
Proof. reflexivity. Qed.

Lemma says_says ls ls' w : says ls' (says ls w) = says (ls ++ ls') w.
Proof. unfold says. simpl. by rewrite app_assoc. Qed.

Lemma says_nil w : says [] w = w.
Proof. unfold says. rewrite app_nil_r. by destruct w as [k []]. Qed.

(** [read] of the class returns on every buffer, having at most printed
    something. *)
Lemma sysv_read_returns size m out :
  exists v lines,
    SysV.read size (SysV.Buffer m out) = (Ok v, SysV.Buffer m (out ++ lines)).
Proof.
  destruct (decide (length m < 4)%nat) as [Hs|Hs].
  - destruct (read_short size m out Hs) as (e & _ & ->). eauto.
  - destruct (decide (declared m <= 0 \/ declared m > size - 4)) as [HL|HL].
    + rewrite read_nodata by (done || lia). exists VNone, [].
      by rewrite app_nil_r.
    + rewrite read_payload by lia.
      destruct (parse_bytes (payload m)); [|eauto].
      eexists _, []. by rewrite app_nil_r.
Qed.

Lemma store_same id d w :
  segments (kern w) !! id = Some d ->
  store id d (shm_bytes d) w = w.
Proof.
  intros Hd. unfold store.
  assert (set_bytes (shm_bytes d) d = d) as -> by (by destruct d).
  rewrite insert_id by done. by destruct w as [[] ?].
Qed.

Lemma mapped_segment a w id d :
  mapped a w = Some (id, d) ->
  attached (proc w) !! a = Some id /\ segments (kern w) !! id = Some d.
Proof.
  unfold mapped. destruct (attached (proc w) !! a) as [id'|] eqn:Ha; [|done].
  simpl. destruct (segments (kern w) !! id') as [d'|] eqn:Hd; [|done]. simpl.
  by intros [= <- <-].
Qed.

(** [shared_mem.read()] on an attached object: it returns, and only
    standard output has changed. *)
Lemma method_read_attached self w arr id d :
  SysV.memory self = Some arr ->
  mapped (SysV.addr arr) w = Some (id, d) ->
  exists v lines,
    SysVMain.read (self, w) = (Ok v, (self, says lines w))
    /\ SysV.read (SysV.size self)
         (SysV.Buffer (take (Z.to_nat (SysV.len arr)) (shm_bytes d))
                      (stdout (proc w)))
       = (Ok v, SysV.Buffer (take (Z.to_nat (SysV.len arr)) (shm_bytes d))
                            (stdout (proc w) ++ lines)).
Proof.
  intros Hm Hmap. destruct (mapped_segment _ _ _ _ Hmap) as [Ha Hd].
  destruct (sysv_read_returns (SysV.size self)
              (take (Z.to_nat (SysV.len arr)) (shm_bytes d)) (stdout (proc w)))
    as (v & lines & Hr).
  exists v, lines. split; [|done].
  unfold_main. simpl. rewrite Hm. unfold SysV.on_memory. cbn [fst snd].
  rewrite Hmap, Hr. cbn [SysV.mem SysV.stdout]. rewrite take_drop.
  do 2 f_equal. by apply store_same.
Qed.

Lemma mapped_store a id d bs out w :
  mapped a w = Some (id, d) ->
  mapped a (store id d bs (World (kern w) (set_stdout out (proc w))))
  = Some (id, set_bytes bs d).
Proof.
  intros Hmap. destruct (mapped_segment _ _ _ _ Hmap) as [Ha Hd].
  unfold mapped, store. simpl. rewrite Ha. simpl.
  by rewrite lookup_insert_eq.
Qed.

Lemma mapped_says a ls w : mapped a (says ls w) = mapped a w.
Proof. reflexivity. Qed.

(** [shared_mem.write(data)] on an attached object is [write] of the
    class on the array's bytes. *)
Lemma method_write_attached v self w arr id d :
  SysV.memory self = Some arr ->
  mapped (SysV.addr arr) w = Some (id, d) ->
  SysVMain.write v (self, w)
  = (fst (SysV.write (SysV.size self) v
            (SysV.Buffer (take (Z.to_nat (SysV.len arr)) (shm_bytes d))
                         (stdout (proc w)))),
     (self,
      let b := snd (SysV.write (SysV.size self) v
                      (SysV.Buffer (take (Z.to_nat (SysV.len arr)) (shm_bytes d))
                                   (stdout (proc w)))) in
      store id d (SysV.mem b ++ drop (Z.to_nat (SysV.len arr)) (shm_bytes d))
        (World (kern w) (set_stdout (SysV.stdout b) (proc w))))).
Proof.
  intros Hm Hmap. unfold_main. simpl. rewrite Hm.
  unfold SysV.on_memory. cbn [fst snd]. rewrite Hmap.
  by destruct (SysV.write _ _ _).
Qed.

Lemma write_loop_raises bs : forall i b e b',
  SysV.write_loop i bs b = (Raise e, b') -> exn_cls e = IndexError.
Proof.
  induction bs as [|c bs IH]; intros i b e b'; simpl; [done|].
  unfold_monad. unfold SysV.setitem at 1.
  case_bool_decide; [apply IH|]. by intros [= <- <-].
Qed.

(** Whatever [write] of the class raises comes from [json.dumps], from
    [struct.pack_into] or from an index past the array. *)
Lemma sysv_write_raises size m out v e b :
  SysV.write size v (SysV.Buffer m out) = (Raise e, b) ->
  json_dumps v = Raise e
  \/ exn_cls e = StructError \/ exn_cls e = IndexError.
Proof.
  unfold SysV.write. unfold_monad.
  destruct (json_dumps v) as [s|e'].
  2:{ intros [= <- <-]. by left. }
  unfold SysV.memset. cbn [SysV.mem SysV.stdout].
  unfold SysV.pack_into. cbn [SysV.mem SysV.stdout].
  case_bool_decide.
  2:{ intros [= <- <-]. right. by left. }
  unfold pack_I. destruct (_ && _).
  2:{ intros [= <- <-]. right. by left. }
  destruct (SysV.write_loop 0 _ _) as [[[]|e1] b1] eqn:Hl.
  - by intros [= <-].
  - intros [= <- <-]. right. right. by eapply write_loop_raises.
Qed.

Lemma write_loop_stdout bs : forall i b,
  SysV.stdout (snd (SysV.write_loop i bs b)) = SysV.stdout b.
Proof.
  induction bs as [|c bs IH]; intros i b; simpl; [done|].
  unfold_monad. unfold SysV.setitem at 1.
  case_bool_decide; [|done]. by rewrite IH.
Qed.

(** [write] of the class only adds to standard output. *)
Lemma sysv_write_stdout size m out v :
  exists lines,
    SysV.stdout (snd (SysV.write size v (SysV.Buffer m out))) = out ++ lines.
Proof.
  unfold SysV.write. unfold_monad.
  destruct (json_dumps v) as [s|e']; [|by eexists].
  unfold SysV.memset. cbn [SysV.mem SysV.stdout].
  unfold SysV.pack_into. cbn [SysV.mem SysV.stdout].
  case_bool_decide; [|by eexists].
  unfold pack_I. destruct (_ && _); [|by eexists].
  match goal with |- context [SysV.write_loop 0 ?bs ?b] =>
    pose proof (write_loop_stdout bs 0 b) as Hl;
    destruct (SysV.write_loop 0 bs b) as [[[]|e1] b1]
  end; simpl in *; rewrite Hl; by eexists.
Qed.

Lemma catchable_classes e :
  exn_cls e = StructError \/ exn_cls e = IndexError ->
  catchable (exn_cls e) = true.
Proof. by intros [-> | ->]. Qed.

Lemma turn_keeps command arr self w :
  dumps_raises_exceptions ->
  attached_at arr (self, w) ->
  exists r w',
    turn command (self, w) = (r, (self, w'))
    /\ attached_at arr (self, w')
    /\ (exists lines, stdout (proc w') = stdout (proc w) ++ lines)
    /\ match r with
       | Ok _ => True
       | Raise e => catchable (exn_cls e) = true
       end.
Proof.
  intros Hj [Hm (id & d & Hmap)]. simpl in Hm, Hmap. unfold turn.
  destruct (String.eqb command "read").
  { destruct (method_read_attached self w arr id d Hm Hmap)
      as (v & lines & Hr & _).
    unfold_monad. rewrite Hr, print_says, says_says. eexists _, _.
    split; [done|]. split; [|split; [by eexists|done]].
    split; [done|]. eauto. }
  destruct (String.prefix "write " command).
  { unfold_monad. rewrite (method_write_attached _ self w arr id d) by done.
    match goal with |- context [SysV.write ?sz ?v (SysV.Buffer ?m ?o)] =>
      destruct (sysv_write_stdout sz m o v) as [lines Hlines];
      destruct (SysV.write sz v (SysV.Buffer m o)) as [[[]|e] b1] eqn:Hw
    end; cbn [fst snd SysV.mem SysV.stdout] in *.
    - rewrite print_says. eexists _, _. split; [done|].
      split; [|split; [|done]].
      + split; [done|]. eexists _, _. cbn [fst snd]. rewrite mapped_says.
        by apply mapped_store.
      + simpl. rewrite Hlines. rewrite <- app_assoc. by eexists.
    - eexists _, _. split; [done|]. split; [|split].
      + split; [done|]. eexists _, _. by apply mapped_store.
      + simpl. rewrite Hlines. by eexists.
      + destruct (sysv_write_raises _ _ _ _ _ _ Hw) as [Hd|Hc];
          [by eapply Hj|by apply catchable_classes]. }
  destruct (String.eqb command "quit").
  { unfold_monad. eexists _, _. split; [done|].
    split; [|split; [exists []; by rewrite app_nil_r|done]].
    split; [done|]. eauto. }
  unfold_monad. rewrite print_says. eexists _, _. split; [done|].
  split; [|split; [by eexists|done]]. split; [done|]. eauto.
Qed.

Lemma command_loop_keeps stdin : forall arr self w,
  dumps_raises_exceptions ->
  attached_at arr (self, w) ->
  exists how w',
    command_loop stdin (self, w) = (Ok how, (self, w'))
    /\ attached_at arr (self, w')
    /\ exists lines, stdout (proc w') = stdout (proc w) ++ lines.
Proof.
  induction stdin as [|ev rest IH]; intros arr self w Hj Hat; simpl.
  - unfold_monad. eexists _, _. split; [done|]. split; [done|].
    exists []. by rewrite app_nil_r.
  - destruct ev as [s| |].
    + unfold_monad.
      destruct (turn_keeps (strip s) arr self w Hj Hat)
        as (r & w1 & -> & Hat1 & [l1 Hl1] & Hr).
      destruct r as [[]|e]; cbn.
      * eexists _, _. split; [done|]. split; [done|]. by eexists.
      * destruct (IH arr self w1 Hj Hat1) as (how & w2 & -> & Hat2 & [l2 Hl2]).
        eexists _, _. split; [done|]. split; [done|].
        rewrite Hl2, Hl1, <- app_assoc. by eexists.
      * rewrite Hr.
        change (World (kern w1) _) with (says [PrintExn "Error: " e] w1).
        destruct (IH arr self (says [PrintExn "Error: " e] w1) Hj)
          as (how & w2 & -> & Hat2 & [l2 Hl2]).
        { destruct Hat1 as [? (id & d & ?)]. split; [done|]. eauto. }
        eexists _, _. split; [done|]. split; [done|].
        rewrite Hl2. simpl. rewrite Hl1, <- !app_assoc. by eexists.
    + unfold_monad. rewrite print_says.
      destruct (IH arr self (says [Print "Error: EOF when reading a line"] w) Hj)
        as (how & w2 & -> & Hat2 & [l2 Hl2]).
      { destruct Hat as [? (id & d & ?)]. split; [done|]. eauto. }
      eexists _, _. split; [done|]. split; [done|].
      rewrite Hl2. simpl. rewrite <- !app_assoc. by eexists.
    + unfold_monad. eexists _, _. split; [done|]. split; [done|].
      exists []. by rewrite app_nil_r.
Qed.

(** [cleanup] of an attached object: it returns, the object is
    released, the address is no longer attached, and the last line
    printed reports the clean-up, whether the removal succeeded or
    not. *)
Lemma sysv_cleanup_attached self w arr id0 id d :
  SysV.memory self = Some arr ->
  SysV.truthy (SysV.memory self) = true ->
  SysV.shmid self = Some id0 ->
  mapped (SysV.addr arr) w = Some (id, d) ->
  exists w' lines,
    SysV.cleanup (self, w)
    = (Ok tt, (SysV.Self (SysV.key self) (SysV.size self) None None, w'))
    /\ attached (proc w') = delete (SysV.addr arr) (attached (proc w))
    /\ stdout (proc w') = stdout (proc w) ++ lines ++ [cleaned].
Proof.
  intros Hm Ht Hi Hmap. destruct (mapped_segment _ _ _ _ Hmap) as [Ha Hd].
  unfold_cleanup. simpl. rewrite Ht, Hm, Hi.
  cbn [fst snd fmap option_fmap option_map SysV.addr].
  rewrite (shmdt_attached _ id) by done. simpl.
  set (w1 := World (drop_attach id (kern w)) _).
  assert (attached (proc w1) = delete (SysV.addr arr) (attached (proc w))
          /\ stdout (proc w1) = stdout (proc w)) as [Ha1 Ho1] by done.
  clearbody w1.
  unfold shmctl_rmid, fail.
  destruct (segments (kern w1) !! id0) as [d0|]; simpl.
  - destruct (negb _); simpl.
    + eexists _, [_]. split; [done|]. simpl. rewrite Ha1, Ho1.
      by rewrite <- app_assoc.
    + eexists _, []. split; [done|]. simpl. by rewrite Ha1, Ho1.
  - eexists _, [_]. split; [done|]. simpl. rewrite Ha1, Ho1.
    by rewrite <- app_assoc.
Qed.

Lemma turn_quit self w :
  turn "quit" (self, w) = (Ok true, (self, w)).
Proof. reflexivity. Qed.

(** Nothing is read after an event that ends the loop. *)
Lemma command_loop_stops ev pre rest : forall st,
  stops ev ->
  command_loop (pre ++ ev :: rest) st = command_loop (pre ++ [ev]) st
  /\ forall st', command_loop (pre ++ [ev]) st <> (Ok Waiting, st').
Proof.
  intros st Hev. revert st.
  induction pre as [|ev' pre IH]; intros [self w]; simpl.
  - destruct ev as [s| |]; simpl in Hev; [|done|done].
    unfold_monad. rewrite Hev, turn_quit. simpl. done.
  - destruct ev' as [s| |].
    + unfold_monad. destruct (turn (strip s) (self, w)) as [[[]|e] st1].
      * done.
      * apply IH.
      * destruct (catchable (exn_cls e)); [|done].
        destruct (print _ st1) as [[[]|e1] st2]; [apply IH|done].
    + unfold_monad. destruct (print _ (self, w)) as [[[]|e1] st2]; [apply IH|done].
    + done.
Qed.

(** At the end of the input the loop goes on, one error line a turn. *)
Lemma command_loop_eof n : forall stdin self w self' w',
  command_loop stdin (self, w) = (Ok Waiting, (self', w')) ->
  command_loop (stdin ++ replicate n EOF) (self, w)
  = (Ok Waiting, (self', says (replicate n eof_error) w')).
Proof.
  assert (forall self w,
            command_loop (replicate n EOF) (self, w)
            = (Ok Waiting, (self, says (replicate n eof_error) w))) as Hn.
  { induction n as [|n IH]; intros self w; simpl.
    - unfold_monad. by rewrite says_nil.
    - unfold_monad. rewrite print_says, IH. by rewrite says_says. }
  induction stdin as [|ev rest IH]; intros self w self' w'; simpl.
  - unfold_monad. intros [= <- <-]. apply Hn.
  - destruct ev as [s| |].
    + unfold_monad. destruct (turn (strip s) (self, w)) as [[[]|e] [self1 w1]].
      * done.
      * apply IH.
      * destruct (catchable (exn_cls e)); [|done].
        rewrite print_says. apply IH.
    + unfold_monad. rewrite print_says. apply IH.
    + done.
Qed.

Lemma shmget_stdout key size f w :
  stdout (proc (snd (shmget key size f w))) = stdout (proc w).
Proof.
  unfold shmget, create, fail.
  repeat (destruct (_ !! _) || destruct (bool_decide _) || destruct (negb _)
          || destruct (_ && _) || destruct (_ =? _)); done.
Qed.

(** An [__init__] that raises has printed nothing. *)
Lemma sysv_init_raises_quietly key size s0 w e self1 w1 :
  SysV.__init__ key size (s0, w) = (Raise e, (self1, w1)) ->
  stdout (proc w1) = stdout (proc w).
Proof.
  intros Hinit.
  destruct (shmget (SysV.c_int key) (SysV.size_t (SysV.c_int size))
              acquire_flags w) as [r w'] eqn:Hg.
  pose proof (shmget_stdout (SysV.c_int key) (SysV.size_t (SysV.c_int size))
                acquire_flags w) as Hout.
  rewrite Hg in Hout. simpl in Hout.
  destruct (shmget_acquire_cases _ _ _ _ _ _ ltac:(by left) Hg)
    as [(-> & _)|(id & d & -> & Hproc & Hd & Hp & _)].
  - rewrite (sysv_init_shmget_fails _ _ _ _ _ Hg) in Hinit.
    by injection Hinit as _ _ <-.
  - destruct (decide (id = -1)) as [->|Hid].
    { rewrite (sysv_init_shmget_fails _ _ _ _ _ Hg) in Hinit.
      by injection Hinit as _ _ <-. }
    rewrite (sysv_init_shmget_ok _ _ _ _ _ id d Hg) in Hinit;
      [|done|done|by rewrite Hproc].
    destruct (size <? 0); [|done].
    injection Hinit as _ _ <-. simpl. by rewrite Hproc.
Qed.

(** [main] once [__init__] has returned: the banner, then the loop. *)
Lemma main_started stdin w self1 w1 :
  SysV.__init__ 5678 1024 (SysV.Self 5678 1024 None None, w)
  = (Ok tt, (self1, w1)) ->
  main stdin w
  = match command_loop stdin (self1, says banner w1) with
    | (Ok Waiting, (self, w2)) => (Running, (Some self, w2))
    | (Ok Quit, st2) => finish (SysV.cleanup st2)
    | (Ok Interrupted, (self, w2)) =>
      finish (SysV.cleanup (self, says [stopping] w2))
    | (Raise e, (self, w2)) =>
      if catchable (exn_cls e) then
        match SysV.cleanup (self, w2) with
        | (Ok _, (self', w3)) => (Uncaught e, (Some self', w3))
        | (Raise e', (self', w3)) => (Uncaught e', (Some self', w3))
        end
      else (Killed, (Some self, w2))
    end.
Proof.
  intros Hinit. unfold main. rewrite Hinit. unfold_monad.
  rewrite !print_says, !says_says. simpl app. fold banner.
  destruct (command_loop stdin _) as [[[]|e] [self w2]]; try done.
Qed.

Lemma finish_not_running r : fst (finish r) <> Running.
Proof. by destruct r as [[[]|e] [self w]]. Qed.

(** X15. At the end of the input the program does not stop: [input]
    raises [EOFError], the handler prints it, and the loop asks again.
    From where the program stands waiting after [stdin], any number [n]
    of further turns leaves it waiting, [n] error lines later, and
    [cleanup] is not reached. *)
Theorem main_at_end_of_input stdin n w o w2 :
  main stdin w = (Running, (o, w2)) ->
  main (stdin ++ replicate n EOF) w
  = (Running, (o, says (replicate n eof_error) w2)).
Proof.
  intros Hrun.
  destruct (SysV.__init__ 5678 1024 (SysV.Self 5678 1024 None None, w))
    as [[[]|e] [self1 w1]] eqn:Hinit.
  2:{ unfold main in Hrun. by rewrite Hinit in Hrun. }
  rewrite (main_started stdin w self1 w1) in Hrun by done.
  rewrite (main_started _ w self1 w1) by done.
  destruct (command_loop stdin (self1, says banner w1))
    as [[[]|e] [self w3]] eqn:Hloop.
  - injection Hrun as <- <-. by rewrite (command_loop_eof n _ _ _ _ _ Hloop).
  - by pose proof (finish_not_running (SysV.cleanup (self, w3))) as Hn;
      rewrite Hrun in Hn.
  - by pose proof (finish_not_running
                     (SysV.cleanup (self, says [stopping] w3))) as Hn;
      rewrite Hrun in Hn.
  - destruct (catchable (exn_cls e)); [|done].
    by destruct (SysV.cleanup (self, w3)) as [[[]|e'] [self' w4]].
Qed.

(** X16. A line that is [quit] once stripped, or Ctrl+C, ends the
    program wherever it comes: what follows it in the input is not read,
    and the program is not left waiting. *)
Theorem main_stops ev pre rest w :
  stops ev ->
  main (pre ++ ev :: rest) w = main (pre ++ [ev]) w
  /\ fst (main (pre ++ [ev]) w) <> Running.
Proof.
  intros Hev.
  destruct (SysV.__init__ 5678 1024 (SysV.Self 5678 1024 None None, w))
    as [[[]|e] [self1 w1]] eqn:Hinit.
  - rewrite !(main_started _ w self1 w1) by done.
    destruct (command_loop_stops ev pre rest (self1, says banner w1) Hev)
      as [-> Hw].
    split; [done|].
    destruct (command_loop (pre ++ [ev]) (self1, says banner w1))
      as [[[]|e] [self w3]] eqn:Hloop.
    + by destruct (Hw (self, w3)).
    + apply finish_not_running.
    + apply finish_not_running.
    + destruct (catchable (exn_cls e)); [|done].
      by destruct (SysV.cleanup (self, w3)) as [[[]|e'] [self' w4]].
  - unfold main. by rewrite Hinit.
Qed.

(** X17. How the program can stand, whatever the input: waiting in the
    loop with its array attached; or at its end, after [cleanup], with
    the object released, the address detached and the clean-up reported
    last; or dead of a [NameError], when [__init__] raised and the
    [finally] found no [shared_mem]. No other exception ends it and it
    does not touch a bad address. *)
Theorem main_outcomes stdin w :
  dumps_raises_exceptions ->
  0 <= next_addr (proc w) < 2 ^ 64 ->
  match main stdin w with
  | (Running, (o, w')) =>
    exists self arr id d,
      o = Some self /\ SysV.memory self = Some arr
      /\ mapped (SysV.addr arr) w' = Some (id, d)
  | (Exited, (o, w')) =>
    o = Some (SysV.Self 5678 1024 None None)
    /\ attached (proc w') !! next_addr (proc w) = None
    /\ exists lines, stdout (proc w') = stdout (proc w) ++ lines ++ [cleaned]
  | (NameError name e, (o, w')) =>
    name = "shared_mem"%string /\ o = None
    /\ fst (SysV.__init__ 5678 1024 (SysV.Self 5678 1024 None None, w))
       = Raise e
    /\ stdout (proc w') = stdout (proc w)
  | (Uncaught _, _) | (Killed, _) => False
  end.
Proof.
  intros Hj Ha.
  destruct (SysV.__init__ 5678 1024 (SysV.Self 5678 1024 None None, w))
    as [[[]|e] [self1 w1]] eqn:Hinit.
  2:{ unfold main. rewrite Hinit. repeat split; try done.
      by apply (sysv_init_raises_quietly _ _ _ _ _ _ _ Hinit). }
  rewrite (main_started _ w self1 w1) by done.
  destruct (sysv_init_returns _ _ _ _ _ _ Hinit)
    as (id & d & w0 & Hg & Hid & Hsz & Hproc & Hd & Hp & Hfit & Hkey & -> & ->).
  set (arr := SysV.CArray (SysV.c_void_p (next_addr (proc w))) 1024).
  set (self1 := SysV.Self 5678 1024 (Some id) (Some arr)).
  set (w1 := says banner (say initialized (attached_world id d w0))).
  assert (exists d1, mapped (SysV.addr arr) w1 = Some (id, d1)) as [d1 Hmap].
  { eexists. unfold mapped. simpl. unfold SysV.c_void_p.
    rewrite Z.mod_small by done. rewrite Hproc, lookup_insert_eq. simpl.
    by rewrite lookup_insert_eq. }
  assert (stdout (proc w1) = stdout (proc w) ++ initialized :: banner) as Hout.
  { simpl. rewrite Hproc. by rewrite <- app_assoc. }
  assert (SysV.addr arr = next_addr (proc w)) as Haddr.
  { simpl. unfold SysV.c_void_p. by rewrite Z.mod_small. }
  destruct (command_loop_keeps stdin arr self1 w1 Hj)
    as (how & w2 & -> & [_ (id2 & d2 & Hmap2)] & [lines2 Hout2]).
  { split; [done|]. eauto. }
  destruct how.
  - exists self1, arr, id2, d2. done.
  - destruct (sysv_cleanup_attached self1 w2 arr id id2 d2)
      as (w3 & lines & -> & Hat & Hlines); try done.
    simpl. split; [done|]. split.
    + rewrite Hat, Haddr. apply lookup_delete_eq.
    + rewrite Hlines, Hout2, Hout.
      exists ((initialized :: banner) ++ lines2 ++ lines).
      by rewrite <- !app_assoc.
  - destruct (sysv_cleanup_attached self1 (says [stopping] w2) arr id id2 d2)
      as (w3 & lines & -> & Hat & Hlines); try done.
    simpl. split; [done|]. split.
    + rewrite Hat, Haddr. apply lookup_delete_eq.
    + rewrite Hlines. simpl. rewrite Hout2, Hout.
      exists ((initialized :: banner) ++ lines2 ++ [stopping] ++ lines).
      by rewrite <- !app_assoc.
Qed.

End main_facts.

Section strip_facts.
Import SysVMain.

Lemma list_ascii_of_string_app (s t : string) :
  list_ascii_of_string (s ++ t) = list_ascii_of_string s ++ list_ascii_of_string t.
Proof.
  induction s as [|c s IH]; [done|].
  change (c :: list_ascii_of_string (s ++ t)
          = c :: list_ascii_of_string s ++ list_ascii_of_string t).
  by rewrite IH.
Qed.

Lemma substring_all (s : string) : substring 0 (String.length s) s = s.
Proof. induction s as [|c s IH]; simpl; congruence. Qed.

Lemma lstrip_blank ws l :
  Forall (fun c => space1 c = true) ws -> lstrip (ws ++ l) = lstrip l.
Proof.
  induction 1 as [|c ws Hc _ IH]; [done|]. simpl. by rewrite Hc.
Qed.

Lemma rstrip_rev_blank ws l :
  Forall (fun c => space1 c = true) ws -> rstrip_rev (ws ++ l) = rstrip_rev l.
Proof.
  induction 1 as [|c ws Hc _ IH]; [done|]. simpl. by rewrite Hc.
Qed.

(** What [rstrip] leaves does not end in one-byte white space. *)
Lemma rstrip_rev_head r :
  match rstrip_rev r with
  | c :: _ => space1 c = false
  | [] => True
  end.
Proof.
  assert (forall n r, (length r <= n)%nat ->
            match rstrip_rev r with
            | c :: _ => space1 c = false
            | [] => True
            end) as Hn.
  { clear r. induction n as [|n IH]; intros r Hlen.
    - destruct r; [done|simpl in Hlen; lia].
    - destruct r as [|c0 t0]; [done|]. simpl in *.
      destruct (space1 c0) eqn:E0; [apply IH; lia|].
      destruct t0 as [|c1 t1]; [done|]. simpl in *.
      destruct (space2 c1 c0); [apply IH; lia|].
      destruct t1 as [|c2 t2]; [done|]. simpl in *.
      destruct (space3 c2 c1 c0); [apply IH; lia|done]. }
  by apply (Hn (length r)).
Qed.

Lemma strip_write_blank before after :
  blank before -> blank after ->
  strip (before ++ "write" ++ after) = "write"%string.
Proof.
  intros Hb Ha. unfold strip.
  rewrite !list_ascii_of_string_app, lstrip_blank by done.
  change (lstrip (list_ascii_of_string "write" ++ list_ascii_of_string after))
    with (list_ascii_of_string "write" ++ list_ascii_of_string after).
  rewrite rev_app_distr, rstrip_rev_blank by (by apply Forall_rev).
  reflexivity.
Qed.

(** A stripped line that starts with [write ] goes on after it. *)
Lemma strip_write_message line :
  String.prefix "write " (strip line) = true ->
  exists c message, strip line = ("write " ++ String c message)%string.
Proof.
  unfold strip.
  match goal with |- context [rstrip_rev ?X] =>
    pose proof (rstrip_rev_head X) as Hr
  end.
  set (r := rstrip_rev _) in *.
  rewrite <- (rev_involutive r) in Hr.
  intros Hp%prefix_correct.
  destruct (rev r) as [|c1 [|c2 [|c3 [|c4 [|c5 [|c6 [|c7 l]]]]]]];
    cbn in Hp; try discriminate.
  - injection Hp as -> -> -> -> -> ->. by cbn in Hr.
  - injection Hp as -> -> -> -> -> ->. by eexists _, _.
Qed.

End strip_facts.

Section loop_facts.
Import Kernel SysVMain.
Context `{Runtime}.

(** X18. The [write] command needs a message: a line that is only
    [write], white space around it or not, is an unknown command (the
    strip has taken the space that [startswith] looks for), and whenever
    a stripped line does start with [write ], at least one character
    follows: the loop never stores an empty message. *)
Theorem write_needs_a_message :
  (forall before after rest st,
     blank before -> blank after ->
     command_loop (Line (before ++ "write" ++ after) :: rest) st
     = (SysVMain.print (Print "Unknown command") ≫= λ _, command_loop rest) st)
  /\ (forall line,
        String.prefix "write " (strip line) = true ->
        exists c message, strip line = ("write " ++ String c message)%string).
Proof.
  split; [|apply strip_write_message].
  intros before after rest [self w] Hb Ha. simpl.
  rewrite strip_write_blank by done.
  unfold_monad. unfold turn. simpl. by unfold_monad.
Qed.

Lemma turn_write m self w :
  turn ("write " ++ m) (self, w)
  = (SysVMain.write (VDict [("message"%string, VStr m)]) ≫= λ _,
     SysVMain.print (Print "Write successful") ≫= λ _, mret false) (self, w).
Proof.
  unfold turn.
  change (String.eqb ("write " ++ m) "read") with false.
  assert (String.prefix "write " ("write " ++ m) = true) as ->
    by (by destruct m).
  cbv iota.
  change (String.length ("write " ++ m) - 6)%nat with (String.length m - 0)%nat.
  rewrite Nat.sub_0_r.
  change (substring 6 (String.length m) ("write " ++ m))
    with (substring 0 (String.length m) m).
  by rewrite substring_all.
Qed.

Lemma turn_read self w :
  turn "read" (self, w)
  = (data ← SysVMain.read; SysVMain.print (polled data) ≫= λ _, mret false)
      (self, w).
Proof. reflexivity. Qed.

Lemma strip_read : strip "read" = "read"%string.
Proof. reflexivity. Qed.

Lemma app_self_nil {A} (l l' : list A) : l = l ++ l' -> l' = [].
Proof.
  intros Hl. apply (f_equal length) in Hl. rewrite length_app in Hl.
  destruct l'; [done|simpl in Hl; lia].
Qed.

Lemma holds_array_buffer self d arr :
  SysV.memory self = Some arr ->
  SysV.len arr = SysV.size self ->
  (Z.to_nat (SysV.size self) <= length (shm_bytes d))%nat ->
  length (take (Z.to_nat (SysV.len arr)) (shm_bytes d))
  = Z.to_nat (SysV.size self).
Proof. intros _ -> Hfit. rewrite length_take. lia. Qed.

(** X19. Through the loop, what [write <message>] stores the next [read]
    prints: for a message that stripping leaves alone and whose document
    fits, the two commands print the three lines
    "Successfully wrote ...", "Write successful" and
    "Read from shared memory: {'message': <message>}", and the loop goes
    on. *)
Theorem loop_write_then_read m self w id d rest :
  let v := VDict [("message"%string, VStr m)] in
  strip ("write " ++ m) = ("write " ++ m)%string ->
  holds_array (self, w) id d ->
  roundtrips v ->
  (forall s, json_dumps v = Ok s ->
             4 + Z.of_nat (length (str_encode s)) <= SysV.size self) ->
  SysV.size self <= 2 ^ 32 ->
  exists w',
    command_loop (Line ("write " ++ m) :: Line "read" :: rest) (self, w)
    = command_loop rest (self, w')
    /\ stdout (proc w')
       = stdout (proc w) ++ [wrote v; Print "Write successful"; polled v].
Proof.
  intros v Hstrip (arr & Hm & Hlen & Hmap & Hfit) Hv Hsize H32.
  cbn [fst snd] in *.
  pose proof (holds_array_buffer self d arr Hm Hlen Hfit) as Hbuf.
  destruct Hv as (s & Hd & Hu & Hl).
  specialize (Hsize s Hd).
  cbn [command_loop]. rewrite Hstrip, strip_read. unfold_monad.
  rewrite turn_write. unfold_monad.
  rewrite (method_write_attached _ self w arr id d) by done.
  rewrite (write_ok (SysV.size self) _ _ v s) by (done || lia).
  cbn [fst snd SysV.mem SysV.stdout]. rewrite print_says.
  cbn [catchable]. rewrite turn_read. unfold_monad.
  set (bytes1 := (frame (str_encode s) ++ _) ++ _).
  set (w1 := says _ (store id d bytes1 _)).
  assert (mapped (SysV.addr arr) w1 = Some (id, set_bytes bytes1 d)) as Hmap1.
  { unfold w1. rewrite mapped_says. by apply mapped_store. }
  destruct (method_read_attached self w1 arr id _ Hm Hmap1)
    as (v1 & lines & -> & Hr).
  assert (take (Z.to_nat (SysV.len arr)) (shm_bytes (set_bytes bytes1 d))
          = frame (str_encode s)
              ++ replicate (Z.to_nat (SysV.size self) - 4 - length (str_encode s)) x00)
    as Htake.
  { cbn [shm_bytes set_bytes]. unfold bytes1. rewrite Hbuf.
    apply take_app_length'.
    rewrite length_app, frame_length, length_replicate. lia. }
  rewrite Htake in Hr.
  rewrite read_payload in Hr.
  2:{ rewrite length_app, frame_length. lia. }
  2:{ rewrite declared_frame by lia.
      pose proof (roundtrips_nonempty v s Hd Hl). lia. }
  rewrite payload_frame in Hr by lia.
  unfold parse_bytes in Hr. rewrite Hu, Hl in Hr.
  injection Hr as <- Hlines.
  apply app_self_nil in Hlines. subst lines.
  rewrite print_says, !says_says.
  eexists. split; [done|]. simpl. by rewrite <- !app_assoc.
Qed.

(** X20. A message too long for the segment does not end the loop: the
    handler prints the error after [write] has printed it, "Write
    successful" is not printed, and what the segment held before is
    gone, for the next [read] prints [None]. *)
Theorem loop_write_too_long m s self w id d rest :
  let v := VDict [("message"%string, VStr m)] in
  strip ("write " ++ m) = ("write " ++ m)%string ->
  holds_array (self, w) id d ->
  json_dumps v = Ok s ->
  4 <= SysV.size self < 4 + Z.of_nat (length (str_encode s)) ->
  exists e w',
    (exn_cls e = StructError \/ exn_cls e = IndexError)
    /\ command_loop (Line ("write " ++ m) :: Line "read" :: rest) (self, w)
       = command_loop rest (self, w')
    /\ stdout (proc w')
       = stdout (proc w)
           ++ [PrintExn "Write error: " e; PrintExn "Error: " e; polled VNone].
Proof.
  intros v Hstrip (arr & Hm & Hlen & Hmap & Hfit) Hd Hsize. subst v.
  cbn [fst snd] in *.
  pose proof (holds_array_buffer self d arr Hm Hlen Hfit) as Hbuf.
  cbn [command_loop]. rewrite Hstrip, strip_read. unfold_monad.
  rewrite turn_write. unfold_monad.
  rewrite (method_write_attached _ self w arr id d) by done.
  match goal with |- context [SysV.write ?sz ?v0 ?b0] =>
    destruct (SysV.write sz v0 b0) as [[[]|e] b] eqn:Hw
  end.
  { destruct (write_returns _ _ _ _ _ Hbuf Hw) as (s' & Hd' & _ & Hfit' & _).
    assert (s' = s) as -> by congruence. lia. }
  destruct (write_refused _ _ _ _ _ _ _ Hbuf Hd Hw)
    as (Hout & _ & Hc & Hmem & _ & Hread).
  specialize (Hread ltac:(lia)).
  cbn [fst snd]. rewrite (catchable_classes e Hc).
  rewrite print_says, turn_read. unfold_monad.
  set (bytes1 := SysV.mem b ++ _).
  set (w1 := says _ (store id d bytes1 _)).
  assert (mapped (SysV.addr arr) w1 = Some (id, set_bytes bytes1 d)) as Hmap1.
  { unfold w1. rewrite mapped_says. by apply mapped_store. }
  destruct (method_read_attached self w1 arr id _ Hm Hmap1)
    as (v1 & lines & -> & Hr).
  assert (length (SysV.mem b) = Z.to_nat (SysV.size self)) as Hlenb.
  { rewrite Hmem. case_bool_decide.
    - rewrite length_take, frame_length, length_take. lia.
    - unfold zeros. rewrite length_replicate, length_take. lia. }
  assert (take (Z.to_nat (SysV.len arr)) (shm_bytes (set_bytes bytes1 d))
          = SysV.mem b) as Htake.
  { cbn [shm_bytes set_bytes]. unfold bytes1. rewrite Hlen.
    by apply take_app_length'. }
  rewrite Htake, Hread in Hr.
  injection Hr as <- Hlines.
  apply app_self_nil in Hlines. subst lines.
  rewrite print_says, !says_says.
  exists e. eexists. split; [done|]. split; [done|]. simpl.
  rewrite Hout. by rewrite <- !app_assoc.
Qed.

(** X21. When [SharedMemory(5678, 1024)] cannot be had, because the
    segment under key 5678 is smaller than 1024 bytes or closed to the
    user, the program ends with [NameError]: [__init__] raised
    [OSError] before [shared_mem] was bound, and the [finally] calls
    [shared_mem.cleanup()]. Nothing is printed, nothing is read from
    the input, and the kernel is as it was. *)
Theorem main_when_init_fails stdin w id d :
  keys (kern w) !! 5678 = Some id ->
  segments (kern w) !! id = Some d ->
  shm_segsz d < 1024 \/ permitted (euid (proc w)) 6 d = false ->
  let n := if bool_decide (shm_segsz d < 1024) then EINVAL else EACCES in
  main stdin w
  = (NameError "shared_mem" (SysV.os_error "shmget" n),
     (None, World (kern w) (set_errno n (proc w)))).
Proof.
  intros Hkey Hd Hcase n. unfold main.
  rewrite (sysv_init_shmget_fails 5678 1024 _ w
             (World (kern w) (set_errno n (proc w)))); [done|].
  rewrite shmget_acquire by (by left).
  change (SysV.c_int 5678) with 5678.
  change (SysV.size_t (SysV.c_int 1024)) with 1024.
  rewrite bool_decide_eq_false_2 by done. rewrite Hkey, Hd. unfold n, fail.
  case_bool_decide as Hs.
  - by rewrite bool_decide_eq_true_2 by lia.
  - rewrite bool_decide_eq_false_2 by lia.
    destruct Hcase as [? | ->]; [lia|done].
Qed.

(** X22. After [cleanup] the object is safe to use and useless: [read]
    returns [None], reporting the [TypeError] it caught, and [write]
    raises, the error of [json.dumps] or a [TypeError], without
    touching any memory. *)
Theorem use_after_cleanup self w :
  SysV.truthy (SysV.memory self) = true ->
  exists self' w',
    SysV.cleanup (self, w) = (Ok tt, (self', w'))
    /\ (exists e,
          exn_cls e = TypeError
          /\ SysVMain.read (self', w')
             = (Ok VNone, (self', says [read_error e] w')))
    /\ (forall v, exists e,
          SysVMain.write v (self', w')
          = (Raise e, (self', says [PrintExn "Write error: " e] w'))
          /\ (json_dumps v = Raise e \/ exn_cls e = TypeError)).
Proof.
  intros Ht. destruct (sysv_cleanup_returns self w) as [w' Hc].
  rewrite Ht in Hc. eexists _, w'. split; [exact Hc|]. split.
  - exists (Exn TypeError "a bytes-like object is required, not 'NoneType'").
    split; reflexivity.
  - intros v. unfold_main. simpl.
    destruct (json_dumps v) as [s|e] eqn:Hd; simpl.
    + eexists. split; [reflexivity|]. by right.
    + eexists. split; [reflexivity|]. by left.
Qed.

End loop_facts.

(** ** The socket file *)

Section socket_file.
Context `{Runtime}.

(** X23. What the constructor and the [bind] of [run] make of the path:
    a file or a socket found there is removed, whoever made it and
    whether or not a server is still listening on it, and the bind
    succeeds; a directory makes the constructor raise; a link to nothing
    passes the constructor, [os.path.exists] not seeing it, and the bind
    then fails on it. *)
Theorem init_then_bind path fs :
  (SocketFile.__init__ path
     ≫= λ self, SocketFile.bind (SocketFile.socket_path self)) fs
  = match fs !! path with
    | Some SocketFile.Directory =>
      (Raise (Exn OSError ("[Errno 21] Is a directory: '" ++ path ++ "'")), fs)
    | Some SocketFile.BrokenLink =>
      (Raise (Exn OSError "[Errno 98] Address already in use"), fs)
    | _ => (Ok tt, <[path := SocketFile.Socket]> fs)
    end.
Proof.
  unfold SocketFile.__init__, SocketFile.path_exists, SocketFile.remove,
    SocketFile.bind, SocketFile.names in *.
  unfold_monad.
  destruct (fs !! path) as [[]|] eqn:Hp; simpl; rewrite ?Hp; simpl;
    rewrite ?lookup_delete_eq, ?insert_delete_eq, ?Hp; done.
Qed.

(** X24. [cleanup] of the server can be called again: once it has
    returned, the path does not exist and a second call changes
    nothing. It raises only on a directory, and then it has changed
    nothing. *)
Theorem server_cleanup_twice self fs :
  match SocketFile.cleanup self fs with
  | (Ok _, fs1) =>
    SocketFile.path_exists (SocketFile.socket_path self) fs1 = (Ok false, fs1)
    /\ SocketFile.cleanup self fs1 = (Ok tt, fs1)
  | (Raise e, fs1) =>
    fs !! SocketFile.socket_path self = Some SocketFile.Directory /\ fs1 = fs
  end.
Proof.
  unfold SocketFile.cleanup, SocketFile.path_exists, SocketFile.remove,
    SocketFile.names in *.
  unfold_monad.
  destruct (fs !! SocketFile.socket_path self) as [[]|] eqn:Hp;
    simpl; rewrite ?Hp; simpl; rewrite ?lookup_delete_eq, ?Hp; done.
Qed.


End socket_file.

(** ** The further properties on sample inputs *)

(** The reference [json] raises [TypeError] and nothing else from
    [dumps], and serializes every error reply. *)
Lemma reference_dumps_raises :
  dumps_raises_exceptions (H := Json.runtime).
Proof.
  intros v e. simpl. unfold Json.dumps.
  destruct (Json.encode v); [done|]. by intros [= <-].
Qed.


(** The 12 bytes of [{"data": 21}] on an array of 8. *)
Lemma write_failure_witness :
  let r := SysV.write (H := Json.runtime) 8 sample (SysV.Buffer (stale 8) []) in
  fst r = Raise (Exn IndexError "invalid index")
  /\ SysV.stdout (snd r)
     = [PrintExn "Write error: " (Exn IndexError "invalid index")]
  /\ SysV.mem (snd r) = [x0c; x00; x00; x00; x7b; x22; x64; x61]
  /\ forall out',
       fst (SysV.read (H := Json.runtime) 8 (SysV.Buffer (SysV.mem (snd r)) out'))
       = Ok VNone.
Proof.
  cbv zeta.
  destruct (write_failure (H := Json.runtime) 8 (stale 8) [] sample
              (Exn IndexError "invalid index")
              (snd (SysV.write (H := Json.runtime) 8 sample
                      (SysV.Buffer (stale 8) []))))
    as [Hout [[Hd _]|(s & Hd & _ & _ & Hr)]].
  - reflexivity.
  - vm_compute. reflexivity.
  - vm_compute in Hd. discriminate.
  - split; [vm_compute; reflexivity|]. split; [exact Hout|].
    split; [vm_compute; reflexivity|exact Hr].
Defined.

(** [write(None)] on an array of 16 bytes stores the frame of [null]. *)
Lemma write_none_reads_as_empty_witness :
  let b := snd (SysV.write (H := Json.runtime) 16 VNone
                  (SysV.Buffer (stale 16) [])) in
  take 8 (SysV.mem b) = [x04; x00; x00; x00; x6e; x75; x6c; x6c]
  /\ SysV.read (H := Json.runtime) 16 b = (Ok VNone, b)
  /\ SysV.read (H := Json.runtime) 16 (SysV.Buffer (zeros 16) (SysV.stdout b))
     = (Ok VNone, SysV.Buffer (zeros 16) (SysV.stdout b)).
Proof.
  cbv zeta. split; [vm_compute; reflexivity|].
  apply (write_none_reads_as_empty (H := Json.runtime) 16 (stale 16) []).
  - eexists. split; [reflexivity|]. split; vm_compute; reflexivity.
  - reflexivity.
  - vm_compute. reflexivity.
Defined.

(** [{"data": 123456789}] (19 bytes) on a segment of 16 that holds the
    frame of [{"data": 21}]: the length 19 is stored over the old
    payload, and [read] then parses that payload, here with success. *)
Lemma pyipc_write_too_large_witness :
  let seg := snd (PyIpc.write (H := Json.runtime) sample (zeros 16)) in
  let seg' := [x13; x00; x00; x00] ++ drop 4 seg in
  PyIpc.read (H := Json.runtime) seg = (Ok sample, seg)
  /\ PyIpc.write (H := Json.runtime) longer seg
     = (Raise (Exn ValueError "Attempt to write past end of memory segment"),
        seg')
  /\ PyIpc.read (H := Json.runtime) seg' = (Ok sample, seg').
Proof.
  cbv zeta. split; [vm_compute; reflexivity|].
  destruct (pyipc_write_too_large (H := Json.runtime) longer
              (string_of_list_byte (document longer))
              (snd (PyIpc.write (H := Json.runtime) sample (zeros 16))))
    as [Hw Hr].
  - reflexivity.
  - vm_compute. reflexivity.
  - vm_compute. lia.
  - vm_compute. reflexivity.
  - split; [exact Hw|]. refine (eq_trans Hr _). vm_compute. reflexivity.
Defined.

(** A segment of [0xff] bytes, and one whose payload is the single
    byte [0xff], each end the monitor's turn with an exception. *)
Lemma monitor_step_outcomes_witness :
  PyIpc.monitor_step (H := Json.runtime) ([], stale 16)
  = (Raise (Exn ValueError "The byte_count cannot be negative"), ([], stale 16))
  /\ (exists e,
        exn_cls e = UnicodeDecodeError
        /\ PyIpc.monitor_step (H := Json.runtime) ([], garbled)
           = (Raise e, ([], garbled))).
Proof.
  split.
  - destruct (monitor_step_outcomes (H := Json.runtime) [] (stale 16))
      as (Hneg & _); [vm_compute; lia|].
    apply Hneg. vm_compute. reflexivity.
  - destruct (monitor_step_outcomes (H := Json.runtime) [] garbled)
      as (_ & Hutf & _); [vm_compute; lia|].
    eexists. apply Hutf; [vm_compute; discriminate|vm_compute; reflexivity].
Defined.

(** [{"data": 21}] from each class to the other, over 32 stale bytes. *)
Lemma classes_interoperate_witness :
  (let b := snd (SysV.write (H := Json.runtime) 32 sample
                   (SysV.Buffer (stale 32) [])) in
   PyIpc.read (H := Json.runtime) (SysV.mem b) = (Ok sample, SysV.mem b))
  /\ (let seg := snd (PyIpc.write (H := Json.runtime) sample (stale 32)) in
      SysV.read (H := Json.runtime) 32 (SysV.Buffer seg [])
      = (Ok sample, SysV.Buffer seg [])).
Proof.
  assert (roundtrips (H := Json.runtime) sample) as Hr.
  { eexists. split; [reflexivity|]. split; vm_compute; reflexivity. }
  destruct (classes_interoperate (H := Json.runtime) sample Hr) as [Hs Hp].
  split; cbv zeta.
  - apply (Hs 32 (stale 32) []); [reflexivity|lia|vm_compute; reflexivity].
  - apply (Hp 32 (stale 32)); [reflexivity|vm_compute; reflexivity].
Defined.

(** On a kernel without segments, [init] of [py_ipc.py] for key 12345
    is its first constructor call. *)
Lemma pyipc_init_fallback_unreachable_witness :
  let st := (PyIpc.Self 12345 1024 None, Kernel.World boot (user 1000)) in
  PyIpc.init st
  = (o ← PyIpc.libc (PyIpc.sysv_ipc_SharedMemory 12345
                       (Z.lor Kernel.IPC_CREAT 438) 1024);
     set_self (PyIpc.Self 12345 1024 (Some o))) st.
Proof.
  apply (pyipc_init_fallback_unreachable (PyIpc.Self 12345 1024 None)
           (Kernel.World boot (user 1000))).
  split; [simpl; lia|]. intros key id Hk. vm_compute in Hk. discriminate.
Defined.

(** User 1000 creates the segment of key 5678, writes [{"data": 21}] and
    cleans up as its only holder; user 2000 then finds nothing to
    read. *)
Lemma cleanup_by_last_holder_witness :
  let blank := SysV.Self 0 0 None None in
  let st := snd (SysV.__init__ 5678 1024 (blank, Kernel.World boot (user 1000))) in
  let arr := SysV.CArray 140737488355328 1024 in
  let w := snd (SysV.on_memory arr (SysV.write (H := Json.runtime) 1024 sample)
                  (snd st)) in
  fst (SysV.on_memory arr (SysV.read (H := Json.runtime) 1024) w) = Ok sample
  /\ exists w',
       SysV.cleanup (fst st, w)
       = (Ok tt, (SysV.Self 5678 1024 None None, w'))
       /\ Kernel.segments (Kernel.kern w') !! 0 = None
       /\ Kernel.keys (Kernel.kern w') !! 5678 = None
       /\ exists arr2,
            SysV.memory
              (fst (snd (SysV.__init__ 5678 1024 (blank, switch (user 2000) w'))))
            = Some arr2
            /\ fst (SysV.on_memory arr2 (SysV.read (H := Json.runtime) 1024)
                      (snd (snd (SysV.__init__ 5678 1024
                                   (blank, switch (user 2000) w')))))
               = Ok VNone.
Proof.
  intros blank st arr w. split; [vm_compute; reflexivity|].
  edestruct (cleanup_by_last_holder (H := Json.runtime) 5678 1024 (fst st) w arr 0)
    as (w' & Hc & Hs & Hk & Hnext).
  - vm_compute. reflexivity.
  - vm_compute. reflexivity.
  - vm_compute. reflexivity.
  - vm_compute. reflexivity.
  - vm_compute. reflexivity.
  - vm_compute. reflexivity.
  - vm_compute. reflexivity.
  - vm_compute. reflexivity.
  - vm_compute. reflexivity.
  - exists w'. split; [exact Hc|]. split; [exact Hs|]. split; [exact Hk|].
    apply (Hnext blank (user 2000)); [simpl; lia|].
    assert (w' = snd (snd (SysV.cleanup (fst st, w)))) as ->
      by (by rewrite Hc).
    vm_compute. reflexivity.
Defined.

(** Users 1000 and 1001 hold the segment of key 5678; its creator,
    user 1000, cleans up; user 1002 then gets segment 1, not segment 0
    that user 1001 still holds. *)
Lemma cleanup_while_shared_witness :
  let blank := SysV.Self 0 0 None None in
  let creator := snd (SysV.__init__ 5678 1024
                        (blank, Kernel.World boot (user 1000))) in
  let guest := snd (SysV.__init__ 5678 1024
                      (blank, switch (user 1001) (snd creator))) in
  let w := switch (Kernel.proc (snd creator)) (snd guest) in
  SysV.shmid (fst guest) = Some 0
  /\ exists w' d',
       SysV.cleanup (fst creator, w)
       = (Ok tt, (SysV.Self 5678 1024 None None, w'))
       /\ Kernel.segments (Kernel.kern w') !! 0 = Some d'
       /\ Kernel.shm_dest d' = true
       /\ Kernel.keys (Kernel.kern w') !! 5678 = None
       /\ SysV.shmid
            (fst (snd (SysV.__init__ 5678 1024 (blank, switch (user 1002) w'))))
          = Some 1.
Proof.
  intros blank creator guest w. split; [vm_compute; reflexivity|].
  edestruct (cleanup_while_shared (H := Json.runtime) 5678 1024 (fst creator) w
               (SysV.CArray 140737488355328 1024) 0)
    as (w' & d' & Hc & Hs & _ & Hdest & Hk & _).
  - vm_compute. reflexivity.
  - vm_compute. reflexivity.
  - vm_compute. reflexivity.
  - vm_compute. reflexivity.
  - vm_compute. lia.
  - vm_compute. reflexivity.
  - vm_compute. reflexivity.
  - vm_compute. reflexivity.
  - vm_compute. reflexivity.
  - vm_compute. reflexivity.
  - exists w', d'. split; [exact Hc|]. split; [exact Hs|].
    split; [exact Hdest|]. split; [exact Hk|].
    assert (w' = snd (snd (SysV.cleanup (fst creator, w)))) as ->
      by (by rewrite Hc).
    vm_compute. reflexivity.
Defined.

(** User 1000 creates the segment of key 5678, user 2000 attaches. *)
Lemma segment_open_to_all_users_witness :
  let blank := SysV.Self 0 0 None None in
  let creator := snd (SysV.__init__ 5678 1024
                        (blank, Kernel.World boot (user 1000))) in
  exists self2 w2 id d,
    SysV.__init__ 5678 1024 (blank, switch (user 2000) (snd creator))
    = (Ok tt, (self2, w2))
    /\ Kernel.shm_cuid d = 1000
    /\ Kernel.shm_mode d = 438
    /\ sysv_holds (fst creator) (switch (Kernel.proc (snd creator)) w2) id d
    /\ sysv_holds self2 w2 id d.
Proof.
  intros blank creator.
  apply (segment_open_to_all_users 5678 1024 blank blank
           (Kernel.World boot (user 1000)) (user 2000)).
  - vm_compute. discriminate.
  - vm_compute. reflexivity.
  - simpl. lia.
  - simpl. lia.
  - vm_compute. reflexivity.
Defined.



(** The request [{"data": "ab"}]. *)
Lemma exchange_by_type_witness :
  let message := VDict [("data"%string, VStr "ab")] in
  IPCServer.exchange (H := Json.runtime) (document message) (IPCServer.Conn [] [])
  = (Ok true,
     IPCServer.Conn [document (success (VStr "abab"))] [received message]).
Proof.
  intros message.
  destruct (exchange_by_type (H := Json.runtime) (document message) message
              (IPCServer.Conn [] [])) as (Hstr & _).
  - vm_compute. reflexivity.
  - refine (eq_trans (Hstr "ab"%string _ _ _) _);
      [reflexivity|reflexivity|vm_compute; reflexivity].
Defined.

(** After [read], three turns at the end of the input. *)
Lemma main_at_end_of_input_witness :
  let w := Kernel.World boot (user 1000) in
  let r := SysVMain.main (H := Json.runtime) [SysVMain.Line "read"] w in
  fst r = SysVMain.Running
  /\ SysVMain.main (H := Json.runtime)
       [SysVMain.Line "read"; SysVMain.EOF; SysVMain.EOF; SysVMain.EOF] w
     = (SysVMain.Running,
        (fst (snd r), says [eof_error; eof_error; eof_error] (snd (snd r)))).
Proof.
  intros w r. split; [vm_compute; reflexivity|].
  apply (main_at_end_of_input (H := Json.runtime) [SysVMain.Line "read"] 3 w).
  vm_compute. reflexivity.
Defined.

(** [quit] between spaces, after a [read] and before more input. *)
Lemma main_stops_witness :
  let w := Kernel.World boot (user 1000) in
  SysVMain.main (H := Json.runtime)
    [SysVMain.Line "read"; SysVMain.Line "  quit "; SysVMain.Line "read";
     SysVMain.EOF] w
  = SysVMain.main (H := Json.runtime)
      [SysVMain.Line "read"; SysVMain.Line "  quit "] w
  /\ fst (SysVMain.main (H := Json.runtime)
            [SysVMain.Line "read"; SysVMain.Line "  quit "] w)
     <> SysVMain.Running.
Proof.
  intros w.
  apply (main_stops (H := Json.runtime) (SysVMain.Line "  quit ")
           [SysVMain.Line "read"] [SysVMain.Line "read"; SysVMain.EOF] w).
  reflexivity.
Defined.

(** [write hi], then [quit], on a kernel without segments. *)
Lemma main_outcomes_witness :
  let w := Kernel.World boot (user 1000) in
  match SysVMain.main (H := Json.runtime)
          [SysVMain.Line "write hi"; SysVMain.Line "quit"] w with
  | (SysVMain.Running, (o, w')) =>
    exists self arr id d,
      o = Some self /\ SysV.memory self = Some arr
      /\ Kernel.mapped (SysV.addr arr) w' = Some (id, d)
  | (SysVMain.Exited, (o, w')) =>
    o = Some (SysV.Self 5678 1024 None None)
    /\ Kernel.attached (Kernel.proc w') !! Kernel.next_addr (Kernel.proc w) = None
    /\ exists lines,
         Kernel.stdout (Kernel.proc w')
         = Kernel.stdout (Kernel.proc w) ++ lines ++ [cleaned]
  | (SysVMain.NameError name e, (o, w')) =>
    name = "shared_mem"%string /\ o = None
    /\ fst (SysV.__init__ 5678 1024 (SysV.Self 5678 1024 None None, w))
       = Raise e
    /\ Kernel.stdout (Kernel.proc w') = Kernel.stdout (Kernel.proc w)
  | (SysVMain.Uncaught _, _) | (SysVMain.Killed, _) => False
  end.
Proof.
  intros w.
  apply (main_outcomes (H := Json.runtime)
           [SysVMain.Line "write hi"; SysVMain.Line "quit"] w).
  - exact reference_dumps_raises.
  - simpl. lia.
Defined.

(** [write hello] and [read] on the program's own segment. *)
Lemma loop_write_then_read_witness :
  let st := snd (SysV.__init__ 5678 1024
                   (SysV.Self 0 0 None None, Kernel.World boot (user 1000))) in
  let v := VDict [("message"%string, VStr "hello")] in
  exists w',
    SysVMain.command_loop (H := Json.runtime)
      [SysVMain.Line "write hello"; SysVMain.Line "read"] st
    = (Ok SysVMain.Waiting, (fst st, w'))
    /\ Kernel.stdout (Kernel.proc w')
       = [initialized; wrote v; Print "Write successful"; polled v].
Proof.
  intros st v.
  destruct (loop_write_then_read (H := Json.runtime) "hello" (fst st) (snd st)
              0 (Kernel.Shm 5678 1024 1000 438 1 false (zeros 1024)) [])
    as (w' & Hloop & Hout).
  - reflexivity.
  - eexists. split; [reflexivity|]. split; [reflexivity|].
    split; [vm_compute; reflexivity|].
    apply Nat.leb_le. vm_compute. reflexivity.
  - eexists. split; [reflexivity|]. split; vm_compute; reflexivity.
  - intros s Hs. vm_compute in Hs. injection Hs as <-. vm_compute. discriminate.
  - vm_compute. discriminate.
  - exists w'. split; [exact Hloop|]. rewrite Hout. reflexivity.
Defined.

(** [write hello world!!] on a segment of 16 bytes. *)
Lemma loop_write_too_long_witness :
  let st := snd (SysV.__init__ 5678 16
                   (SysV.Self 0 0 None None, Kernel.World boot (user 1000))) in
  exists e w',
    (exn_cls e = StructError \/ exn_cls e = IndexError)
    /\ SysVMain.command_loop (H := Json.runtime)
         [SysVMain.Line "write hello world!!"; SysVMain.Line "read"] st
       = (Ok SysVMain.Waiting, (fst st, w'))
    /\ Kernel.stdout (Kernel.proc w')
       = [initialized; PrintExn "Write error: " e; PrintExn "Error: " e;
          polled VNone].
Proof.
  intros st.
  destruct (loop_write_too_long (H := Json.runtime) "hello world!!"
               (string_of_list_byte
                  (document (VDict [("message"%string, VStr "hello world!!")])))
               (fst st) (snd st) 0
               (Kernel.Shm 5678 16 1000 438 1 false (zeros 16)) [])
    as (e & w' & Hc & Hloop & Hout).
  - reflexivity.
  - eexists. split; [reflexivity|]. split; [reflexivity|].
    split; [vm_compute; reflexivity|].
    apply Nat.leb_le. vm_compute. reflexivity.
  - vm_compute. reflexivity.
  - vm_compute. split; [discriminate|reflexivity].
  - exists e, w'. split; [exact Hc|]. split; [exact Hloop|].
    rewrite Hout. reflexivity.
Defined.

(** Key 5678 already names a segment of 16 bytes. *)
Lemma main_when_init_fails_witness :
  let w0 := snd (snd (SysV.__init__ 5678 16
                        (SysV.Self 0 0 None None,
                         Kernel.World boot (user 1000)))) in
  let w := switch (user 1000) w0 in
  SysVMain.main (H := Json.runtime) [SysVMain.Line "read"; SysVMain.Line "quit"] w
  = (SysVMain.NameError "shared_mem" (SysV.os_error "shmget" Kernel.EINVAL),
     (None, Kernel.World (Kernel.kern w)
              (Kernel.set_errno Kernel.EINVAL (Kernel.proc w)))).
Proof.
  intros w0 w.
  refine (eq_trans
            (main_when_init_fails (H := Json.runtime)
               [SysVMain.Line "read"; SysVMain.Line "quit"] w 0
               (Kernel.Shm 5678 16 1000 438 1 false (zeros 16)) _ _ _) _).
  - vm_compute. reflexivity.
  - vm_compute. reflexivity.
  - left. vm_compute. reflexivity.
  - reflexivity.
Defined.

(** The program's object after [cleanup]. *)
Lemma use_after_cleanup_witness :
  let st := snd (SysV.__init__ 5678 1024
                   (SysV.Self 0 0 None None, Kernel.World boot (user 1000))) in
  exists self' w',
    SysV.cleanup st = (Ok tt, (self', w'))
    /\ fst (SysVMain.read (H := Json.runtime) (self', w')) = Ok VNone
    /\ exists e,
         fst (SysVMain.write (H := Json.runtime) sample (self', w')) = Raise e
         /\ exn_cls e = TypeError.
Proof.
  intros st.
  destruct (use_after_cleanup (H := Json.runtime) (fst st) (snd st))
    as (self' & w' & Hc & (e & _ & Hr) & Hw); [vm_compute; reflexivity|].
  exists self', w'. split; [by destruct st|]. split; [by rewrite Hr|].
  destruct (Hw sample) as (e' & He' & [Hd|Hcls]).
  - vm_compute in Hd. discriminate.
  - exists e'. split; [by rewrite He'|done].
Defined.

